(** * AF-CBR-COMPAS: the data preprocessing notebook

    A shallow embedding of [data_preprocessing.ipynb], the notebook that turns
    the ProPublica COMPAS database into [data/compas.csv] and the three
    [*_bins.csv] files, with the properties of it that the specification
    states and further properties of the code.

    Layout:
    - [Py]: the Python builtins the notebook calls ([str.split], [str.replace],
      [int], [round], [datetime.strptime], date subtraction);
    - [Pd]: the pandas operations it calls, on cells that are null, an integer,
      a float or a string;
    - [Notebook]: the cells of the notebook, in order;
    - the theorems.

    Text is ASCII text: a [string] is the sequence of its bytes, comparison
    is bytewise, and [Py] gives the builtins as they act on ASCII text (see
    [Py.isascii]).  Python itself also takes the decimal digits and the white
    space of other scripts in [int] and [strptime]; a statement that depends
    on a text not being read says that the text is ASCII.  Floats are IEEE
    binary64 numbers, as [spec_float] with precision 53 and exponent bound
    1024.

    A column has no dtype of its own here: every cell keeps the type it has,
    where pandas may store the integers of a column that also holds [NaN] as
    floats of the same value.  The order of the columns inside a table of the
    database is not fixed by the notebook; [sex] and [age] are put first.  The
    columns that [people] carries along are taken to have labels of their own,
    so that no merge has to rename a column. *)

From Stdlib Require Import ZArith List String Ascii Bool Lia Permutation Sorted.
From Stdlib Require Import Floats.SpecFloat.
Import ListNotations.

Local Open Scope string_scope.
Local Open Scope Z_scope.

(** ** Results of fallible code *)

(** The Python exceptions the notebook can raise. *)
Inductive exn : Type :=
| ValueError
| TypeError
| AttributeError
| KeyError
| OverflowError
| ZeroDivisionError.

Inductive result (A : Type) : Type :=
| Ok (a : A)
| Raise (e : exn).

Arguments Ok {A} a.
Arguments Raise {A} e.

Definition bind {A B : Type} (r : result A) (k : A -> result B) : result B :=
  match r with
  | Ok a => k a
  | Raise e => Raise e
  end.

Notation "x <- r ;; k" := (bind r (fun x => k))
  (at level 61, r at next level, right associativity).

(** A loop whose body may raise: the first exception stops it. *)
Fixpoint mapM {A B : Type} (f : A -> result B) (l : list A) : result (list B) :=
  match l with
  | [] => Ok []
  | a :: l' => b <- f a ;; bs <- mapM f l' ;; Ok (b :: bs)
  end.

Definition of_option {A : Type} (e : exn) (o : option A) : result A :=
  match o with
  | Some a => Ok a
  | None => Raise e
  end.

(** ** Python builtins *)

Module Py.

(** *** Strings *)

(** [x.split(' ')[0]]: the text before the first space, all of [x] when it has
    none. *)
Fixpoint split_space_0 (s : string) : string :=
  match s with
  | EmptyString => EmptyString
  | String c s' => if (c =? " ")%char then EmptyString else String c (split_space_0 s')
  end.

(** [s.isascii()] *)
Fixpoint isascii (s : string) : bool :=
  match s with
  | EmptyString => true
  | String c s' => (N_of_ascii c <? 128)%N && isascii s'
  end.

(** ASCII white space, as [str.strip] sees it. *)
Definition is_space (c : ascii) : bool :=
  let n := N_of_ascii c in
  ((9 <=? n) && (n <=? 13) || (28 <=? n) && (n <=? 32))%N.

Fixpoint lstrip (s : string) : string :=
  match s with
  | EmptyString => EmptyString
  | String c s' => if is_space c then lstrip s' else s
  end.

Fixpoint rstrip (s : string) : string :=
  match s with
  | EmptyString => EmptyString
  | String c s' =>
      match rstrip s' with
      | EmptyString => if is_space c then EmptyString else String c EmptyString
      | t => String c t
      end
  end.

(** [s.strip()] *)
Definition strip (s : string) : string := rstrip (lstrip s).

Definition lower_char (c : ascii) : ascii :=
  let n := N_of_ascii c in
  if ((65 <=? n) && (n <=? 90))%N then ascii_of_N (n + 32) else c.

(** [s.lower()] *)
Fixpoint lower (s : string) : string :=
  match s with
  | EmptyString => EmptyString
  | String c s' => String (lower_char c) (lower s')
  end.

(** [s.replace(old, new)] scans [s] from the left and replaces every
    occurrence of [old] that does not overlap one already replaced.  [skip]
    counts the characters of a replaced occurrence still to be passed over. *)
Fixpoint replace_from (old new : string) (skip : nat) (s : string) : string :=
  match s with
  | EmptyString => EmptyString
  | String c s' =>
      match skip with
      | S k => replace_from old new k s'
      | O =>
          if prefix old s
          then new ++ replace_from old new (String.length old - 1) s'
          else String c (replace_from old new 0 s')
      end
  end.

(** With an empty [old], Python puts [new] before every character and at the
    end. *)
Fixpoint intersperse (new s : string) : string :=
  match s with
  | EmptyString => new
  | String c s' => new ++ String c (intersperse new s')
  end.

Definition replace (old new s : string) : string :=
  match old with
  | EmptyString => intersperse new s
  | _ => replace_from old new 0 s
  end.

(** [sub in s] *)
Fixpoint contains (sub s : string) : bool :=
  prefix sub s ||
  match s with
  | EmptyString => false
  | String _ s' => contains sub s'
  end.

(** ['_'.join(parts)] *)
Definition join_underscore (parts : list string) : string :=
  String.concat "_" parts.

(** *** Integers from text *)

Definition digit_of (c : ascii) : option Z :=
  let n := N_of_ascii c in
  if ((48 <=? n) && (n <=? 57))%N then Some (Z.of_N n - 48) else None.

(** Digits of a decimal literal, where one underscore may stand between two
    digits.  [acc] is the value read so far, [after_digit] tells whether the
    previous character was a digit. *)
Fixpoint digits_from (acc : Z) (after_digit : bool) (s : string) : option Z :=
  match s with
  | EmptyString => if after_digit then Some acc else None
  | String c s' =>
      match digit_of c with
      | Some d => digits_from (10 * acc + d) true s'
      | None =>
          if (c =? "_")%char && after_digit
          then match s' with
               | EmptyString => None
               | String c' _ =>
                   match digit_of c' with
                   | Some _ => digits_from acc false s'
                   | None => None
                   end
               end
          else None
      end
  end.

(** ASCII white space, as [int] skips it around a literal: the characters
    from the tab to the carriage return, and the space. *)
Definition is_int_space (c : ascii) : bool :=
  let n := N_of_ascii c in
  ((9 <=? n) && (n <=? 13) || (n =? 32))%N.

Fixpoint skip_left (s : string) : string :=
  match s with
  | EmptyString => EmptyString
  | String c s' => if is_int_space c then skip_left s' else s
  end.

Fixpoint skip_right (s : string) : string :=
  match s with
  | EmptyString => EmptyString
  | String c s' =>
      match skip_right s' with
      | EmptyString => if is_int_space c then EmptyString else String c EmptyString
      | t => String c t
      end
  end.

(** [int(s)] for an ASCII string: white space around, an optional sign,
    decimal digits. [None] stands for the [ValueError]. *)
Definition int_of_str (s : string) : option Z :=
  match skip_right (skip_left s) with
  | String "-" t => option_map Z.opp (digits_from 0 false t)
  | String "+" t => digits_from 0 false t
  | t => digits_from 0 false t
  end.

(** *** Floats *)

Definition prec : Z := 53.
Definition emax : Z := 1024.

(** [float(z)] for an integer: the nearest binary64 number (ties to even),
    [None] when it is out of range ([OverflowError]). *)
Definition float_of_Z (z : Z) : option spec_float :=
  match binary_normalize prec emax z 0 false with
  | S754_infinity _ => None
  | f => Some f
  end.

(** The float literal [365.25], which is [1461 / 4] exactly. *)
Definition c365_25 : spec_float := binary_normalize prec emax 1461 (-2) false.

(** [x / y] on floats. Python raises on a zero divisor. *)
Definition truediv (x y : spec_float) : option spec_float :=
  match y with
  | S754_zero _ => None
  | _ => Some (SFdiv prec emax x y)
  end.

(** Round half to even of [m * 2^e], [m] a natural number. *)
Definition round_half_even (m e : Z) : Z :=
  if 0 <=? e then m * 2 ^ e
  else
    let d := 2 ^ (- e) in
    let q := m / d in
    let r := m mod d in
    match 2 * r ?= d with
    | Lt => q
    | Gt => q + 1
    | Eq => if Z.even q then q else q + 1
    end.

(** [round(x)] with one argument: the nearest integer, ties to even.  [None]
    for NaN and the infinities, on which Python raises. *)
Definition round (x : spec_float) : option Z :=
  match x with
  | S754_zero _ => Some 0
  | S754_finite s m e =>
      let n := round_half_even (Z.pos m) e in
      Some (if s then - n else n)
  | _ => None
  end.

(** *** Dates (module [datetime]) *)

Definition is_leap (year : Z) : bool :=
  (year mod 4 =? 0) && (negb (year mod 100 =? 0) || (year mod 400 =? 0)).

Definition days_before_year (year : Z) : Z :=
  let y := year - 1 in
  y * 365 + y / 4 - y / 100 + y / 400.

Definition days_in_month (year month : Z) : Z :=
  if (month =? 2) && is_leap year then 29
  else nth (Z.to_nat month) [-1; 31; 28; 31; 30; 31; 30; 31; 31; 30; 31; 30; 31] (-1).

Definition days_before_month (year month : Z) : Z :=
  nth (Z.to_nat month) [-1; 0; 31; 59; 90; 120; 151; 181; 212; 243; 273; 304; 334] (-1)
  + (if (2 <? month) && is_leap year then 1 else 0).

Record date : Type := mkdate { year : Z; month : Z; day : Z }.

(** [date.toordinal()]: day 1 is 0001-01-01. *)
Definition ymd2ord (d : date) : Z :=
  days_before_year (year d) + days_before_month (year d) (month d) + day d.

(** [(d2 - d1).days] for two dates at midnight. *)
Definition days_between (d1 d2 : date) : Z := ymd2ord d2 - ymd2ord d1.

(** The field of a date that the directive [%m] or [%d] accepts: one digit
    from 1 to 9, two digits, and for [%d] also a space and a digit. *)
Definition field2 (allow_space : bool) (s : string) : option Z :=
  match s with
  | String a EmptyString =>
      match digit_of a with
      | Some d => if 1 <=? d then Some d else None
      | None => None
      end
  | String a (String b EmptyString) =>
      match digit_of a, digit_of b with
      | Some x, Some y => Some (10 * x + y)
      | None, Some y =>
          if allow_space && (a =? " ")%char && (1 <=? y) then Some y else None
      | _, _ => None
      end
  | _ => None
  end.

(** The text before the first ["-"] and the text after it. *)
Fixpoint cut_dash (s : string) : option (string * string) :=
  match s with
  | EmptyString => None
  | String c s' =>
      if (c =? "-")%char then Some (EmptyString, s')
      else match cut_dash s' with
           | Some (a, b) => Some (String c a, b)
           | None => None
           end
  end.

(** [datetime.strptime(s, "%Y-%m-%d")] for an ASCII string: four digits, a
    month from 1 to 12 and a day that the month has, all of [s] consumed.
    [None] stands for the [ValueError]. *)
Definition strptime (s : string) : option date :=
  match s with
  | String y1 (String y2 (String y3 (String y4 (String "-" rest)))) =>
      match digit_of y1, digit_of y2, digit_of y3, digit_of y4, cut_dash rest with
      | Some a, Some b, Some c, Some d, Some (ms, ds) =>
          let y := 1000 * a + 100 * b + 10 * c + d in
          match field2 false ms, field2 true ds with
          | Some m, Some dd =>
              if (1 <=? y) && (1 <=? m) && (m <=? 12)
                 && (1 <=? dd) && (dd <=? days_in_month y m)
              then Some (mkdate y m dd) else None
          | _, _ => None
          end
      | _, _, _, _, _ => None
      end
  | _ => None
  end.

End Py.

(** ** pandas operations *)

Module Pd.

(** A cell of a data frame: what [read_sql_query] delivers for a NULL, an
    INTEGER, a REAL and a TEXT value.  [NaN] and [None] are both [VNull]. *)
Inductive value : Type :=
| VNull
| VInt (z : Z)
| VFloat (f : spec_float)
| VStr (s : string).

(** [pd.isna] *)
Definition isna (v : value) : bool :=
  match v with
  | VNull => true
  | VFloat S754_nan => true
  | _ => false
  end.

(** The elementwise test [cell == s] against a string. *)
Definition eq_str (v : value) (s : string) : bool :=
  match v with
  | VStr t => (t =? s)%string
  | _ => false
  end.

(** A data frame: the column labels and the rows, each row holding one cell
    per column.  Column labels are taken to be distinct, as those of the
    database tables and of the frames built from them are. *)
Record frame : Type := mkframe {
  columns : list string;
  rows : list (list value)
}.

(** [df.dropna()]: the rows without a null cell. *)
Definition row_notna (r : list value) : bool := forallb (fun v => negb (isna v)) r.

Definition dropna (df : frame) : frame :=
  mkframe (columns df) (filter row_notna (rows df)).

(** Position of a column label. *)
Fixpoint col_index (c : string) (cols : list string) : option nat :=
  match cols with
  | [] => None
  | c' :: cols' =>
      if (c' =? c)%string then Some O
      else option_map S (col_index c cols')
  end.

(** Cell [j] of a row rewritten by [g], which may raise. *)
Fixpoint update_nth (g : value -> result value) (j : nat) (r : list value)
  : result (list value) :=
  match r, j with
  | [], _ => Ok []
  | v :: r', O => v' <- g v ;; Ok (v' :: r')
  | v :: r', S j' => r'' <- update_nth g j' r' ;; Ok (v :: r'')
  end.

(** [df[c] = df[c].map(g)] on the column at position [j]: the cells are
    visited from the first row on, and the first exception stops the visit. *)
Definition map_column (g : value -> result value) (j : nat) (df : frame)
  : result frame :=
  rs <- mapM (update_nth g j) (rows df) ;; Ok (mkframe (columns df) rs).

(** The cells of the column at position [j], from the first row on. *)
Definition column_cells (j : nat) (df : frame) : list value :=
  flat_map (fun r => match nth_error r j with
                     | Some v => [v]
                     | None => []
                     end) (rows df).

(** *** Sorting and grouping *)

Section Sort.
Context {A : Type} (leb : A -> A -> bool).

Fixpoint insert_sorted (x : A) (l : list A) : list A :=
  match l with
  | [] => [x]
  | y :: l' => if leb x y then x :: l else y :: insert_sorted x l'
  end.

(** [df.sort_values(by)], with [leb] the order of the keys.  Rows with
    equal keys keep their order here; pandas promises that only for a sort
    on several keys, and nothing below depends on it. *)
Definition sort_values (l : list A) : list A := fold_right insert_sorted [] l.
End Sort.

(** The distinct keys of a [groupby], in ascending order. *)
Definition group_keys (keys : list Z) : list Z :=
  sort_values Z.leb (nodup Z.eq_dec keys).

(** The order of a nullable text column under [sort_values]: nulls last. *)
Definition opt_str_leb (a b : option string) : bool :=
  match a, b with
  | Some s, Some t => String.leb s t
  | Some _, None => true
  | None, Some _ => false
  | None, None => true
  end.

(** [GroupBy.first] on a nullable column: the first entry that is not null,
    null when the group has none. *)
Fixpoint first_notnull {A : Type} (l : list (option A)) : option A :=
  match l with
  | [] => None
  | Some a :: _ => Some a
  | None :: l' => first_notnull l'
  end.

(** *** Merging *)

Section Merge.
Context {L R : Type} (key_l : L -> Z) (key_r : R -> Z).

Definition matches (l : L) (right : list R) : list R :=
  filter (fun r => key_r r =? key_l l) right.

(** [left.merge(right, on=key, how='left')]: every left row, once per right
    row with its key, and once with nulls when there is none. *)
Definition merge_left (left : list L) (right : list R) : list (L * option R) :=
  flat_map (fun l =>
              match matches l right with
              | [] => [(l, None)]
              | ms => map (fun r => (l, Some r)) ms
              end) left.

(** [left.merge(right, on=key)]: the pairs of rows with equal keys, in the
    order of the left rows. *)
Definition merge_inner (left : list L) (right : list R) : list (L * R) :=
  flat_map (fun l => map (fun r => (l, r)) (matches l right)) left.
End Merge.

(** [df.drop_duplicates(subset=key)]: a row is kept when its key has not been
    seen in an earlier row. *)
Fixpoint drop_duplicates_from {A : Type} (key : A -> Z) (seen : list Z) (l : list A)
  : list A :=
  match l with
  | [] => []
  | a :: l' =>
      if existsb (Z.eqb (key a)) seen then drop_duplicates_from key seen l'
      else a :: drop_duplicates_from key (key a :: seen) l'
  end.

Definition drop_duplicates {A : Type} (key : A -> Z) (l : list A) : list A :=
  drop_duplicates_from key [] l.

(** *** Pivoting *)

Section Pivot.
Context {A : Type} (index : A -> Z) (column : A -> string).

Definition same_entry (a b : A) : bool :=
  (index a =? index b) && (column a =? column b)%string.

(** Whether two rows share index and column label, on which [pivot] raises
    "Index contains duplicate entries, cannot reshape". *)
Fixpoint duplicated (l : list A) : bool :=
  match l with
  | [] => false
  | a :: l' => existsb (same_entry a) l' || duplicated l'
  end.

(** The column labels of the second level: the distinct labels, sorted. *)
Definition pivot_labels (l : list A) : list string :=
  sort_values String.leb (nodup string_dec (map column l)).

(** The cell at index [i] and label [c] for the value column read by
    [get]: the value of the row with that index and label, [NaN] when
    there is none. *)
Definition pivot_cell (l : list A) (get : A -> value) (i : Z) (c : string) : value :=
  match filter (fun a => (index a =? i) && (column a =? c)%string) l with
  | a :: _ => get a
  | [] => VNull
  end.

(** [df.pivot(index, columns, values)] with a list of value columns: the
    column labels are the pairs (value column, label), value column first;
    there is one row per index, in ascending order. *)
Definition pivot (values : list (string * (A -> value))) (l : list A)
  : result (list (string * string) * list (Z * list value)) :=
  if duplicated l then Raise ValueError
  else
    let labels := pivot_labels l in
    Ok (flat_map (fun v => map (fun c => (fst v, c)) labels) values,
        map (fun i =>
               (i, flat_map (fun v => map (pivot_cell l (snd v) i) labels) values))
            (group_keys (map index l))).
End Pivot.

(** *** Type coercion *)

Definition int64_min : Z := - 2 ^ 63.
Definition int64_max : Z := 2 ^ 63 - 1.
Definition in_int64 (z : Z) : bool := (int64_min <=? z) && (z <=? int64_max).

(** The integer a float is equal to, when it is one. *)
Definition integral_value (f : spec_float) : option Z :=
  match f with
  | S754_zero _ => Some 0
  | S754_finite s m e =>
      if 0 <=? e then Some (cond_Zopp s (Z.pos m * 2 ^ e))
      else if Z.pos m mod 2 ^ (- e) =? 0
           then Some (cond_Zopp s (Z.pos m / 2 ^ (- e)))
           else None
  | _ => None
  end.

(** The integer part of a float, as [int(x)] takes it (towards zero). *)
Definition trunc_value (f : spec_float) : option Z :=
  match f with
  | S754_zero _ => Some 0
  | S754_finite s m e =>
      if 0 <=? e then Some (cond_Zopp s (Z.pos m * 2 ^ e))
      else Some (cond_Zopp s (Z.pos m / 2 ^ (- e)))
  | _ => None
  end.

Section Coercion.
(** Python's [float] on a string, which the notebook reaches only through
    pandas; it is kept abstract.  [None] stands for its [ValueError]. *)
Variable float_of_str : string -> option spec_float.

(** One cell under [Series.astype(float)]: nulls become [NaN], integers and
    strings are converted. *)
Definition astype_float (v : value) : result value :=
  match v with
  | VNull => Ok VNull
  | VInt z => f <- of_option OverflowError (Py.float_of_Z z) ;; Ok (VFloat f)
  | VFloat f => Ok (VFloat f)
  | VStr s => f <- of_option ValueError (float_of_str s) ;; Ok (VFloat f)
  end.

(** One cell of a float column under the cast of [astype(pd.Int64Dtype())]:
    [NaN] becomes [<NA>]; any other float must be equal to an integer of 64
    bits, else pandas raises "cannot safely cast non-equivalent float64 to
    int64". *)
Definition astype_Int64 (v : value) : result value :=
  match v with
  | VFloat f =>
      if isna v then Ok VNull
      else match integral_value f with
           | Some z => if in_int64 z then Ok (VInt z) else Raise TypeError
           | None => Raise TypeError
           end
  | VNull => Ok VNull
  | VInt z => Ok (VInt z)
  | VStr _ => Raise TypeError
  end.

(** The larger of two floats. *)
Definition float_max (a b : spec_float) : spec_float :=
  if SFltb a b then b else a.

(** [values[np.nanargmax(values)]]: the largest cell of a float column that
    is not [NaN], when it has one. *)
Fixpoint nanmax (col : list value) : option spec_float :=
  match col with
  | [] => None
  | VFloat f :: col' =>
      if isna (VFloat f) then nanmax col'
      else match nanmax col' with
           | Some m => Some (float_max f m)
           | None => Some f
           end
  | _ :: col' => nanmax col'
  end.

(** A cell of which [int] raises an [OverflowError], or gives an integer
    that 64 bits do not hold. *)
Definition int_overflows (v : value) : bool :=
  match v with
  | VFloat f =>
      match trunc_value f with
      | Some z => negb (in_int64 z)
      | None => negb (isna v)
      end
  | _ => false
  end.

(** [df[c] = df[c].astype(float).astype(pd.Int64Dtype())] on the column at
    position [j].  The whole column is made floats first.  Then pandas takes
    [int] of the largest value, which raises on an infinity.  When that
    value is not equal to an integer the cells are cast as Python floats,
    each through [int], and the cast is refused at the end; else the cells
    are cast as they are. *)
Definition to_Int64 (j : nat) (df : frame) : result frame :=
  df1 <- map_column astype_float j df ;;
  match nanmax (column_cells j df1) with
  | Some (S754_infinity _) => Raise OverflowError
  | Some m =>
      match integral_value m with
      | Some _ => map_column astype_Int64 j df1
      | None =>
          if existsb int_overflows (column_cells j df1)
          then Raise OverflowError
          else Raise TypeError
      end
  | None => map_column astype_Int64 j df1
  end.
End Coercion.

(** One cell of an object column under [astype("int64")]: NumPy calls [int]
    on it, which raises a [TypeError] on [None], a [ValueError] on a [NaN]
    and on text that is no integer, and an [OverflowError] on an infinity. *)
Definition astype_int64 (v : value) : result value :=
  match v with
  | VNull => Raise TypeError
  | VInt z => if in_int64 z then Ok (VInt z) else Raise OverflowError
  | VFloat f =>
      match trunc_value f with
      | Some z => if in_int64 z then Ok (VInt z) else Raise OverflowError
      | None => if isna v then Raise ValueError else Raise OverflowError
      end
  | VStr s =>
      match Py.int_of_str s with
      | Some z => if in_int64 z then Ok (VInt z) else Raise OverflowError
      | None => Raise ValueError
      end
  end.

End Pd.

(** ** The notebook *)

Module Notebook.
Import Pd.

(** *** Imports *)

(** A [dict] with text for keys: its items in the order of insertion, no key
    twice. *)
Definition dict (V : Type) : Type := list (string * V).

(** [d[k]] *)
Fixpoint getitem {V : Type} (d : dict V) (k : string) : result V :=
  match d with
  | [] => Raise KeyError
  | (k', v) :: d' => if (k' =? k)%string then Ok v else getitem d' k
  end.

(** [d[k] = v]: the value of a key that is there is replaced, a new key comes
    last. *)
Fixpoint setitem {V : Type} (d : dict V) (k : string) (v : V) : dict V :=
  match d with
  | [] => [(k, v)]
  | (k', v') :: d' =>
      if (k' =? k)%string then (k', v) :: d' else (k', v') :: setitem d' k v
  end.

(** The class [fdict], a [dict] that can be called: [__call__] is the
    subscript. *)
Definition fdict (V : Type) : Type := dict V.

Definition call {V : Type} (d : fdict V) (k : string) : result V := getitem d k.

(** *** Extract frames from the SQL database file *)

(** [tables]: the names that the query on [sqlite_master] fetched, without
    ["summary"]. *)
Definition tables (fetched : list string) : list string :=
  filter (fun table => negb (table =? "summary")%string) fetched.

(** [dfd]: what [read_sql_query] reads of every table, under its name. *)
Definition dfd {F : Type} (read_sql_query : string -> F) (fetched : list string) : dict F :=
  fold_left (fun d table => setitem d table (read_sql_query table)) (tables fetched) [].

(** *** The tables of [data/compas.db]

    Only the columns the notebook reads are fields.  The columns it drops
    without reading are left out, the columns of [people] it carries to the
    output without reading are the list [others].  Identifiers and the
    assessment type are never null. *)

Module People.
Record row : Type := mkrow {
  id : Z;
  sex : value;
  dob : value;
  age : value;
  others : list value
}.
End People.

Module Casearrest.
Record row : Type := mkrow {
  person_id : Z;
  arrest_date : option string
}.
End Casearrest.

Module Compas.
Record row : Type := mkrow {
  id : value;
  person_id : Z;
  compas_assessment_id : Z;
  type_of_assessment : string;
  raw_score : value;
  decile_score : value;
  score_text : value;
  marital_status : value;
  rec_supervision_level : value
}.
End Compas.

(** [dfd], with the labels of the [others] columns of [people]. *)
Record database : Type := mkdatabase {
  people : list People.row;
  people_others : list string;
  casearrest : list Casearrest.row;
  compas : list Compas.row
}.

(** *** Compute age-at-first-arrest column *)

(** [first_arrest]: per person the first arrest date that is not null, the
    arrests sorted by date. *)
Definition first_arrest (arrests : list Casearrest.row) : list (Z * option string) :=
  let sorted :=
    sort_values (fun a b => opt_str_leb (Casearrest.arrest_date a) (Casearrest.arrest_date b))
                arrests in
  map (fun k =>
         (k, first_notnull
               (map Casearrest.arrest_date
                    (filter (fun a => Casearrest.person_id a =? k) sorted))))
      (group_keys (map Casearrest.person_id sorted)).

(** [ext_people['dob'].apply(lambda x: x.split(' ')[0])]: only a string has
    [split]. *)
Definition dob_date (v : value) : result string :=
  match v with
  | VStr s => Ok (Py.split_space_0 s)
  | _ => Raise AttributeError
  end.

(** The [arrest_date] cell after the left merge, [fillna("No_arrest")],
    [astype(str)] and the split. *)
Definition arrest_text (m : option (Z * option string)) : string :=
  Py.split_space_0
    match m with
    | Some (_, Some s) => s
    | _ => "No_arrest"
    end.

Definition time_diff (s1 s2 : string) (s3 : value) : result value :=
  if (s2 =? "No_arrest")%string then Ok s3
  else
    d1 <- of_option ValueError (Py.strptime s1) ;;
    d2 <- of_option ValueError (Py.strptime s2) ;;
    x <- of_option OverflowError (Py.float_of_Z (Py.days_between d1 d2)) ;;
    q <- of_option ZeroDivisionError (Py.truediv x Py.c365_25) ;;
    n <- of_option ValueError (Py.round q) ;;
    Ok (VInt n).

(** A row of [ext_people] at the end of the cell. *)
Record ext_person : Type := mkext {
  person_id : Z;
  sex : value;
  age : value;
  others : list value;
  age_at_first_arrest : value
}.

(** The cell.  On a frame without rows [apply] gives back a frame, which
    the assignment to the one column [age_at_first_arrest] refuses with a
    [ValueError]. *)
Definition age_cell (arrests : list Casearrest.row) (people : list People.row)
  : result (list ext_person) :=
  let first_arrest := first_arrest arrests in
  with_dob <- mapM (fun p => d <- dob_date (People.dob p) ;; Ok (p, d)) people ;;
  let merged := merge_left (fun pd => People.id (fst pd)) fst with_dob first_arrest in
  match merged with
  | [] => Raise ValueError
  | _ :: _ =>
      mapM (fun row =>
              let '((p, d), m) := row in
              a <- time_diff d (arrest_text m) (People.age p) ;;
              Ok (mkext (People.id p) (People.sex p) (People.age p) (People.others p) a))
           merged
  end.

(** *** Join marital status and risk scores *)

(** [compas_df]: the rows whose score text is not ["N/A"]. *)
Definition compas_df (compas : list Compas.row) : list Compas.row :=
  filter (fun r => negb (eq_str (Compas.score_text r) "N/A")) compas.

(** The order of [sort_values(by=['person_id', 'compas_assessment_id'])]. *)
Definition screening_leb (a b : Compas.row) : bool :=
  (Compas.person_id a <? Compas.person_id b)
  || (Compas.person_id a =? Compas.person_id b)
     && (Compas.compas_assessment_id a <=? Compas.compas_assessment_id b).

Definition compas_df_sorted (compas : list Compas.row) : list Compas.row :=
  sort_values screening_leb (compas_df compas).

(** [first_screening[['person_id', 'compas_assessment_id']]]: per person the
    identifier in the first row of the group. *)
Definition first_screening (compas : list Compas.row) : list (Z * Z) :=
  let sorted := compas_df_sorted compas in
  flat_map (fun k =>
              match filter (fun r => Compas.person_id r =? k) sorted with
              | r :: _ => [(k, Compas.compas_assessment_id r)]
              | [] => []
              end)
           (group_keys (map Compas.person_id sorted)).

(** [first_screening_df]: the inner merge on both identifiers keeps a sorted
    row once for every row of [first_screening] with its pair. *)
Definition first_screening_df (compas : list Compas.row) : list Compas.row :=
  let firsts := first_screening compas in
  flat_map (fun r =>
              map (fun _ => r)
                  (filter (fun f => (fst f =? Compas.person_id r)
                                    && (snd f =? Compas.compas_assessment_id r))
                          firsts))
           (compas_df_sorted compas).

(** The three value columns of the pivot. *)
Definition pivot_values : list (string * (Compas.row -> value)) :=
  [("raw_score", Compas.raw_score);
   ("decile_score", Compas.decile_score);
   ("score_text", Compas.score_text)].

(** ['_'.join(col).strip().replace(' ', '_').lower()] *)
Definition pivot_column_name (col : string * string) : string :=
  Py.lower (Py.replace " " "_" (Py.strip (Py.join_underscore [fst col; snd col]))).

(** [pivoted_df] after [reset_index]: the labels of the pivoted columns, and
    per person the [person_id] and the cells. *)
Record wide : Type := mkwide {
  wide_columns : list string;
  wide_rows : list (Z * list value)
}.

Definition pivoted_df (compas : list Compas.row) : result wide :=
  p <- pivot Compas.person_id Compas.type_of_assessment pivot_values
             (first_screening_df compas) ;;
  Ok (mkwide (map pivot_column_name (fst p)) (snd p)).

(** [other_columns]: the first row of every person. *)
Definition other_columns (compas : list Compas.row) : list Compas.row :=
  drop_duplicates Compas.person_id (first_screening_df compas).

Definition final_df (compas : list Compas.row) (w : wide)
  : list (Compas.row * (Z * list value)) :=
  merge_inner Compas.person_id fst (other_columns compas) (wide_rows w).

(** The row of [ext_people] after the left merge with [final_df] and the drop
    of [id], [person_id] and [decile_score]. *)
Definition joined_row (w : wide)
  (row : ext_person * option (Compas.row * (Z * list value))) : list value :=
  let (p, m) := row in
  [sex p; age p] ++ others p ++ [age_at_first_arrest p]
  ++ match m with
     | Some (o, (_, cells)) =>
         [Compas.marital_status o; Compas.rec_supervision_level o] ++ cells
     | None => repeat VNull (2 + List.length (wide_columns w))
     end.

Definition join_cell (db : database) (ext_people : list ext_person) : result frame :=
  w <- pivoted_df (compas db) ;;
  let final := final_df (compas db) w in
  let merged := merge_left person_id (fun f => Compas.person_id (fst f)) ext_people final in
  Ok (mkframe
        (["sex"; "age"] ++ people_others db
         ++ ["age_at_first_arrest"; "marital_status"; "rec_supervision_level"]
         ++ wide_columns w)
        (map (joined_row w) merged)).

(** *** Rename some columns and values *)

Definition repl : list (string * string) :=
  [("raw_score", "rs");
   ("decile_score", "ds");
   ("rec_supervision_level", "slevel");
   ("risk_of_failure_to_appear", "fta");
   ("risk_of_recidivism", "grecid");
   ("risk_of_violence", "vrecid");
   ("score_text_fta", "fta_text");
   ("score_text_grecid", "grecid_text");
   ("score_text_vrecid", "vrecid_text");
   ("sex", "male")].

(** [for k in m: columns = columns.str.replace(k, m[k])] *)
Definition rename_columns (m : list (string * string)) (cols : list string) : list string :=
  fold_left (fun cs kv => map (Py.replace (fst kv) (snd kv)) cs) m cols.

(** [r_dict], as [Series.replace] applies it to a cell. *)
Definition r_dict (v : value) : value :=
  if eq_str v "Male" then VInt 1
  else if eq_str v "Female" then VInt 0
  else v.

Section Normalize.
Variable float_of_str : string -> option spec_float.

(** The loop over the columns: the column at position [j] is coerced when
    its label contains ["ds_"]. *)
Fixpoint coerce_ds (cols : list string) (j : nat) (df : frame) : result frame :=
  match cols with
  | [] => Ok df
  | c :: cols' =>
      df' <- (if Py.contains "ds_" c
              then to_Int64 float_of_str j df
              else Ok df) ;;
      coerce_ds cols' (S j) df'
  end.

Definition male_column (df : frame) : result frame :=
  match col_index "male" (columns df) with
  | None => Raise KeyError
  | Some j =>
      df1 <- map_column (fun v => Ok (r_dict v)) j df ;;
      map_column astype_int64 j df1
  end.

Definition rename_cell (df : frame) : result frame :=
  let df1 := mkframe (rename_columns repl (columns df)) (rows df) in
  df2 <- coerce_ds (columns df1) 0 df1 ;;
  male_column df2.
End Normalize.

(** *** Make the lists of binnings *)

(** The rows of one assessment type, of [df] without the invalid scores:
    the three score columns, without the rows that hold a null. *)
Definition bins (type : string) (compas : list Compas.row) : frame :=
  let df := filter (fun r => negb (eq_str (Compas.score_text r) "N/A")) compas in
  let of_type := filter (fun r => (Compas.type_of_assessment r =? type)%string) df in
  dropna (mkframe ["raw_score"; "decile_score"; "score_text"]
                  (map (fun r => [Compas.raw_score r; Compas.decile_score r;
                                  Compas.score_text r]) of_type)).

Definition fta_bins : list Compas.row -> frame := bins "Risk of Failure to Appear".
Definition grecid_bins : list Compas.row -> frame := bins "Risk of Recidivism".
Definition vrecid_bins : list Compas.row -> frame := bins "Risk of Violence".

(** *** Write out to [.csv] files *)

(** The four files the last cell writes. *)
Record outputs : Type := mkoutputs {
  compas_csv : frame;
  fta_bins_csv : frame;
  grecid_bins_csv : frame;
  vrecid_bins_csv : frame
}.

(** [ext_people] when the last cell starts. An exception in a cell stops the
    run there, before anything is written. *)
Definition ext_people (float_of_str : string -> option spec_float) (db : database)
  : result frame :=
  ext_people <- age_cell (casearrest db) (people db) ;;
  ext_people <- join_cell db ext_people ;;
  rename_cell float_of_str ext_people.

(** The notebook from the first cell to the last. *)
Definition run (float_of_str : string -> option spec_float) (db : database)
  : result outputs :=
  ext_people <- ext_people float_of_str db ;;
  Ok (mkoutputs (dropna ext_people)
                (fta_bins (compas db))
                (grecid_bins (compas db))
                (vrecid_bins (compas db))).

End Notebook.

(** ** Vocabulary of the specification *)

Section Vocabulary.
Import Pd Notebook.

(** Person [k] has an arrest record with the date [s]. *)
Definition dated_arrest (arrests : list Casearrest.row) (k : Z) (s : string) : Prop :=
  exists a, In a arrests /\ Casearrest.person_id a = k /\ Casearrest.arrest_date a = Some s.

(** [s] is the earliest arrest date of person [k]: the least of the dates
    of the arrest records of [k], in the order of the texts. *)
Definition earliest_arrest_date (arrests : list Casearrest.row) (k : Z) (s : string) : Prop :=
  dated_arrest arrests k s /\
  forall t, dated_arrest arrests k t -> String.leb s t = true.

(** The row of [first_arrest] that the left merge finds for person [k]. *)
Definition arrest_of (arrests : list Casearrest.row) (k : Z) : option (Z * option string) :=
  find (fun r => fst r =? k) (first_arrest arrests).

(** [round(days / 365.25)] *)
Definition rounded_years (days : Z) : option Z :=
  match Py.float_of_Z days with
  | Some x =>
      match Py.truediv x Py.c365_25 with
      | Some q => Py.round q
      | None => None
      end
  | None => None
  end.

(** What the cell computes for one person. *)
Definition age_row (arrests : list Casearrest.row) (p : People.row) (e : ext_person) : Prop :=
  exists d a,
    dob_date (People.dob p) = Ok d /\
    time_diff d (arrest_text (arrest_of arrests (People.id p))) (People.age p) = Ok a /\
    e = mkext (People.id p) (People.sex p) (People.age p) (People.others p) a.

(** Whether no row of [rows] of the same person has a smaller assessment
    identifier than [r]. *)
Definition smallest_assessment (rows : list Compas.row) (r : Compas.row) : bool :=
  forallb (fun r' => negb (Compas.person_id r' =? Compas.person_id r)
                     || (Compas.compas_assessment_id r <=? Compas.compas_assessment_id r'))
          rows.

(** The identifier [first_screening] keeps for person [k]. *)
Definition first_of (compas : list Compas.row) (k : Z) : list (Z * Z) :=
  match filter (fun r => Compas.person_id r =? k) (compas_df_sorted compas) with
  | r :: _ => [(k, Compas.compas_assessment_id r)]
  | [] => []
  end.

(** The entries of a mapping applied to one label, in their order. *)
Definition rename_one (m : list (string * string)) (c : string) : string :=
  fold_left (fun s kv => Py.replace (fst kv) (snd kv) s) m c.

(** What [astype(float).astype(pd.Int64Dtype())] makes of one cell of a
    column that it takes: the float of the cell, then the integer that float
    is equal to. *)
Definition to_nullable_int (float_of_str : string -> option spec_float) (v : value)
  : result value :=
  f <- astype_float float_of_str v ;; astype_Int64 f.

(** The loop over the columns, on one row of a frame that it takes: the
    cells under a label that contains ["ds_"] become nullable integers. *)
Fixpoint coerce_row (float_of_str : string -> option spec_float)
         (cols : list string) (r : list value) : result (list value) :=
  match cols, r with
  | c :: cols', v :: r' =>
      v' <- (if Py.contains "ds_" c then to_nullable_int float_of_str v else Ok v) ;;
      t <- coerce_row float_of_str cols' r' ;;
      Ok (v' :: t)
  | _, _ => Ok r
  end.

(** One row under [rename_cell]: the loop over the columns, then the two
    steps on the column [male]. *)
Definition renamed_row (float_of_str : string -> option spec_float)
           (cols : list string) (j0 : nat) (r0 r : list value) : Prop :=
  exists r1 r2,
    coerce_row float_of_str cols r0 = Ok r1 /\
    update_nth (fun v => Ok (r_dict v)) j0 r1 = Ok r2 /\
    update_nth astype_int64 j0 r2 = Ok r.

(** The three values of [type_of_assessment]. *)
Definition assessment_types : list string :=
  ["Risk of Failure to Appear"; "Risk of Recidivism"; "Risk of Violence"].

(** The naming of a pivoted column in the words of the specification, one
    character at a time: a space becomes an underscore, a capital letter the
    small letter, any other character stays. *)
Definition small_letters : list (ascii * ascii) :=
  combine (list_ascii_of_string "ABCDEFGHIJKLMNOPQRSTUVWXYZ")
          (list_ascii_of_string "abcdefghijklmnopqrstuvwxyz").

Definition spec_char (c : ascii) : ascii :=
  if (c =? " ")%char then "_"%char
  else match find (fun l => (fst l =? c)%char) small_letters with
       | Some l => snd l
       | None => c
       end.

Fixpoint spec_label (s : string) : string :=
  match s with
  | EmptyString => EmptyString
  | String c s' => String (spec_char c) (spec_label s')
  end.

(** The white space of ASCII: tab, line feed, vertical tab, form feed,
    carriage return, the four separators and the space. *)
Definition white_space : list ascii :=
  map ascii_of_nat [9; 10; 11; 12; 13; 28; 29; 30; 31; 32]%nat.

Definition white (c : ascii) : bool := existsb (Ascii.eqb c) white_space.

(** A text without the white space it starts with. *)
Fixpoint drop_white (s : string) : string :=
  match s with
  | EmptyString => EmptyString
  | String c s' => if white c then drop_white s' else s
  end.

(** A text read from its end. *)
Fixpoint reverse (s : string) : string :=
  match s with
  | EmptyString => EmptyString
  | String c s' => reverse s' ++ String c EmptyString
  end.

(** A text without the white space around it. *)
Definition trimmed (s : string) : string :=
  reverse (drop_white (reverse (drop_white s))).

(** The columns of [ext_people] that the notebook names or builds, when the
    renaming starts. *)
Definition person_columns : list string :=
  (["sex"; "age"; "age_at_first_arrest"; "marital_status"; "rec_supervision_level"]
   ++ map pivot_column_name
          (list_prod ["raw_score"; "decile_score"; "score_text"] assessment_types))%list.

(** One entry of the mapping applied to one label. *)
Definition rename_step (kv : string * string) (s : string) : string :=
  Py.replace (fst kv) (snd kv) s.

(** Entry [a] is applied before entry [b] in the order [m]. *)
Definition applied_before (a b : string * string) (m : list (string * string)) : Prop :=
  exists l1 l2 l3, m = (l1 ++ a :: l2 ++ b :: l3)%list.

(** Equality of entries. *)
Definition entry_eqb (a b : string * string) : bool :=
  (fst a =? fst b)%string && (snd a =? snd b)%string.

(** The labels that entries of [repl] make of [l], by at most one step. *)
Definition rename_successors (l : list string) : list string :=
  nodup string_dec (l ++ flat_map (fun s => map (fun e => rename_step e s) repl) l)%list.

(** The labels the first eleven columns can become, in any order of the
    entries. *)
Definition order_free_labels : list string :=
  Eval vm_compute in
    rename_successors (rename_successors (rename_successors (firstn 11 person_columns))).

(** Whether every entry maps [S] into [S] and any two entries commute on
    [S]. *)
Definition closed_and_commuting (S : list string) (entries : list (string * string)) : bool :=
  forallb (fun s =>
    forallb (fun a =>
      existsb (String.eqb (rename_step a s)) S &&
      forallb (fun b =>
        (rename_step a (rename_step b s) =? rename_step b (rename_step a s))%string)
        entries)
      entries)
    S.

(** Label [A] becomes [B] by entry [a] and [B] becomes [C] by entry [b]; no
    other entry of [entries] changes one of the three, and [a] and [b] change
    nothing else of them. *)
Definition two_stage (entries : list (string * string)) (a b : string * string)
           (A B C : string) : bool :=
  (rename_step a A =? B)%string && (rename_step a B =? B)%string
  && (rename_step a C =? C)%string
  && (rename_step b A =? A)%string && (rename_step b B =? C)%string
  && (rename_step b C =? C)%string
  && negb (B =? C)%string && negb (entry_eqb a b)
  && forallb (fun e => entry_eqb e a || entry_eqb e b ||
                       (rename_step e A =? A)%string && (rename_step e B =? B)%string
                       && (rename_step e C =? C)%string) entries.

(** The row of [final_df] that the left merge finds for a person. *)
Definition final_of (db : database) (w : wide) (e : ext_person)
  : option (Compas.row * (Z * list value)) :=
  find (fun f => Compas.person_id (fst f) =? person_id e) (final_df (compas db) w).

(** The row of [ext_people] that the notebook makes of a person, when the
    last cell starts. *)
Definition person_row (float_of_str : string -> option spec_float)
           (db : database) (w : wide) (cols : list string)
           (p : People.row) (r : list value) : Prop :=
  exists e,
    age_row (casearrest db) p e /\
    renamed_row float_of_str cols 0 (joined_row w (e, final_of db w e)) r.

(** Whether [P] holds of the [2 ^ k] integers from [lo] on. *)
Fixpoint all_from (P : Z -> bool) (k : nat) (lo : Z) : bool :=
  match k with
  | O => P lo
  | S k' => all_from P k' lo && all_from P k' (lo + 2 ^ Z.of_nat k')
  end.

(** Whether [round(days / 365.25)] is the integer nearest to the exact
    quotient, [floor((8 * days + 1461) / 2922)]. *)
Definition rounds_exactly (days : Z) : bool :=
  match rounded_years days with
  | Some n => n =? (8 * days + 1461) / 2922
  | None => false
  end.

(** Year, month and day of a date as the database writes it: [YYYY-MM-DD]
    with two digits for the month and for the day, then the end of the text
    or a space and the time of day. *)
Definition iso_fields (s : string) : option (Z * Z * Z) :=
  match s with
  | String y1 (String y2 (String y3 (String y4 (String c1
      (String m1 (String m2 (String c2 (String d1 (String d2 rest))))))))) =>
      match Py.digit_of y1, Py.digit_of y2, Py.digit_of y3, Py.digit_of y4,
            Py.digit_of m1, Py.digit_of m2, Py.digit_of d1, Py.digit_of d2 with
      | Some a, Some b, Some c, Some d, Some e, Some f, Some g, Some h =>
          if (c1 =? "-")%char && (c2 =? "-")%char
             && match rest with
                | EmptyString => true
                | String sp _ => (sp =? " ")%char
                end
          then Some (1000 * a + 100 * b + 10 * c + d, 10 * e + f, 10 * g + h)
          else None
      | _, _, _, _, _, _, _, _ => None
      end
  | _ => None
  end.

(** A year, a month and a day that make a date of the calendar. *)
Definition valid_date (y m d : Z) : bool :=
  (1 <=? y) && (1 <=? m) && (m <=? 12) && (1 <=? d) && (d <=? Py.days_in_month y m).

(** The dates of person [p] are such that the age cell computes an age: the
    date of birth is text that [strptime] reads, and the first arrest date,
    when there is one, is read too and lies less than 2^15 days after the
    date of birth. *)
Definition age_defined (arrests : list Casearrest.row) (p : People.row) : Prop :=
  exists b d1,
    People.dob p = VStr b /\
    Py.strptime (Py.split_space_0 b) = Some d1 /\
    (arrest_text (arrest_of arrests (People.id p)) = "No_arrest" \/
     exists d2,
       Py.strptime (arrest_text (arrest_of arrests (People.id p))) = Some d2 /\
       0 <= Py.days_between d1 d2 < 32768).

(** The three cells of an assessment that a bin table holds. *)
Definition score_triple (r : Compas.row) : list value :=
  [Compas.raw_score r; Compas.decile_score r; Compas.score_text r].

(** An assessment whose score text is not ["N/A"] and whose three scores
    are not null. *)
Definition scored (r : Compas.row) : bool :=
  negb (eq_str (Compas.score_text r) "N/A") && row_notna (score_triple r).

(** A cell that [astype(float).astype(pd.Int64Dtype())] takes: a null, an
    integer below 2^53 in magnitude, or a float equal to an integer of 64
    bits. *)
Definition integer_cell (v : value) : bool :=
  match v with
  | VNull => true
  | VInt z => Z.abs z <? 2 ^ 53
  | VFloat x =>
      isna v || match integral_value x with
                | Some z => in_int64 z
                | None => false
                end
  | VStr _ => false
  end.

End Vocabulary.

(** ** Example data *)

Section Examples.
Import Pd Notebook.

(** The float that the decimal literal [n / d] denotes, for small [n] and
    [d]: [decimal 32 10] is [3.2]. *)
Definition decimal (n d : Z) : spec_float :=
  SFdiv Py.prec Py.emax (binary_normalize Py.prec Py.emax n 0 false)
        (binary_normalize Py.prec Py.emax d 0 false).

(** [float] on a string in the example runs, none of which has text in a
    column that is parsed as a float. *)
Definition no_float_text : string -> option spec_float := fun _ => None.

Definition assessment (person batch : Z) (type : string) (raw : spec_float) (decile : Z)
           (text : string) : Compas.row :=
  Compas.mkrow (VInt (10 * batch)) person batch type (VFloat raw) (VInt decile) (VStr text)
               (VStr "Single") (VInt 1).

(** Person 1 was born on 1980-01-01 and first arrested on 2000-01-01; the
    first valid assessment batch, 7, has the three types.  Person 2 has no
    arrest and a batch of two types, person 3 has arrests without a date and
    no assessment. *)
Definition person_1 : People.row :=
  People.mkrow 1 (VStr "Male") (VStr "1980-01-01 00:00:00.000000") (VInt 40) [VInt 0].

Definition person_2 : People.row :=
  People.mkrow 2 (VStr "Female") (VStr "1981-05-05 00:00:00.000000") (VInt 35) [VInt 2].

Definition person_3 : People.row :=
  People.mkrow 3 (VStr "Female") (VStr "1990-07-31 00:00:00.000000") (VInt 26) [VInt 1].

Definition example_people : list People.row := [person_1; person_2; person_3].

Definition example_arrests : list Casearrest.row :=
  [Casearrest.mkrow 1 (Some "2005-03-01 00:00:00.000000");
   Casearrest.mkrow 1 (Some "2000-01-01 00:00:00.000000");
   Casearrest.mkrow 1 None;
   Casearrest.mkrow 3 None].

Definition example_compas : list Compas.row :=
  [assessment 1 7 "Risk of Violence" (decimal 32 10) 4 "Medium";
   assessment 1 7 "Risk of Recidivism" (decimal 11 10) 2 "Low";
   assessment 1 7 "Risk of Failure to Appear" (decimal 15 10) 3 "Low";
   assessment 1 5 "Risk of Failure to Appear" (decimal (-1) 1) (-1) "N/A";
   assessment 1 9 "Risk of Violence" (decimal 41 10) 6 "High";
   assessment 2 3 "Risk of Violence" (decimal 32 10) 4 "Medium";
   assessment 2 3 "Risk of Recidivism" (decimal 11 10) 2 "Low"].

Definition example_db : database :=
  mkdatabase example_people ["priors_count"] example_arrests example_compas.

(** The same database without the row whose score text is ["N/A"]. *)
Definition example_db_valid : database :=
  mkdatabase example_people ["priors_count"] example_arrests (compas_df example_compas).

Definition example_ext : list ext_person :=
  Eval vm_compute in
    match age_cell example_arrests example_people with
    | Ok ext => ext
    | Raise _ => []
    end.

Definition example_wide : wide :=
  Eval vm_compute in
    match pivoted_df example_compas with
    | Ok w => w
    | Raise _ => mkwide [] []
    end.

Definition example_ext_people : frame :=
  Eval vm_compute in
    match ext_people no_float_text example_db with
    | Ok df => df
    | Raise _ => mkframe [] []
    end.

Definition example_out : outputs :=
  Eval vm_compute in
    match run no_float_text example_db with
    | Ok out => out
    | Raise _ => mkoutputs (mkframe [] []) (mkframe [] []) (mkframe [] []) (mkframe [] [])
    end.

(** A frame before the renaming, with a decile column. *)
Definition example_frame : frame :=
  mkframe ["sex"; "decile_score_risk_of_violence"; "score_text_risk_of_violence"]
          [[VStr "Male"; VInt 4; VStr "Medium"];
           [VStr "Female"; VNull; VNull]].

Definition example_frame_renamed : frame :=
  Eval vm_compute in
    match rename_cell no_float_text example_frame with
    | Ok df => df
    | Raise _ => mkframe [] []
    end.



(** The mapping with its last entry applied first. *)
Definition repl_sex_first : list (string * string) :=
  ("sex", "male") :: removelast repl.

(** A database in which one decile score is 1.5. *)
Definition half_decile_db : database :=
  mkdatabase
    [People.mkrow 1 (VStr "Male") (VStr "1980-01-01 00:00:00.000000") (VInt 40) []]
    []
    []
    [Compas.mkrow (VInt 70) 1 7 "Risk of Violence" (VFloat (decimal 32 10))
                  (VFloat (decimal 15 10)) (VStr "Medium") (VStr "Single") (VInt 1);
     assessment 1 7 "Risk of Recidivism" (decimal 11 10) 2 "Low";
     assessment 1 7 "Risk of Failure to Appear" (decimal 15 10) 3 "Low"].

(** A database in which the sex of the only person is the text ["7"]. *)
Definition sex_seven_db : database :=
  mkdatabase
    [People.mkrow 1 (VStr "7") (VStr "1980-01-01 00:00:00.000000") (VInt 40) []]
    []
    []
    [assessment 1 7 "Risk of Violence" (decimal 32 10) 4 "Medium";
     assessment 1 7 "Risk of Recidivism" (decimal 11 10) 2 "Low";
     assessment 1 7 "Risk of Failure to Appear" (decimal 15 10) 3 "Low"].

(** A database in which the sex of the second person is the text
    ["Other"]. *)
Definition other_sex_db : database :=
  mkdatabase
    [People.mkrow 1 (VStr "Male") (VStr "1980-01-01 00:00:00.000000") (VInt 40) [];
     People.mkrow 2 (VStr "Other") (VStr "1981-05-05 00:00:00.000000") (VInt 35) []]
    []
    []
    [assessment 1 7 "Risk of Violence" (decimal 32 10) 4 "Medium";
     assessment 1 7 "Risk of Recidivism" (decimal 11 10) 2 "Low";
     assessment 1 7 "Risk of Failure to Appear" (decimal 15 10) 3 "Low"].

(** A database in which the sex of the only person is null. *)
Definition null_sex_db : database :=
  mkdatabase
    [People.mkrow 1 VNull (VStr "1980-01-01 00:00:00.000000") (VInt 40) []]
    []
    []
    [assessment 1 7 "Risk of Violence" (decimal 32 10) 4 "Medium";
     assessment 1 7 "Risk of Recidivism" (decimal 11 10) 2 "Low";
     assessment 1 7 "Risk of Failure to Appear" (decimal 15 10) 3 "Low"].

(** A database in which no assessment is of the type "Risk of Failure to
    Appear". *)
Definition two_types_db : database :=
  mkdatabase
    [People.mkrow 1 (VStr "Male") (VStr "1980-01-01 00:00:00.000000") (VInt 40) []]
    []
    []
    [assessment 1 7 "Risk of Violence" (decimal 32 10) 4 "Medium";
     assessment 1 7 "Risk of Recidivism" (decimal 11 10) 2 "Low"].

(** The example database with the arrest records in the opposite order. *)
Definition example_db_reversed : database :=
  mkdatabase example_people ["priors_count"] (rev example_arrests) example_compas.

(** A database whose only person has no date of birth. *)
Definition null_dob_db : database :=
  mkdatabase [People.mkrow 1 (VStr "Male") VNull (VInt 40) []] [] [] [].

(** A database whose only person was arrested on a day that does not
    exist. *)
Definition unreadable_arrest_db : database :=
  mkdatabase
    [People.mkrow 1 (VStr "Male") (VStr "1980-01-01 00:00:00.000000") (VInt 40) []]
    []
    [Casearrest.mkrow 1 (Some "2000-02-30 00:00:00.000000")]
    [].

(** The example database with a second violence score in the first
    screening of person 1. *)
Definition twice_scored_db : database :=
  mkdatabase example_people ["priors_count"] example_arrests
    (assessment 1 7 "Risk of Violence" (decimal 32 10) 4 "Medium"
     :: assessment 1 7 "Risk of Violence" (decimal 35 10) 5 "Medium"
     :: example_compas).

End Examples.

(** * Proofs *)

Import Pd Notebook.

(** ** Results *)

Lemma bind_Ok {A B : Type} (r : result A) (k : A -> result B) (b : B) :
  bind r k = Ok b -> exists a, r = Ok a /\ k a = Ok b.
Proof. destruct r as [a|e]; simpl; intros H; [eauto | discriminate]. Qed.

Ltac inv_bind H :=
  let a := fresh "x" in
  let Ha := fresh "H" in
  apply bind_Ok in H; destruct H as (a & Ha & H).

Lemma mapM_Ok {A B : Type} (f : A -> result B) (l : list A) (l' : list B) :
  mapM f l = Ok l' -> Forall2 (fun a b => f a = Ok b) l l'.
Proof.
  revert l'; induction l as [|a l IH]; simpl; intros l' H.
  - injection H as <-. constructor.
  - inv_bind H. inv_bind H. injection H as <-. constructor; auto.
Qed.

Lemma mapM_total {A B : Type} (f : A -> result B) (g : A -> B) (l : list A) :
  (forall a, In a l -> f a = Ok (g a)) -> mapM f l = Ok (map g l).
Proof.
  induction l as [|a l IH]; simpl; intros H; [reflexivity|].
  rewrite (H a) by auto. simpl. rewrite IH by auto. reflexivity.
Qed.

Lemma mapM_Raise {A B : Type} (f : A -> result B) (l : list A) (e : exn) :
  mapM f l = Raise e -> exists a, In a l /\ f a = Raise e.
Proof.
  induction l as [|a l IH]; simpl; [discriminate|].
  destruct (f a) as [b|e'] eqn:Ea; cbn [bind].
  - destruct (mapM f l) as [bs|e'']; cbn [bind]; [discriminate|].
    intros [= <-]. destruct (IH eq_refl) as (a' & Hin & Ha'). eauto.
  - intros [= <-]. eauto.
Qed.

Lemma bind_Raise {A B : Type} (r : result A) (k : A -> result B) (e : exn) :
  bind r k = Raise e -> r = Raise e \/ exists a, r = Ok a /\ k a = Raise e.
Proof. destruct r as [a|e']; simpl; intros H; [eauto|left; congruence]. Qed.

Lemma nonempty_match {A B : Type} (l : list A) (r : result B) (e : exn) :
  l <> [] -> match l with [] => Raise e | _ :: _ => r end = r.
Proof. destruct l; [contradiction|reflexivity]. Qed.

Lemma nonempty_Ok {A B : Type} (l : list A) (r : result B) (e : exn) (b : B) :
  match l with [] => Raise e | _ :: _ => r end = Ok b -> r = Ok b.
Proof. destruct l; [discriminate|auto]. Qed.

(** ** Sorting *)

Section SortFacts.
Context {A : Type} (leb : A -> A -> bool).
Hypothesis leb_total : forall a b, leb a b = true \/ leb b a = true.
Hypothesis leb_trans : forall a b c, leb a b = true -> leb b c = true -> leb a c = true.

Lemma insert_sorted_perm (x : A) (l : list A) :
  Permutation (insert_sorted leb x l) (x :: l).
Proof.
  induction l as [|y l IH]; simpl; [reflexivity|].
  destruct (leb x y); [reflexivity|].
  rewrite IH. apply perm_swap.
Qed.

Lemma sort_values_perm (l : list A) : Permutation (sort_values leb l) l.
Proof.
  induction l as [|x l IH]; simpl; [reflexivity|].
  rewrite insert_sorted_perm. now constructor.
Qed.

Lemma insert_sorted_sorted (x : A) (l : list A) :
  StronglySorted (fun a b => leb a b = true) l ->
  StronglySorted (fun a b => leb a b = true) (insert_sorted leb x l).
Proof.
  induction 1 as [|y l Hs IH Hy]; simpl.
  - repeat constructor.
  - destruct (leb x y) eqn:E.
    + constructor; [constructor; auto|].
      constructor; [exact E|].
      eapply Forall_impl; [|exact Hy]. intros z Hz. exact (leb_trans _ _ _ E Hz).
    + constructor; [exact IH|].
      assert (Hyx : leb y x = true) by (destruct (leb_total x y); [congruence | assumption]).
      rewrite Forall_forall. intros z Hz.
      apply (Permutation_in _ (insert_sorted_perm x l)) in Hz.
      destruct Hz as [<-|Hz]; [exact Hyx|].
      rewrite Forall_forall in Hy. auto.
Qed.

Lemma sort_values_sorted (l : list A) :
  StronglySorted (fun a b => leb a b = true) (sort_values leb l).
Proof.
  induction l as [|x l IH]; simpl; [constructor|].
  now apply insert_sorted_sorted.
Qed.

Lemma filter_sorted (P : A -> bool) (l : list A) :
  StronglySorted (fun a b => leb a b = true) l ->
  StronglySorted (fun a b => leb a b = true) (filter P l).
Proof.
  induction 1 as [|y l Hs IH Hy]; simpl; [constructor|].
  destruct (P y); [|exact IH].
  constructor; [exact IH|].
  rewrite Forall_forall in *. intros z Hz. apply filter_In in Hz. apply Hy, Hz.
Qed.

End SortFacts.

(** ** Orders *)

Lemma ascii_compare_N (a b : ascii) :
  Ascii.compare a b = (N_of_ascii a ?= N_of_ascii b)%N.
Proof. reflexivity. Qed.

Lemma string_leb_trans (s1 s2 s3 : string) :
  String.leb s1 s2 = true -> String.leb s2 s3 = true -> String.leb s1 s3 = true.
Proof.
  unfold String.leb. revert s2 s3.
  induction s1 as [|c1 s1 IH]; intros [|c2 s2] [|c3 s3]; simpl; try congruence.
  rewrite !ascii_compare_N.
  destruct (N.compare_spec (N_of_ascii c1) (N_of_ascii c2)) as [E12|L12|G12];
    destruct (N.compare_spec (N_of_ascii c2) (N_of_ascii c3)) as [E23|L23|G23];
    try congruence.
  - rewrite <- E12 in E23. rewrite E23, N.compare_refl. apply IH.
  - rewrite E12. intros _ _. apply N.compare_lt_iff in L23. now rewrite L23.
  - rewrite <- E23. intros _ _. apply N.compare_lt_iff in L12. now rewrite L12.
  - intros _ _. assert (L : (N_of_ascii c1 < N_of_ascii c3)%N) by lia.
    apply N.compare_lt_iff in L. now rewrite L.
Qed.

Lemma string_leb_refl (s : string) : String.leb s s = true.
Proof. destruct (String.leb_total s s); assumption. Qed.

Lemma opt_str_leb_total (a b : option string) :
  opt_str_leb a b = true \/ opt_str_leb b a = true.
Proof. destruct a, b; simpl; auto using String.leb_total. Qed.

Lemma opt_str_leb_trans (a b c : option string) :
  opt_str_leb a b = true -> opt_str_leb b c = true -> opt_str_leb a c = true.
Proof. destruct a, b, c; simpl; try congruence. apply string_leb_trans. Qed.

Lemma screening_leb_total (a b : Compas.row) :
  screening_leb a b = true \/ screening_leb b a = true.
Proof. unfold screening_leb. lia. Qed.

Lemma screening_leb_trans (a b c : Compas.row) :
  screening_leb a b = true -> screening_leb b c = true -> screening_leb a c = true.
Proof. unfold screening_leb. lia. Qed.

(** ** Grouping and merging *)

Lemma group_keys_In (keys : list Z) (k : Z) : In k (group_keys keys) <-> In k keys.
Proof.
  unfold group_keys. rewrite <- (nodup_In Z.eq_dec keys k).
  split; apply Permutation_in; [|symmetry]; apply sort_values_perm.
Qed.

Lemma group_keys_NoDup (keys : list Z) : NoDup (group_keys keys).
Proof.
  unfold group_keys.
  eapply Permutation_NoDup; [symmetry; apply sort_values_perm | apply NoDup_nodup].
Qed.

Section Keyed.
Context {R : Type} (key : R -> Z).

Lemma filter_key_absent (k : Z) (l : list R) :
  ~ In k (map key l) -> filter (fun r => key r =? k) l = [].
Proof.
  induction l as [|r l IH]; simpl; intros H; [reflexivity|].
  destruct (Z.eqb_spec (key r) k) as [E|E]; [tauto|]. apply IH. tauto.
Qed.

Lemma find_key_absent (k : Z) (l : list R) :
  ~ In k (map key l) -> find (fun r => key r =? k) l = None.
Proof.
  induction l as [|r l IH]; simpl; intros H; [reflexivity|].
  destruct (Z.eqb_spec (key r) k) as [E|E]; [tauto|]. apply IH. tauto.
Qed.

Lemma filter_key_unique (k : Z) (l : list R) :
  NoDup (map key l) ->
  filter (fun r => key r =? k) l =
  match find (fun r => key r =? k) l with
  | Some r => [r]
  | None => []
  end.
Proof.
  induction l as [|r l IH]; simpl; intros H; [reflexivity|].
  inversion H as [|? ? Hnin Hnd]; subst.
  destruct (Z.eqb_spec (key r) k) as [E|E].
  - subst k. now rewrite filter_key_absent.
  - now apply IH.
Qed.

End Keyed.

Lemma flat_map_singleton {A B : Type} (f : A -> B) (l : list A) :
  flat_map (fun a => [f a]) l = map f l.
Proof. induction l as [|a l IH]; simpl; [reflexivity|now rewrite IH]. Qed.

Lemma merge_left_unique {L R : Type} (key_l : L -> Z) (key_r : R -> Z)
      (left : list L) (right : list R) :
  NoDup (map key_r right) ->
  merge_left key_l key_r left right =
  map (fun l => (l, find (fun r => key_r r =? key_l l) right)) left.
Proof.
  intros Hnd. unfold merge_left, matches.
  rewrite <- flat_map_singleton. apply flat_map_ext. intros l.
  rewrite (filter_key_unique key_r (key_l l) right Hnd).
  now destruct (find _ right).
Qed.

Lemma merge_inner_unique {L R : Type} (key_l : L -> Z) (key_r : R -> Z)
      (left : list L) (right : list R) :
  NoDup (map key_r right) ->
  merge_inner key_l key_r left right =
  flat_map (fun l => match find (fun r => key_r r =? key_l l) right with
                     | Some r => [(l, r)]
                     | None => []
                     end) left.
Proof.
  intros Hnd. unfold merge_inner, matches.
  apply flat_map_ext. intros l.
  rewrite (filter_key_unique key_r (key_l l) right Hnd).
  now destruct (find _ right).
Qed.

Lemma find_keyed_map (g : Z -> option string) (keys : list Z) (k : Z) :
  find (fun r : Z * option string => fst r =? k) (map (fun k' => (k', g k')) keys) =
  if in_dec Z.eq_dec k keys then Some (k, g k) else None.
Proof.
  induction keys as [|k' keys IH]; [reflexivity|].
  cbn [map find fst].
  destruct (Z.eqb_spec k' k) as [E|E].
  - subst. destruct (in_dec Z.eq_dec k (k :: keys)) as [_|Hn]; [reflexivity|].
    exfalso. apply Hn. now left.
  - rewrite IH.
    destruct (in_dec Z.eq_dec k keys) as [Hin|Hn],
             (in_dec Z.eq_dec k (k' :: keys)) as [Hin'|Hn']; try reflexivity.
    + exfalso. apply Hn'. now right.
    + exfalso. destruct Hin' as [E'|Hin']; [exact (E E')|exact (Hn Hin')].
Qed.

(** ** The first arrest *)

Lemma StronglySorted_map {A B : Type} (f : A -> B) (R : B -> B -> Prop) (l : list A) :
  StronglySorted (fun a b => R (f a) (f b)) l -> StronglySorted R (map f l).
Proof.
  induction 1 as [|a l Hs IH Ha]; simpl; constructor; auto.
  rewrite Forall_forall in *. intros b Hb. apply in_map_iff in Hb.
  destruct Hb as (x & <- & Hx). auto.
Qed.

Lemma first_notnull_min (l : list (option string)) :
  StronglySorted (fun a b => opt_str_leb a b = true) l ->
  (forall t, In (Some t) l ->
     exists s, first_notnull l = Some s /\ In (Some s) l /\
               forall t', In (Some t') l -> String.leb s t' = true)
  /\ ((forall t, ~ In (Some t) l) -> first_notnull l = None).
Proof.
  induction 1 as [|x l Hs IH Hx]; simpl.
  - split; [intros t []|reflexivity].
  - destruct x as [s|].
    + split.
      * intros _ _. exists s. split; [reflexivity|]. split; [now left|].
        intros t' [E|Ht']; [injection E as <-; apply string_leb_refl|].
        rewrite Forall_forall in Hx. exact (Hx _ Ht').
      * intros H. exfalso. apply (H s). now left.
    + assert (Hnone : forall t, ~ In (Some t) l).
      { intros t Ht. rewrite Forall_forall in Hx. specialize (Hx _ Ht). discriminate. }
      split.
      * intros t [E|Ht]; [discriminate|]. exfalso. exact (Hnone t Ht).
      * intros _. apply IH. exact Hnone.
Qed.

Lemma first_arrest_NoDup (arrests : list Casearrest.row) :
  NoDup (map fst (first_arrest arrests)).
Proof.
  unfold first_arrest. rewrite map_map. simpl. rewrite map_id.
  apply group_keys_NoDup.
Qed.

Lemma arrest_of_none (arrests : list Casearrest.row) (k : Z) :
  (forall a, In a arrests -> Casearrest.person_id a <> k) ->
  arrest_of arrests k = None.
Proof.
  intros H. unfold arrest_of. apply find_key_absent.
  unfold first_arrest. rewrite map_map. simpl. rewrite map_id, group_keys_In.
  intros Hin. apply in_map_iff in Hin. destruct Hin as (a & Ha & Hin).
  apply (Permutation_in _ (sort_values_perm _ arrests)) in Hin.
  exact (H a Hin Ha).
Qed.

Lemma arrest_of_earliest (arrests : list Casearrest.row) (k : Z) (t : string) :
  dated_arrest arrests k t ->
  exists s, arrest_of arrests k = Some (k, Some s) /\ earliest_arrest_date arrests k s.
Proof.
  intros Ht. unfold arrest_of, first_arrest.
  set (leb := fun a b => opt_str_leb (Casearrest.arrest_date a) (Casearrest.arrest_date b)).
  set (sorted := sort_values leb arrests).
  assert (Hperm : Permutation sorted arrests) by apply sort_values_perm.
  rewrite find_keyed_map.
  set (dates := map Casearrest.arrest_date (filter (fun a => Casearrest.person_id a =? k) sorted)).
  assert (Hdates : forall u, In (Some u) dates <-> dated_arrest arrests k u).
  { intros u. unfold dates, dated_arrest. rewrite in_map_iff. split.
    - intros (a & Ha & Hin). apply filter_In in Hin. destruct Hin as [Hin Hk].
      exists a. split; [exact (Permutation_in _ Hperm Hin)|]. split; [lia|exact Ha].
    - intros (a & Hin & Hk & Ha). exists a. split; [exact Ha|].
      apply filter_In. split; [exact (Permutation_in _ (Permutation_sym Hperm) Hin)|lia]. }
  assert (Hsorted : StronglySorted (fun a b => opt_str_leb a b = true) dates).
  { apply StronglySorted_map, filter_sorted.
    apply sort_values_sorted; intros; unfold leb in *;
      eauto using opt_str_leb_total, opt_str_leb_trans. }
  destruct (first_notnull_min dates Hsorted) as [Hmin _].
  destruct (Hmin t (proj2 (Hdates t) Ht)) as (s & Hs & Hin & Hle).
  exists s. split.
  - destruct (in_dec Z.eq_dec k _) as [_|Hn].
    + fold dates. now rewrite Hs.
    + exfalso. apply Hn. apply group_keys_In. destruct Ht as (a & Ha & Hk & _).
      apply in_map_iff. exists a. split; [exact Hk|].
      exact (Permutation_in _ (Permutation_sym Hperm) Ha).
  - split; [now apply Hdates|]. intros u Hu. apply Hle. now apply Hdates.
Qed.

Lemma earliest_arrest_date_unique (arrests : list Casearrest.row) (k : Z) (s s' : string) :
  earliest_arrest_date arrests k s -> earliest_arrest_date arrests k s' -> s = s'.
Proof.
  intros [Hs Hmin] [Hs' Hmin']. apply String.leb_antisym; auto.
Qed.

(** ** The age cell *)

Lemma Forall2_combine_In {A B : Type} (R : A -> B -> Prop) (l : list A) (l' : list B)
      (a : A) (b : B) :
  Forall2 R l l' -> In (a, b) (combine l l') -> R a b.
Proof.
  induction 1 as [|x y l l' Hxy HF IH]; simpl; [intros []|].
  intros [E|Hin]; [injection E as <- <-; exact Hxy|auto].
Qed.

Lemma Forall2_map_l {A B C : Type} (f : A -> B) (R : B -> C -> Prop) (l : list A) (l' : list C) :
  Forall2 R (map f l) l' <-> Forall2 (fun a c => R (f a) c) l l'.
Proof.
  revert l'; induction l as [|a l IH]; intros l'; simpl.
  - split; inversion 1; constructor.
  - split; inversion 1; subst; constructor; auto; now apply IH.
Qed.

Lemma Forall2_trans_compose {A B C : Type} (R : A -> B -> Prop) (S : B -> C -> Prop)
      (l : list A) (m : list B) (n : list C) :
  Forall2 R l m -> Forall2 S m n -> Forall2 (fun a c => exists b, R a b /\ S b c) l n.
Proof.
  intros H; revert n; induction H; intros n Hn; inversion Hn; subst; constructor; eauto.
Qed.

Lemma age_cell_rows (arrests : list Casearrest.row) (people : list People.row)
      (ext : list ext_person) :
  age_cell arrests people = Ok ext -> Forall2 (age_row arrests) people ext.
Proof.
  unfold age_cell. intros H. inv_bind H. rename x into with_dob.
  apply mapM_Ok in H0. apply nonempty_Ok in H.
  rewrite merge_left_unique in H by apply first_arrest_NoDup.
  apply mapM_Ok in H. apply Forall2_map_l in H.
  pose proof (Forall2_trans_compose _ _ _ _ _ H0 H) as HF.
  eapply Forall2_impl; [|exact HF].
  intros p e ([p' d'] & Hp & He). cbn beta in Hp, He.
  destruct (dob_date (People.dob p)) as [d|] eqn:Ed; [|discriminate].
  cbn [bind] in Hp. injection Hp as <- <-.
  cbn [fst] in He. fold (arrest_of arrests (People.id p)) in He.
  destruct (time_diff d _ (People.age p)) as [a|] eqn:Ea; [|discriminate].
  cbn [bind] in He. injection He as <-.
  exists d, a. auto.
Qed.

Lemma time_diff_no_arrest (s1 : string) (s3 : value) :
  time_diff s1 "No_arrest" s3 = Ok s3.
Proof. reflexivity. Qed.

Lemma strptime_not_sentinel (s : string) (d : Py.date) :
  Py.strptime s = Some d -> s <> "No_arrest".
Proof. intros H ->. discriminate. Qed.

Lemma time_diff_dates (s1 s2 : string) (s3 a : value) (d2 : Py.date) :
  Py.strptime s2 = Some d2 ->
  time_diff s1 s2 s3 = Ok a ->
  exists d1, Py.strptime s1 = Some d1 /\
             Some a = option_map VInt (rounded_years (Py.days_between d1 d2)).
Proof.
  intros Hd2 H. unfold time_diff in H.
  destruct (String.eqb_spec s2 "No_arrest") as [E|_].
  - exfalso. exact (strptime_not_sentinel _ _ Hd2 E).
  - rewrite Hd2 in H.
    destruct (Py.strptime s1) as [d1|]; [|discriminate]. exists d1. split; [reflexivity|].
    cbn [of_option bind] in H. unfold rounded_years.
    destruct (Py.float_of_Z _) as [x|]; [|discriminate]. cbn [of_option bind] in H.
    destruct (Py.truediv _ _) as [q|]; [|discriminate]. cbn [of_option bind] in H.
    destruct (Py.round q) as [n|]; [|discriminate]. cbn [of_option bind] in H.
    injection H as <-. reflexivity.
Qed.


(** ** The first screening *)

Lemma Permutation_filter {A : Type} (P : A -> bool) (l l' : list A) :
  Permutation l l' -> Permutation (filter P l) (filter P l').
Proof.
  induction 1 as [|x l l' H IH|x y l|l l' l'' H1 IH1 H2 IH2]; simpl.
  - constructor.
  - destruct (P x); [now constructor|exact IH].
  - destruct (P x), (P y); try reflexivity. apply perm_swap.
  - now transitivity (filter P l').
Qed.

Lemma flat_map_filter_in {A : Type} (P : A -> bool) (f : A -> list A) (l : list A) :
  (forall a, In a l -> f a = if P a then [a] else []) -> flat_map f l = filter P l.
Proof.
  induction l as [|a l IH]; simpl; intros H; [reflexivity|].
  rewrite (H a) by auto. rewrite IH by auto. now destruct (P a).
Qed.

Lemma smallest_assessment_spec (rows : list Compas.row) (r : Compas.row) :
  smallest_assessment rows r = true <->
  forall r', In r' rows -> Compas.person_id r' = Compas.person_id r ->
             Compas.compas_assessment_id r <= Compas.compas_assessment_id r'.
Proof.
  unfold smallest_assessment. rewrite forallb_forall. split.
  - intros H r' Hin E. specialize (H r' Hin). lia.
  - intros H r' Hin. destruct (Z.eqb_spec (Compas.person_id r') (Compas.person_id r)) as [E|E].
    + specialize (H r' Hin E). lia.
    + reflexivity.
Qed.

Lemma compas_df_sorted_perm (compas : list Compas.row) :
  Permutation (compas_df_sorted compas) (compas_df compas).
Proof. apply sort_values_perm. Qed.

Lemma compas_df_sorted_sorted (compas : list Compas.row) :
  StronglySorted (fun a b => screening_leb a b = true) (compas_df_sorted compas).
Proof.
  apply sort_values_sorted; eauto using screening_leb_total, screening_leb_trans.
Qed.

Lemma first_of_fst (compas : list Compas.row) (k : Z) (f : Z * Z) :
  In f (first_of compas k) -> fst f = k.
Proof.
  unfold first_of. destruct (filter _ _); simpl; [intros []|].
  intros [<-|[]]. reflexivity.
Qed.

Lemma filter_flat_map_keyed (g : Z -> list (Z * Z)) (P : Z * Z -> bool) (keys : list Z) (k : Z) :
  (forall k' f, In f (g k') -> fst f = k') ->
  NoDup keys ->
  filter (fun f => (fst f =? k) && P f) (flat_map g keys) =
  if in_dec Z.eq_dec k keys then filter P (g k) else [].
Proof.
  intros Hg. induction 1 as [|k' keys Hnin Hnd IH].
  - reflexivity.
  - cbn [flat_map]. rewrite filter_app, IH.
    destruct (Z.eq_dec k' k) as [E|E].
    + subst k'. destruct (in_dec Z.eq_dec k keys) as [Hin|_]; [tauto|].
      destruct (in_dec Z.eq_dec k (k :: keys)) as [_|Hn]; [|exfalso; apply Hn; now left].
      rewrite app_nil_r. apply filter_ext_in. intros f Hf.
      rewrite (Hg _ _ Hf), Z.eqb_refl. reflexivity.
    + assert (Hnone : filter (fun f => (fst f =? k) && P f) (g k') = []).
      { rewrite <- (filter_false (g k')). apply filter_ext_in. intros f Hf.
        rewrite (Hg _ _ Hf). destruct (Z.eqb_spec k' k); [tauto|reflexivity]. }
      rewrite Hnone. cbn [app].
      destruct (in_dec Z.eq_dec k keys) as [Hin|Hn],
               (in_dec Z.eq_dec k (k' :: keys)) as [Hin'|Hn']; try reflexivity.
      * exfalso. apply Hn'. now right.
      * exfalso. destruct Hin' as [E'|Hin']; [exact (E E')|exact (Hn Hin')].
Qed.

Lemma sorted_group_head (compas : list Compas.row) (k : Z) (r0 : Compas.row) (rest : list Compas.row) :
  filter (fun r => Compas.person_id r =? k) (compas_df_sorted compas) = r0 :: rest ->
  In r0 (compas_df compas) /\ Compas.person_id r0 = k /\
  forall r, In r (compas_df compas) -> Compas.person_id r = k ->
            Compas.compas_assessment_id r0 <= Compas.compas_assessment_id r.
Proof.
  intros Hg.
  pose proof (filter_sorted screening_leb (fun r => Compas.person_id r =? k) _
                (compas_df_sorted_sorted compas)) as Hs.
  rewrite Hg in Hs. inversion Hs as [|? ? _ Hall]; subst.
  assert (Hin0 : In r0 (filter (fun r => Compas.person_id r =? k) (compas_df_sorted compas)))
    by (rewrite Hg; now left).
  apply filter_In in Hin0. destruct Hin0 as [Hin0 Hk0].
  split; [exact (Permutation_in _ (compas_df_sorted_perm compas) Hin0)|].
  split; [lia|].
  intros r Hin Hk.
  assert (Hr : In r (r0 :: rest)).
  { rewrite <- Hg. apply filter_In. split; [|lia].
    exact (Permutation_in _ (Permutation_sym (compas_df_sorted_perm compas)) Hin). }
  destruct Hr as [<-|Hr]; [lia|].
  rewrite Forall_forall in Hall. specialize (Hall r Hr). unfold screening_leb in Hall. lia.
Qed.

Lemma first_screening_df_filter (compas : list Compas.row) :
  first_screening_df compas =
  filter (smallest_assessment (compas_df compas)) (compas_df_sorted compas).
Proof.
  unfold first_screening_df. apply flat_map_filter_in. intros r Hr.
  unfold first_screening. fold (first_of compas).
  rewrite (filter_flat_map_keyed (first_of compas)
             (fun f => snd f =? Compas.compas_assessment_id r)
             _ _ (first_of_fst compas) (group_keys_NoDup _)).
  destruct (in_dec Z.eq_dec _ _) as [_|Hn].
  2:{ exfalso. apply Hn. apply group_keys_In. now apply in_map. }
  unfold first_of.
  destruct (filter (fun r0 => Compas.person_id r0 =? Compas.person_id r) (compas_df_sorted compas))
    as [|r0 rest] eqn:Hg.
  { exfalso. assert (Hin : In r (filter (fun r0 => Compas.person_id r0 =? Compas.person_id r)
                                        (compas_df_sorted compas)))
      by (apply filter_In; split; [exact Hr|lia]).
    rewrite Hg in Hin. exact Hin. }
  destruct (sorted_group_head _ _ _ _ Hg) as (Hin0 & Hk0 & Hmin).
  pose proof (Permutation_in _ (compas_df_sorted_perm compas) Hr) as Hr'.
  cbn [filter snd].
  destruct (smallest_assessment (compas_df compas) r) eqn:Hsm.
  - rewrite smallest_assessment_spec in Hsm.
    specialize (Hsm r0 Hin0 Hk0). specialize (Hmin r Hr' eq_refl).
    replace (Compas.compas_assessment_id r0 =? Compas.compas_assessment_id r) with true by lia.
    reflexivity.
  - destruct (Z.eqb_spec (Compas.compas_assessment_id r0) (Compas.compas_assessment_id r)) as [E|E];
      [|reflexivity].
    exfalso. assert (Hsm' : smallest_assessment (compas_df compas) r = true).
    { apply smallest_assessment_spec. intros r' Hin' Hk'. rewrite <- E. now apply Hmin. }
    congruence.
Qed.

(** Claim C3.  The deduplicated assessment table holds, as often as the
    filtered table does, exactly the rows of the filtered table whose
    assessment identifier is the smallest one of their person there; all the
    rows that share that identifier are kept, whatever their type. *)
Theorem first_screening_keeps_smallest (compas : list Compas.row) :
  Permutation (first_screening_df compas)
              (filter (smallest_assessment (compas_df compas)) (compas_df compas))
  /\ forall r,
       In r (first_screening_df compas) <->
       In r (compas_df compas) /\
       forall r', In r' (compas_df compas) ->
                  Compas.person_id r' = Compas.person_id r ->
                  Compas.compas_assessment_id r <= Compas.compas_assessment_id r'.
Proof.
  assert (HP : Permutation (first_screening_df compas)
                           (filter (smallest_assessment (compas_df compas)) (compas_df compas))).
  { rewrite first_screening_df_filter. apply Permutation_filter, compas_df_sorted_perm. }
  split; [exact HP|].
  intros r. rewrite <- smallest_assessment_spec, <- filter_In.
  split; apply Permutation_in; [exact HP|symmetry; exact HP].
Qed.

(** ** The pivot *)

Section PivotFacts.
Context {A : Type} (index : A -> Z) (column : A -> string).

Lemma same_entry_spec (a b : A) :
  same_entry index column a b = true <-> index a = index b /\ column a = column b.
Proof.
  unfold same_entry. rewrite andb_true_iff, Z.eqb_eq, String.eqb_eq. tauto.
Qed.

Lemma duplicated_false_NoDup (l : list A) :
  duplicated index column l = false <-> NoDup (map (fun a => (index a, column a)) l).
Proof.
  induction l as [|a l IH]; simpl.
  - split; [constructor|reflexivity].
  - rewrite orb_false_iff, IH. split.
    + intros [Hex Hnd]. constructor; [|exact Hnd].
      intros Hin. apply in_map_iff in Hin. destruct Hin as (b & E & Hb).
      injection E as E1 E2.
      assert (Ht : existsb (same_entry index column a) l = true).
      { apply existsb_exists. exists b. split; [exact Hb|]. apply same_entry_spec. auto. }
      congruence.
    + intros H. inversion H as [|? ? Hnin Hnd]; subst. split; [|exact Hnd].
      destruct (existsb _ l) eqn:E; [|reflexivity].
      exfalso. apply Hnin. apply existsb_exists in E. destruct E as (b & Hb & E).
      apply same_entry_spec in E. destruct E as [E1 E2].
      apply in_map_iff. exists b. split; [now rewrite E1, E2|exact Hb].
Qed.

Lemma pivot_cell_unique (l : list A) (get : A -> value) (r : A) :
  duplicated index column l = false -> In r l ->
  pivot_cell index column l get (index r) (column r) = get r.
Proof.
  unfold pivot_cell. induction l as [|a l IH]; simpl; [intros _ []|].
  rewrite orb_false_iff. intros [Hex Hnd] Hin.
  destruct ((index a =? index r) && (column a =? column r)%string) eqn:E.
  - destruct Hin as [->|Hin]; [reflexivity|].
    exfalso. assert (Ht : existsb (same_entry index column a) l = true).
    { apply existsb_exists. exists r. split; [exact Hin|exact E]. }
    congruence.
  - destruct Hin as [->|Hin]; [|now apply IH].
    rewrite Z.eqb_refl, String.eqb_refl in E. discriminate.
Qed.

Lemma pivot_labels_In (l : list A) (c : string) :
  In c (pivot_labels column l) <-> In c (map column l).
Proof.
  unfold pivot_labels. rewrite <- (nodup_In string_dec (map column l) c).
  split; apply Permutation_in; [|symmetry]; apply sort_values_perm.
Qed.

End PivotFacts.

(** *** The names of the pivoted columns *)

Lemma append_nil_r (s : string) : s ++ EmptyString = s.
Proof. induction s as [|c s IH]; [reflexivity|]. cbn [append]. now rewrite IH. Qed.

Lemma append_assoc (a b c : string) : (a ++ b) ++ c = a ++ (b ++ c).
Proof. induction a as [|x a IH]; [reflexivity|]. cbn [append]. now rewrite IH. Qed.

Lemma reverse_app (a b : string) : reverse (a ++ b) = reverse b ++ reverse a.
Proof.
  induction a as [|x a IH]; cbn [append reverse].
  - now rewrite append_nil_r.
  - now rewrite IH, append_assoc.
Qed.

Lemma reverse_empty (s : string) : reverse s = EmptyString -> s = EmptyString.
Proof.
  destruct s as [|c s]; [reflexivity|]. cbn [reverse].
  destruct (reverse s); discriminate.
Qed.

Lemma white_is_space (c : ascii) : white c = Py.is_space c.
Proof. destruct c as [[] [] [] [] [] [] [] []]; reflexivity. Qed.

Lemma lstrip_drop_white (s : string) : Py.lstrip s = drop_white s.
Proof.
  induction s as [|c s IH]; [reflexivity|].
  cbn [Py.lstrip drop_white]. now rewrite white_is_space, IH.
Qed.

Lemma drop_white_app (a b : string) :
  drop_white (a ++ b)
  = match drop_white a with
    | EmptyString => drop_white b
    | t => t ++ b
    end.
Proof.
  induction a as [|c a IH]; [reflexivity|].
  cbn [append drop_white]. destruct (white c); [exact IH|reflexivity].
Qed.

Lemma rstrip_reverse (s : string) : Py.rstrip s = reverse (drop_white (reverse s)).
Proof.
  induction s as [|c s IH]; [reflexivity|].
  cbn [Py.rstrip reverse]. rewrite drop_white_app, IH.
  destruct (drop_white (reverse s)) as [|x t] eqn:E.
  - cbn [reverse drop_white]. rewrite white_is_space.
    now destruct (Py.is_space c).
  - rewrite reverse_app. cbn [reverse append].
    destruct (reverse t ++ String x EmptyString) as [|y u] eqn:E'; [|reflexivity].
    destruct (reverse t); discriminate.
Qed.

Lemma strip_trimmed (s : string) : Py.strip s = trimmed s.
Proof. unfold Py.strip, trimmed. now rewrite rstrip_reverse, lstrip_drop_white. Qed.

Lemma lower_spec_char (c : ascii) :
  Py.lower_char (if (c =? " ")%char then "_"%char else c) = spec_char c.
Proof. destruct c as [[] [] [] [] [] [] [] []]; reflexivity. Qed.

Lemma lower_replace_spec_label (s : string) :
  Py.lower (Py.replace " " "_" s) = spec_label s.
Proof.
  unfold Py.replace. induction s as [|c s IH]; [reflexivity|].
  cbn [Py.replace_from prefix spec_label]. rewrite <- lower_spec_char.
  destruct (ascii_dec " " c) as [<-|Hn].
  - replace (prefix EmptyString s) with true by (now destruct s).
    cbn [String.length Nat.sub append Py.lower]. now rewrite IH.
  - cbn [Py.lower]. rewrite IH.
    destruct (Ascii.eqb_spec c " ") as [->|_]; [now destruct Hn|reflexivity].
Qed.

(** The label the notebook gives a pivoted column is the label the
    specification describes, made of the joined names without the white
    space around them. *)
Lemma pivot_column_name_spec (v t : string) :
  pivot_column_name (v, t) = spec_label (trimmed (v ++ "_" ++ t)).
Proof.
  unfold pivot_column_name, Py.join_underscore. cbn [fst snd String.concat].
  now rewrite lower_replace_spec_label, strip_trimmed.
Qed.

(** For the three assessment types there is no white space to cut off. *)
Lemma trimmed_pivot_names (v t : string) (get : Compas.row -> value) :
  In (v, get) pivot_values -> In t assessment_types ->
  trimmed (v ++ "_" ++ t) = v ++ "_" ++ t.
Proof.
  intros Hv Ht.
  assert (Hv' : In v (map fst pivot_values)) by (apply in_map_iff; exists (v, get); auto).
  clear Hv. cbn in Hv', Ht.
  repeat match goal with
         | H : _ \/ _ |- _ => destruct H as [H|H]
         | H : False |- _ => destruct H
         end; subst; reflexivity.
Qed.

Lemma nth_error_grid {V C X Y : Type} (F : V -> C -> X) (G : V -> C -> Y)
      (values : list V) (labels : list C) (v : V) (c : C) :
  In v values -> In c labels ->
  exists j,
    nth_error (flat_map (fun v => map (F v) labels) values) j = Some (F v c) /\
    nth_error (flat_map (fun v => map (G v) labels) values) j = Some (G v c).
Proof.
  intros Hv Hc. induction values as [|v' values IH]; [destruct Hv|].
  cbn [flat_map]. destruct Hv as [->|Hv].
  - destruct (In_nth_error _ _ Hc) as [j Hj]. exists j.
    assert (Hlt : (j < List.length labels)%nat) by (apply nth_error_Some; congruence).
    rewrite !nth_error_app1 by (now rewrite length_map).
    rewrite !nth_error_map, Hj. auto.
  - destruct (IH Hv) as [j [HF HG]]. exists (List.length labels + j)%nat.
    rewrite !nth_error_app2 by (rewrite length_map; lia).
    rewrite !length_map.
    replace (List.length labels + j - List.length labels)%nat with j by lia. auto.
Qed.

(** Claim C4.  When the pivot succeeds, which it does when no person has two
    rows of one type in the deduplicated table, the wide table has one row
    per person, and for every row [r] of the deduplicated table the wide row
    of its person holds the raw score, the decile score and the score text of
    [r] unchanged.  Each is in the column whose label is the name of the
    value column, an underscore and the type of [r], with every space made an
    underscore and every capital letter made small; white space around the
    joined name is cut off before, of which the three assessment types have
    none. *)
Theorem pivot_round_trip
        (compas : list Compas.row) (w : wide) (r : Compas.row)
        (Hpivot : pivoted_df compas = Ok w)
        (Hr : In r (first_screening_df compas)) :
  NoDup (map fst (wide_rows w)) /\
  exists cells,
    In (Compas.person_id r, cells) (wide_rows w) /\
    forall v get, In (v, get) pivot_values ->
      exists j,
        nth_error (wide_columns w) j
          = Some (spec_label (trimmed (v ++ "_" ++ Compas.type_of_assessment r))) /\
        (In (Compas.type_of_assessment r) assessment_types ->
         nth_error (wide_columns w) j
           = Some (spec_label (v ++ "_" ++ Compas.type_of_assessment r))) /\
        nth_error cells j = Some (get r).
Proof.
  unfold pivoted_df, pivot in Hpivot.
  destruct (duplicated _ _ _) eqn:Hdup; [discriminate|].
  set (l := first_screening_df compas) in *.
  set (labels := pivot_labels Compas.type_of_assessment l) in *.
  match type of Hpivot with
  | bind (Ok (?X, ?Y)) _ = _ => remember X as cols eqn:Hcols; remember Y as rws eqn:Hrws
  end.
  cbn in Hpivot. injection Hpivot as <-. cbn [wide_rows wide_columns]. subst cols rws.
  split.
  { rewrite map_map. cbn [fst]. rewrite map_id. apply group_keys_NoDup. }
  eexists. split.
  { apply in_map_iff. exists (Compas.person_id r). split; [reflexivity|].
    apply group_keys_In. now apply in_map. }
  intros v get Hv.
  assert (Hc : In (Compas.type_of_assessment r) labels)
    by (apply pivot_labels_In; now apply in_map).
  destruct (nth_error_grid (fun v c => (fst v, c))
              (fun v => pivot_cell Compas.person_id Compas.type_of_assessment l
                                   (snd v) (Compas.person_id r))
              pivot_values labels (v, get) _ Hv Hc) as (j & Hcol & Hcell).
  assert (Hname : nth_error
                    (map pivot_column_name
                         (flat_map (fun v => map (fun c => (fst v, c)) labels) pivot_values)) j
                  = Some (spec_label (trimmed (v ++ "_" ++ Compas.type_of_assessment r)))).
  { rewrite nth_error_map, Hcol. cbn [option_map fst].
    now rewrite pivot_column_name_spec. }
  exists j. split; [exact Hname|]. split.
  - intros Ht. rewrite Hname. now rewrite (trimmed_pivot_names _ _ _ Hv Ht).
  - rewrite Hcell. cbn [snd]. f_equal. now apply pivot_cell_unique.
Qed.

Lemma pivoted_df_total (compas : list Compas.row) :
  NoDup (map (fun r => (Compas.person_id r, Compas.type_of_assessment r))
             (first_screening_df compas)) ->
  exists w, pivoted_df compas = Ok w.
Proof.
  intros H. apply duplicated_false_NoDup in H. unfold pivoted_df, pivot.
  rewrite H. cbn [bind]. eauto.
Qed.

Example pivot_column_names :
  map pivot_column_name
      (list_prod ["raw_score"; "decile_score"; "score_text"]
                 ["Risk of Failure to Appear"; "Risk of Recidivism"; "Risk of Violence"])
  = ["raw_score_risk_of_failure_to_appear"; "raw_score_risk_of_recidivism";
     "raw_score_risk_of_violence";
     "decile_score_risk_of_failure_to_appear"; "decile_score_risk_of_recidivism";
     "decile_score_risk_of_violence";
     "score_text_risk_of_failure_to_appear"; "score_text_risk_of_recidivism";
     "score_text_risk_of_violence"].
Proof. reflexivity. Qed.

(** ** The sentinel filter and the final drop of nulls *)

Lemma dropna_notna (df : frame) (row : list value) (v : value) :
  In row (rows (dropna df)) -> In v row -> isna v = false.
Proof.
  unfold dropna, row_notna. cbn [rows]. intros Hrow Hv.
  apply filter_In in Hrow. destruct Hrow as [_ Hall].
  rewrite forallb_forall in Hall. specialize (Hall v Hv).
  now apply negb_true_iff in Hall.
Qed.

(** Claim C8.  No row of the person table that is written holds a null. *)
Theorem written_person_table_has_no_null
        (float_of_str : string -> option spec_float) (db : database) (out : outputs)
        (Hrun : run float_of_str db = Ok out) :
  forall row v, In row (rows (compas_csv out)) -> In v row -> isna v = false.
Proof.
  unfold run in Hrun. inv_bind Hrun. injection Hrun as <-. cbn [compas_csv].
  intros row v. apply dropna_notna.
Qed.

Lemma first_screening_df_valid (compas compas' : list Compas.row) :
  compas_df compas = compas_df compas' ->
  first_screening_df compas = first_screening_df compas'.
Proof.
  intros H. unfold first_screening_df, first_screening, compas_df_sorted. now rewrite H.
Qed.

Lemma bins_valid (type : string) (compas compas' : list Compas.row) :
  compas_df compas = compas_df compas' -> bins type compas = bins type compas'.
Proof. intros H. unfold bins. fold (compas_df compas) (compas_df compas'). now rewrite H. Qed.

Lemma bins_rows (type : string) (compas : list Compas.row) (row : list value) :
  In row (rows (bins type compas)) ->
  exists r, In r compas /\ eq_str (Compas.score_text r) "N/A" = false /\
            Compas.type_of_assessment r = type /\
            row = [Compas.raw_score r; Compas.decile_score r; Compas.score_text r].
Proof.
  unfold bins, dropna. cbn [rows]. intros H.
  apply filter_In in H. destruct H as [H _].
  apply in_map_iff in H. destruct H as (r & <- & H).
  apply filter_In in H. destruct H as [H Ht].
  apply filter_In in H. destruct H as [H Hv].
  exists r. split; [exact H|]. split; [now apply negb_true_iff in Hv|].
  split; [now apply String.eqb_eq|reflexivity].
Qed.

(** Claim C5.  Two databases that differ only in rows whose score text is
    ["N/A"] give the same run, so that such a row adds nothing to the pivoted
    columns or to any file; and every row of a bin table comes from an
    assessment whose score text is not ["N/A"]. *)
Theorem invalid_scores_never_used
        (float_of_str : string -> option spec_float) (db db' : database)
        (Hpeople : people db = people db')
        (Hothers : people_others db = people_others db')
        (Harrests : casearrest db = casearrest db')
        (Hvalid : compas_df (compas db) = compas_df (compas db')) :
  run float_of_str db = run float_of_str db' /\
  forall type row,
    In row (rows (bins type (compas db))) ->
    exists r, In r (compas db) /\ eq_str (Compas.score_text r) "N/A" = false /\
              row = [Compas.raw_score r; Compas.decile_score r; Compas.score_text r].
Proof.
  split.
  - unfold run, ext_people, join_cell, pivoted_df, final_df, other_columns,
      fta_bins, grecid_bins, vrecid_bins.
    rewrite Hpeople, Hothers, Harrests.
    rewrite (first_screening_df_valid _ _ Hvalid).
    rewrite !(bins_valid _ _ _ Hvalid). reflexivity.
  - intros type row H. destruct (bins_rows _ _ _ H) as (r & Hr & Hv & _ & E). eauto.
Qed.

(** ** Renaming and retyping *)

Lemma rename_columns_map (m : list (string * string)) (cols : list string) :
  rename_columns m cols = map (rename_one m) cols.
Proof.
  unfold rename_columns, rename_one. revert cols.
  induction m as [|kv m IH]; intros cols; simpl.
  - now rewrite map_id.
  - rewrite IH, map_map. reflexivity.
Qed.

Lemma Forall2_diag {A : Type} (R : A -> A -> Prop) (l : list A) :
  (forall a, R a a) -> Forall2 R l l.
Proof. intros H. induction l; constructor; auto. Qed.

Lemma skipn_cons_S {A : Type} (j : nat) (l : list A) (x : A) (t : list A) :
  skipn j l = x :: t -> skipn (S j) l = t /\ firstn (S j) l = (firstn j l ++ [x])%list.
Proof.
  revert l; induction j as [|j IH]; intros l H.
  - simpl in H. subst l. split; reflexivity.
  - destruct l as [|y l]; [discriminate|]. simpl in H.
    destruct (IH l H) as [H1 H2]. split; [exact H1|].
    change (firstn (S (S j)) (y :: l)) with (y :: firstn (S j) l). now rewrite H2.
Qed.

Lemma skipn_nil_S {A : Type} (j : nat) (l : list A) :
  skipn j l = [] -> skipn (S j) l = [] /\ firstn (S j) l = firstn j l.
Proof.
  revert l; induction j as [|j IH]; intros l H.
  - simpl in H. subst l. split; reflexivity.
  - destruct l as [|y l]; [split; reflexivity|]. simpl in H.
    destruct (IH l H) as [H1 H2]. split; [exact H1|].
    change (firstn (S (S j)) (y :: l)) with (y :: firstn (S j) l). now rewrite H2.
Qed.

Lemma update_nth_split (g : value -> result value) (j : nat) (r r1 : list value) :
  update_nth g j r = Ok r1 ->
  firstn j r1 = firstn j r /\
  ((skipn j r = [] /\ skipn j r1 = []) \/
   exists v v' rest, skipn j r = v :: rest /\ g v = Ok v' /\ skipn j r1 = v' :: rest).
Proof.
  revert j r1; induction r as [|x r IH]; intros j r1 H.
  - destruct j; simpl in H; injection H as <-; simpl; auto.
  - destruct j as [|j]; simpl in H.
    + inv_bind H. injection H as <-. split; [reflexivity|]. right.
      exists x, x0, r. auto.
    + inv_bind H. injection H as <-. destruct (IH _ _ H0) as [H1 H2].
      simpl. split; [now rewrite H1|exact H2].
Qed.

Lemma map_column_rows (g : value -> result value) (j : nat) (df df' : frame) :
  map_column g j df = Ok df' ->
  columns df' = columns df /\
  Forall2 (fun r r' => update_nth g j r = Ok r') (rows df) (rows df').
Proof.
  unfold map_column. intros H. inv_bind H. injection H as <-.
  split; [reflexivity|]. now apply mapM_Ok.
Qed.

Lemma update_nth_compose (g1 g2 : value -> result value) (j : nat) (r r1 r2 : list value) :
  update_nth g1 j r = Ok r1 -> update_nth g2 j r1 = Ok r2 ->
  update_nth (fun v => x <- g1 v ;; g2 x) j r = Ok r2.
Proof.
  revert j r1 r2; induction r as [|x r IH]; intros j r1 r2 H1 H2.
  - destruct j; simpl in H1; injection H1 as <-; exact H2.
  - destruct j as [|j]; simpl in H1 |- *.
    + destruct (g1 x) as [y|]; [|discriminate]. cbn [bind] in H1 |- *.
      injection H1 as <-. exact H2.
    + destruct (update_nth g1 j r) as [t|] eqn:E1; [|discriminate].
      cbn [bind] in H1. injection H1 as <-. simpl in H2.
      destruct (update_nth g2 j t) as [t'|] eqn:E2; [|discriminate].
      now rewrite (IH _ _ _ E1 E2).
Qed.

Section CoerceFacts.
Variable float_of_str : string -> option spec_float.

(** When the coercion of a column returns, the column has passed
    [astype(float)] and then the cast, cell by cell. *)
Lemma to_Int64_Ok (j : nat) (df df' : frame) :
  to_Int64 float_of_str j df = Ok df' ->
  exists df1,
    map_column (astype_float float_of_str) j df = Ok df1 /\
    map_column astype_Int64 j df1 = Ok df'.
Proof.
  unfold to_Int64. intros H. inv_bind H. exists x. split; [exact H0|].
  destruct (nanmax _) as [m|]; [|exact H].
  destruct m; try discriminate;
    (destruct (integral_value _); [exact H|destruct (existsb _ _); discriminate]).
Qed.

Lemma to_Int64_rows (j : nat) (df df' : frame) :
  to_Int64 float_of_str j df = Ok df' ->
  columns df' = columns df /\
  Forall2 (fun r r' => update_nth (to_nullable_int float_of_str) j r = Ok r')
          (rows df) (rows df').
Proof.
  intros H. destruct (to_Int64_Ok _ _ _ H) as (df1 & H1 & H2).
  destruct (map_column_rows _ _ _ _ H1) as [Hc1 HF1].
  destruct (map_column_rows _ _ _ _ H2) as [Hc2 HF2].
  split; [congruence|].
  pose proof (Forall2_trans_compose _ _ _ _ _ HF1 HF2) as HF.
  eapply Forall2_impl; [|exact HF].
  intros r r' (r1 & Ha & Hb). exact (update_nth_compose _ _ _ _ _ _ Ha Hb).
Qed.

Lemma coerce_row_nil (cols : list string) : coerce_row float_of_str cols [] = Ok [].
Proof. destruct cols; reflexivity. Qed.

Lemma coerce_ds_rows (cols : list string) (j : nat) (df df' : frame) :
  coerce_ds float_of_str cols j df = Ok df' ->
  columns df' = columns df /\
  Forall2 (fun r r' => exists t, coerce_row float_of_str cols (skipn j r) = Ok t
                                 /\ r' = (firstn j r ++ t)%list)
          (rows df) (rows df').
Proof.
  revert j df; induction cols as [|c cols IH]; intros j df H.
  - simpl in H. injection H as <-. split; [reflexivity|].
    apply Forall2_diag. intros r. exists (skipn j r). split.
    + now destruct (skipn j r).
    + symmetry. apply firstn_skipn.
  - cbn [coerce_ds] in H. inv_bind H. rename x into df1.
    destruct (IH _ _ H) as [Hc HF]. clear IH H.
    destruct (Py.contains "ds_" c) eqn:Hds.
    + destruct (to_Int64_rows _ _ _ H0) as [Hc1 HF1]. split; [congruence|].
      pose proof (Forall2_trans_compose _ _ _ _ _ HF1 HF) as HF2.
      eapply Forall2_impl; [|exact HF2].
      intros r r' (r1 & Hu & t' & Ht' & ->). cbn beta.
      destruct (update_nth_split _ _ _ _ Hu) as [Hf [[Hs Hs1]|(v & v' & rest & Hs & Hg & Hs1)]].
      * destruct (skipn_nil_S _ _ Hs1) as [E1 E2]. rewrite E1, coerce_row_nil in Ht'.
        injection Ht' as <-. exists []. rewrite Hs, E2, Hf. auto.
      * destruct (skipn_cons_S _ _ _ _ Hs1) as [E1 E2]. rewrite E1 in Ht'.
        exists (v' :: t'). rewrite Hs. cbn [coerce_row]. rewrite Hds, Hg. cbn [bind].
        rewrite Ht'. cbn [bind]. split; [reflexivity|].
        rewrite E2, Hf, <- app_assoc. reflexivity.
    + injection H0 as <-. split; [exact Hc|].
      eapply Forall2_impl; [|exact HF].
      intros r r' (t' & Ht' & ->). cbn beta.
      destruct (skipn j r) as [|v rest] eqn:Hs.
      * destruct (skipn_nil_S _ _ Hs) as [E1 E2]. rewrite E1, coerce_row_nil in Ht'.
        injection Ht' as <-. exists []. rewrite E2. auto.
      * destruct (skipn_cons_S _ _ _ _ Hs) as [E1 E2]. rewrite E1 in Ht'.
        exists (v :: t'). cbn [coerce_row]. rewrite Hds. cbn [bind]. rewrite Ht'. cbn [bind].
        split; [reflexivity|]. rewrite E2, <- app_assoc. reflexivity.
Qed.

Lemma rename_cell_rows (df df' : frame) :
  rename_cell float_of_str df = Ok df' ->
  columns df' = rename_columns repl (columns df) /\
  exists j0,
    col_index "male" (columns df') = Some j0 /\
    Forall2 (renamed_row float_of_str (columns df') j0) (rows df) (rows df').
Proof.
  unfold rename_cell, male_column. intros H. inv_bind H. rename x into df2.
  destruct (coerce_ds_rows _ _ _ _ H0) as [Hc2 HF2]. cbn [columns rows] in Hc2, HF2.
  rewrite Hc2 in H.
  destruct (col_index "male" _) as [j0|] eqn:Hj0; [|discriminate].
  inv_bind H. rename x into df3.
  destruct (map_column_rows _ _ _ _ H1) as [Hc3 HF3].
  destruct (map_column_rows _ _ _ _ H) as [Hc4 HF4].
  assert (Hcols : columns df' = rename_columns repl (columns df)) by congruence.
  split; [exact Hcols|]. exists j0. rewrite Hcols. split; [exact Hj0|].
  pose proof (Forall2_trans_compose _ _ _ _ _ HF2
                (Forall2_trans_compose _ _ _ _ _ HF3 HF4)) as HF.
  eapply Forall2_impl; [|exact HF].
  intros r0 r (r1 & (t & Ht & E) & r2 & Hu1 & Hu2). cbn [firstn skipn app] in *. subst t.
  exists r1, r2. auto.
Qed.

End CoerceFacts.

(** ** Integers as floats *)

Lemma digits2_pos_iter_xO (m k : positive) :
  digits2_pos (Pos.iter xO m k) = (digits2_pos m + k)%positive.
Proof.
  induction k as [|k IH] using Pos.peano_ind.
  - simpl. lia.
  - rewrite Pos.iter_succ. simpl. rewrite IH. lia.
Qed.

Lemma Zpos_iter_xO (m k : positive) :
  Z.pos (Pos.iter xO m k) = Z.pos m * 2 ^ Z.pos k.
Proof.
  induction k as [|k IH] using Pos.peano_ind.
  - simpl. lia.
  - rewrite Pos.iter_succ, Pos2Z.inj_xO, IH, Pos2Z.inj_succ, Z.pow_succ_r by lia. lia.
Qed.

Lemma digits2_pos_lower (m : positive) :
  2 ^ (Z.pos (digits2_pos m) - 1) <= Z.pos m.
Proof.
  induction m as [m IH|m IH|]; simpl digits2_pos.
  - rewrite Pos2Z.inj_succ. replace (Z.succ (Z.pos (digits2_pos m)) - 1)
      with (Z.succ (Z.pos (digits2_pos m) - 1)) by lia.
    rewrite Z.pow_succ_r by lia. lia.
  - rewrite Pos2Z.inj_succ. replace (Z.succ (Z.pos (digits2_pos m)) - 1)
      with (Z.succ (Z.pos (digits2_pos m) - 1)) by lia.
    rewrite Z.pow_succ_r by lia. lia.
  - simpl. lia.
Qed.

Lemma digits2_pos_small (m : positive) :
  Z.pos m < 2 ^ 53 -> Z.pos (digits2_pos m) <= 53.
Proof.
  intros H. pose proof (digits2_pos_lower m) as L.
  destruct (Z.le_gt_cases (Z.pos (digits2_pos m)) 53) as [|G]; [assumption|].
  exfalso. assert (2 ^ 53 <= 2 ^ (Z.pos (digits2_pos m) - 1))
    by (apply Z.pow_le_mono_r; lia). lia.
Qed.

Lemma binary_round_small (s : bool) (m : positive) :
  Z.pos m < 2 ^ 53 ->
  exists mz ez,
    binary_round Py.prec Py.emax s m 0 = S754_finite s mz ez /\
    - 52 <= ez <= 0 /\ Z.pos mz = Z.pos m * 2 ^ (- ez).
Proof.
  intros Hm. pose proof (digits2_pos_small m Hm) as Hd. unfold Py.prec, Py.emax.
  assert (Haux : forall mz ez, Z.pos (digits2_pos mz) = 53 -> -52 <= ez <= 0 ->
            binary_round_aux 53 1024 s (Z.pos mz) ez loc_Exact = S754_finite s mz ez).
  { intros mz ez Hmz Hez. unfold binary_round_aux, shr_fexp, Zdigits2.
    rewrite Hmz. unfold fexp, emin.
    replace (Z.max (53 + ez - 53) (3 - 1024 - 53) - ez) with 0 by lia.
    cbn [shr shr_record_of_loc loc_of_shr_record shr_m round_nearest_even Zdigits2].
    rewrite Hmz.
    replace (Z.max (53 + ez - 53) (3 - 1024 - 53) - ez) with 0 by lia.
    cbn [shr shr_m]. replace (ez <=? 1024 - 53) with true by lia. reflexivity. }
  unfold binary_round, shl_align. rewrite Z.add_0_r.
  unfold fexp, emin.
  replace (Z.max (Z.pos (digits2_pos m) - 53) (3 - 1024 - 53) - 0)
    with (Z.pos (digits2_pos m) - 53) by lia.
  replace (Z.max (Z.pos (digits2_pos m) - 53) (3 - 1024 - 53))
    with (Z.pos (digits2_pos m) - 53) by lia.
  destruct (Z.pos (digits2_pos m) - 53) as [|k|k] eqn:Ek; [|lia|]; cbv beta iota.
  - exists m, 0. rewrite (Haux m 0) by lia. split; [reflexivity|]. split; [lia|]. simpl. lia.
  - exists (Pos.iter xO m k), (Z.neg k).
    rewrite Haux; [| rewrite digits2_pos_iter_xO; lia | lia].
    split; [reflexivity|]. split; [lia|]. rewrite Zpos_iter_xO. reflexivity.
Qed.

Lemma float_of_Z_exact (z : Z) :
  Z.abs z < 2 ^ 53 ->
  exists x, Py.float_of_Z z = Some x /\ integral_value x = Some z /\ isna (VFloat x) = false.
Proof.
  intros Hz. unfold Py.float_of_Z, binary_normalize.
  assert (Hint : forall s mz ez m, -52 <= ez <= 0 -> Z.pos mz = Z.pos m * 2 ^ (- ez) ->
            integral_value (S754_finite s mz ez) = Some (cond_Zopp s (Z.pos m))).
  { intros s mz ez m Hez E. unfold integral_value. rewrite E.
    destruct (Z.leb_spec 0 ez) as [H0|H0].
    - replace ez with 0 by lia. simpl Z.opp. rewrite Z.pow_0_r, !Z.mul_1_r. reflexivity.
    - rewrite Z.mod_mul by (apply Z.pow_nonzero; lia). cbn [Z.eqb].
      rewrite Z.div_mul by (apply Z.pow_nonzero; lia). reflexivity. }
  destruct z as [|m|m].
  - exists (S754_zero false). auto.
  - destruct (binary_round_small false m) as (mz & ez & E & Hez & Hmz); [lia|].
    rewrite E. exists (S754_finite false mz ez). split; [reflexivity|].
    split; [|reflexivity]. now rewrite (Hint _ _ _ m Hez Hmz).
  - destruct (binary_round_small true m) as (mz & ez & E & Hez & Hmz); [lia|].
    rewrite E. exists (S754_finite true mz ez). split; [reflexivity|].
    split; [|reflexivity]. now rewrite (Hint _ _ _ m Hez Hmz).
Qed.

(** ** Cells *)

Lemma Forall2_nth_error {A B : Type} (R : A -> B -> Prop) (l : list A) (l' : list B)
      (i : nat) (a : A) (b : B) :
  Forall2 R l l' -> nth_error l i = Some a -> nth_error l' i = Some b -> R a b.
Proof.
  intros H; revert i; induction H as [|x y l l' Hxy HF IH]; intros [|i]; simpl; try discriminate.
  - intros [= <-] [= <-]. exact Hxy.
  - apply IH.
Qed.

Lemma col_index_nth_error (c : string) (cols : list string) (j : nat) :
  col_index c cols = Some j -> nth_error cols j = Some c.
Proof.
  revert j; induction cols as [|c' cols IH]; simpl; intros j H; [discriminate|].
  destruct (String.eqb_spec c' c) as [->|_].
  - now injection H as <-.
  - destruct (col_index c cols) as [j'|]; [|discriminate].
    injection H as <-. simpl. now apply IH.
Qed.

Lemma update_nth_other (g : value -> result value) (j0 j : nat) (r r' : list value) :
  update_nth g j0 r = Ok r' -> j <> j0 -> nth_error r' j = nth_error r j.
Proof.
  revert j0 j r'; induction r as [|x r IH]; intros j0 j r' H Hne.
  - destruct j0; simpl in H; now injection H as <-.
  - destruct j0 as [|j0]; simpl in H; inv_bind H; injection H as <-.
    + destruct j; [congruence|reflexivity].
    + destruct j; [reflexivity|]. simpl. eapply IH; eauto.
Qed.

Lemma mapM_raises {A B : Type} (f : A -> result B) (l : list A) (e : exn) (a : A) :
  (forall a' e', In a' l -> f a' = Raise e' -> e' = e) ->
  In a l -> f a = Raise e -> mapM f l = Raise e.
Proof.
  intros Hall Hin Ha. destruct (mapM f l) as [bs|e'] eqn:E.
  - apply mapM_Ok in E. destruct (In_nth_error _ _ Hin) as [i Hi].
    destruct (nth_error bs i) as [b|] eqn:Hb.
    + pose proof (Forall2_nth_error _ _ _ _ _ _ E Hi Hb). congruence.
    + exfalso. apply nth_error_None in Hb. rewrite <- (Forall2_length E) in Hb.
      assert (i < List.length l)%nat by (apply nth_error_Some; congruence). lia.
  - destruct (mapM_Raise _ _ _ E) as (a' & Hin' & Ha'). f_equal. eauto.
Qed.

Lemma update_nth_Raise (g : value -> result value) (j : nat) (r : list value) (e : exn) :
  update_nth g j r = Raise e -> exists v, g v = Raise e.
Proof.
  revert j; induction r as [|x r IH]; intros j H.
  - destruct j; discriminate.
  - destruct j as [|j]; simpl in H.
    + destruct (g x) as [v'|e'] eqn:E; cbn [bind] in H; [discriminate|].
      exists x. congruence.
    + destruct (update_nth g j r) as [r'|e'] eqn:E; cbn [bind] in H; [discriminate|].
      injection H as <-. eapply IH; eauto.
Qed.


Lemma map_column_Raise (g : value -> result value) (j : nat) (df : frame) (e : exn) :
  map_column g j df = Raise e -> exists v, g v = Raise e.
Proof.
  unfold map_column. intros H.
  destruct (mapM (update_nth g j) (rows df)) as [rs|e'] eqn:E; cbn [bind] in H;
    [discriminate|].
  injection H as <-. destruct (mapM_Raise _ _ _ E) as (r & _ & Hr).
  eapply update_nth_Raise; eauto.
Qed.

Lemma column_cells_In (j : nat) (df : frame) (v : value) :
  In v (column_cells j df) <-> exists r, In r (rows df) /\ nth_error r j = Some v.
Proof.
  unfold column_cells. rewrite in_flat_map. split.
  - intros (r & Hr & Hv). exists r. split; [exact Hr|].
    destruct (nth_error r j) as [u|]; [|destruct Hv].
    destruct Hv as [->|[]]. reflexivity.
  - intros (r & Hr & Hv). exists r. split; [exact Hr|]. rewrite Hv. now left.
Qed.


(** *** The largest value of a column *)

Lemma nanmax_In (col : list value) (m : spec_float) :
  nanmax col = Some m -> In (VFloat m) col /\ isna (VFloat m) = false.
Proof.
  revert m; induction col as [|v col IH]; intros m H; [discriminate|].
  destruct v as [|z|f|s]; cbn [nanmax] in H;
    try (destruct (IH _ H); split; [now right|assumption]).
  destruct (isna (VFloat f)) eqn:Hf.
  - destruct (IH _ H). split; [now right|assumption].
  - destruct (nanmax col) as [m'|].
    + injection H as <-. unfold float_max. destruct (SFltb f m').
      * destruct (IH _ eq_refl). split; [now right|assumption].
      * split; [now left|exact Hf].
    + injection H as <-. split; [now left|exact Hf].
Qed.





Lemma astype_Int64_Raise (u : value) (e : exn) : astype_Int64 u = Raise e -> e = TypeError.
Proof.
  unfold astype_Int64. destruct u as [|z|x|s]; try discriminate.
  - destruct (isna (VFloat x)); [discriminate|].
    destruct (integral_value x) as [z|]; [|congruence].
    destruct (in_int64 z); [discriminate|congruence].
  - congruence.
Qed.

Section CellFacts.
Variable float_of_str : string -> option spec_float.

Lemma astype_float_Raise (v : value) (e : exn) :
  astype_float float_of_str v = Raise e -> e = ValueError \/ e = OverflowError.
Proof.
  destruct v as [|z|x|s]; simpl; try discriminate.
  - destruct (Py.float_of_Z z); simpl; [discriminate|]. intros [= <-]. auto.
  - destruct (float_of_str s); simpl; [discriminate|]. intros [= <-]. auto.
Qed.

Lemma to_Int64_Raise (j : nat) (df : frame) (e : exn) :
  to_Int64 float_of_str j df = Raise e ->
  e = ValueError \/ e = TypeError \/ e = OverflowError.
Proof.
  unfold to_Int64. intros H. apply bind_Raise in H. destruct H as [H|(df1 & _ & H)].
  - destruct (map_column_Raise _ _ _ _ H) as [v Hv].
    destruct (astype_float_Raise _ _ Hv); auto.
  - assert (Hcast : map_column astype_Int64 j df1 = Raise e -> e = TypeError).
    { intros Hc. destruct (map_column_Raise _ _ _ _ Hc) as [v Hv].
      exact (astype_Int64_Raise _ _ Hv). }
    destruct (nanmax _) as [m|]; [|auto].
    destruct m; try (injection H as <-; auto);
      (destruct (integral_value _); [auto|]);
      destruct (existsb _ _); injection H as <-; auto.
Qed.

Lemma coerce_ds_Raise (cols : list string) (j : nat) (df : frame) (e : exn) :
  coerce_ds float_of_str cols j df = Raise e ->
  e = ValueError \/ e = TypeError \/ e = OverflowError.
Proof.
  revert j df; induction cols as [|c cols IH]; intros j df H; [discriminate|].
  cbn [coerce_ds] in H. apply bind_Raise in H. destruct H as [H|(df' & _ & H)].
  - destruct (Py.contains "ds_" c); [|discriminate].
    exact (to_Int64_Raise _ _ _ H).
  - eapply IH; eauto.
Qed.

Lemma coerce_row_cell (cols : list string) (r r1 : list value) (j : nat) (v : value) :
  coerce_row float_of_str cols r = Ok r1 -> nth_error r j = Some v ->
  exists v1, nth_error r1 j = Some v1 /\
    match nth_error cols j with
    | Some c => if Py.contains "ds_" c then to_nullable_int float_of_str v = Ok v1 else v1 = v
    | None => v1 = v
    end.
Proof.
  revert r r1 j; induction cols as [|c cols IH]; intros r r1 j H Hv.
  - simpl in H. injection H as <-. exists v. split; [exact Hv|]. now destruct j.
  - destruct r as [|x r]; [destruct j; discriminate|].
    cbn [coerce_row] in H. inv_bind H. inv_bind H. injection H as <-.
    destruct j as [|j]; simpl in Hv |- *.
    + injection Hv as <-. exists x0. split; [reflexivity|].
      destruct (Py.contains "ds_" c); [exact H0|now injection H0].
    + eapply IH; eauto.
Qed.


Lemma to_nullable_int_int (z : Z) :
  Z.abs z < 2 ^ 53 -> to_nullable_int float_of_str (VInt z) = Ok (VInt z).
Proof.
  intros Hz. destruct (float_of_Z_exact z Hz) as (x & Hx & Hi & Hn).
  unfold to_nullable_int, astype_float. rewrite Hx. cbn [of_option bind].
  unfold astype_Int64. rewrite Hn, Hi.
  replace (in_int64 z) with true; [reflexivity|].
  symmetry. unfold in_int64, int64_min, int64_max.
  assert (2 ^ 53 < 2 ^ 63) by (apply Z.pow_lt_mono_r; lia). lia.
Qed.

Lemma to_nullable_int_float (x : spec_float) (v' : value) :
  to_nullable_int float_of_str (VFloat x) = Ok v' -> isna (VFloat x) = false ->
  exists z, integral_value x = Some z /\ in_int64 z = true /\ v' = VInt z.
Proof.
  unfold to_nullable_int, astype_float. cbn [bind]. unfold astype_Int64.
  intros H Hn. rewrite Hn in H.
  destruct (integral_value x) as [z|]; [|discriminate].
  destruct (in_int64 z) eqn:Hz; [|discriminate].
  injection H as <-. eauto.
Qed.


Lemma astype_Int64_notna (u v' : value) :
  astype_Int64 u = Ok v' -> isna v' = false ->
  isna u = false /\ exists z, v' = VInt z.
Proof.
  unfold astype_Int64. intros H Hn. destruct u as [|z|x|s].
  - injection H as <-. discriminate.
  - injection H as <-. eauto.
  - destruct (isna (VFloat x)) eqn:Hx; [injection H as <-; discriminate|].
    destruct (integral_value x) as [z|]; [|discriminate].
    destruct (in_int64 z); [|discriminate]. injection H as <-. eauto.
  - discriminate.
Qed.

Lemma to_nullable_int_notna (v v' : value) :
  to_nullable_int float_of_str v = Ok v' -> isna v' = false ->
  isna v = false /\ exists z, v' = VInt z.
Proof.
  unfold to_nullable_int. intros H Hn. inv_bind H.
  destruct (astype_Int64_notna _ _ H Hn) as [Hx Hz]. split; [|exact Hz].
  destruct v as [|z|y|s]; try reflexivity.
  - injection H0 as <-. discriminate.
  - injection H0 as <-. exact Hx.
Qed.




End CellFacts.

(** ** The renaming and the order of its entries *)

Lemma entry_eqb_spec (a b : string * string) : entry_eqb a b = true <-> a = b.
Proof.
  destruct a as [a1 a2], b as [b1 b2]. unfold entry_eqb. cbn [fst snd].
  rewrite andb_true_iff, !String.eqb_eq. split; [intros [-> ->]; reflexivity|].
  intros [= -> ->]. auto.
Qed.

Lemma closed_and_commuting_spec (S : list string) (entries : list (string * string)) :
  closed_and_commuting S entries = true ->
  forall s a, In s S -> In a entries ->
    In (rename_step a s) S /\
    forall b, In b entries ->
      rename_step a (rename_step b s) = rename_step b (rename_step a s).
Proof.
  unfold closed_and_commuting. rewrite forallb_forall. intros H s a Hs Ha.
  specialize (H s Hs). rewrite forallb_forall in H. specialize (H a Ha).
  apply andb_true_iff in H. destruct H as [Hc Hb]. split.
  - apply existsb_exists in Hc. destruct Hc as (t & Ht & E).
    apply String.eqb_eq in E. now rewrite E.
  - intros b Hin. rewrite forallb_forall in Hb. now apply String.eqb_eq, Hb.
Qed.

Lemma rename_one_app (l1 l2 : list (string * string)) (s : string) :
  rename_one (l1 ++ l2) s = rename_one l2 (rename_one l1 s).
Proof. unfold rename_one. apply fold_left_app. Qed.

Lemma rename_one_cons (e : string * string) (l : list (string * string)) (s : string) :
  rename_one (e :: l) s = rename_one l (rename_step e s).
Proof. reflexivity. Qed.

Lemma rename_one_perm (S : list string) (entries m m' : list (string * string)) :
  closed_and_commuting S entries = true ->
  Permutation m m' -> incl m entries ->
  forall s, In s S -> rename_one m s = rename_one m' s.
Proof.
  intros Hcc Hperm. pose proof (closed_and_commuting_spec _ _ Hcc) as Hspec.
  induction Hperm as [|x l l' Hp IH|x y l|l l' l'' Hp1 IH1 Hp2 IH2]; intros Hincl s Hs.
  - reflexivity.
  - rewrite !rename_one_cons. apply IH.
    + intros e He. apply Hincl. now right.
    + apply Hspec; [exact Hs|]. apply Hincl. now left.
  - rewrite !rename_one_cons. f_equal.
    destruct (Hspec s x Hs) as [_ Hcomm]; [apply Hincl; simpl; auto|].
    apply Hcomm. apply Hincl. now left.
  - rewrite IH1 by assumption. apply IH2; [|exact Hs].
    intros e He. apply Hincl. exact (Permutation_in _ (Permutation_sym Hp1) He).
Qed.

Lemma rename_one_fixed (l : list (string * string)) (s : string) :
  (forall e, In e l -> rename_step e s = s) -> rename_one l s = s.
Proof.
  induction l as [|e l IH]; intros H; [reflexivity|].
  rewrite rename_one_cons, H by (now left). apply IH. intros e' He'. apply H. now right.
Qed.

Section TwoStage.
Variables (entries : list (string * string)) (a b : string * string) (A B C : string).
Hypothesis Hstage : two_stage entries a b A B C = true.

Lemma two_stage_facts :
  (rename_step a A = B /\ rename_step a B = B /\ rename_step a C = C) /\
  (rename_step b A = A /\ rename_step b B = C /\ rename_step b C = C) /\
  B <> C /\ a <> b /\
  forall e, In e entries -> e <> a -> e <> b ->
            rename_step e A = A /\ rename_step e B = B /\ rename_step e C = C.
Proof.
  unfold two_stage in Hstage. rewrite !andb_true_iff in Hstage.
  destruct Hstage as [[[[[[[[H1 H2] H3] H4] H5] H6] H7] H8] H9].
  rewrite String.eqb_eq in H1, H2, H3, H4, H5, H6.
  apply negb_true_iff in H7, H8. apply String.eqb_neq in H7.
  repeat split; auto.
  - intros E. apply entry_eqb_spec in E. congruence.
  - rewrite forallb_forall in H9. specialize (H9 e H). rewrite !orb_true_iff in H9.
    destruct H9 as [[E|E]|E]; try (apply entry_eqb_spec in E; contradiction).
    rewrite !andb_true_iff, !String.eqb_eq in E. tauto.
  - rewrite forallb_forall in H9. specialize (H9 e H). rewrite !orb_true_iff in H9.
    destruct H9 as [[E|E]|E]; try (apply entry_eqb_spec in E; contradiction).
    rewrite !andb_true_iff, !String.eqb_eq in E. tauto.
  - rewrite forallb_forall in H9. specialize (H9 e H). rewrite !orb_true_iff in H9.
    destruct H9 as [[E|E]|E]; try (apply entry_eqb_spec in E; contradiction).
    rewrite !andb_true_iff, !String.eqb_eq in E. tauto.
Qed.

Lemma others_fix (l : list (string * string)) (s : string) :
  incl l entries -> ~ In a l -> ~ In b l -> s = A \/ s = B \/ s = C ->
  rename_one l s = s.
Proof.
  intros Hincl Ha Hb Hs. apply rename_one_fixed. intros e He.
  destruct two_stage_facts as (_ & _ & _ & _ & Hother).
  destruct (Hother e (Hincl e He)) as (HA & HB & HC).
  - intros ->. contradiction.
  - intros ->. contradiction.
  - destruct Hs as [->|[->| ->]]; assumption.
Qed.

Lemma two_stage_in_order (m : list (string * string)) :
  NoDup m -> incl m entries -> applied_before a b m -> rename_one m A = C.
Proof.
  intros Hnd Hincl (l1 & l2 & l3 & ->).
  destruct two_stage_facts as ((HaA & _) & (_ & HbB & _) & _ & Hab & _).
  assert (H1 : ~ In a l1 /\ ~ In b l1 /\ ~ In a l2 /\ ~ In b l2 /\ ~ In a l3 /\ ~ In b l3).
  { pose proof (NoDup_remove_2 _ _ _ Hnd) as Na.
    rewrite !in_app_iff in Na. cbn [In] in Na.
    assert (Hnd' : NoDup ((l1 ++ a :: l2) ++ b :: l3)) by (now rewrite <- app_assoc).
    pose proof (NoDup_remove_2 _ _ _ Hnd') as Nb.
    rewrite !in_app_iff in Nb. cbn [In] in Nb.
    repeat split; intros Hin; tauto. }
  destruct H1 as (N1 & N2 & N3 & N4 & N5 & N6).
  assert (I1 : incl l1 entries) by (intros e He; apply Hincl; rewrite in_app_iff; auto).
  assert (I2 : incl l2 entries).
  { intros e He. apply Hincl. rewrite in_app_iff. right. right. rewrite in_app_iff. auto. }
  assert (I3 : incl l3 entries).
  { intros e He. apply Hincl. rewrite in_app_iff. right. right. rewrite in_app_iff.
    right. now right. }
  rewrite rename_one_app, (others_fix l1 A) by auto.
  rewrite rename_one_cons, HaA, rename_one_app, (others_fix l2 B) by auto.
  rewrite rename_one_cons, HbB. apply others_fix; auto.
Qed.

Lemma two_stage_out_of_order (m : list (string * string)) :
  NoDup m -> incl m entries -> In a m -> In b m ->
  rename_one m A = C -> applied_before a b m.
Proof.
  intros Hnd Hincl Ha Hb HC.
  destruct two_stage_facts as ((HaA & _) & (HbA & _ & _) & HBC & Hab & _).
  destruct (in_split _ _ Ha) as (l1 & r & ->).
  rewrite in_app_iff in Hb. cbn [In] in Hb.
  destruct Hb as [Hb|[Hb|Hb]]; [|contradiction|].
  - exfalso. destruct (in_split _ _ Hb) as (l0 & l2 & ->).
    rewrite <- app_assoc in Hnd, Hincl, HC. cbn [app] in Hnd, Hincl, HC.
    assert (H1 : ~ In a l0 /\ ~ In b l0 /\ ~ In a l2 /\ ~ In b l2 /\ ~ In a r /\ ~ In b r).
    { pose proof (NoDup_remove_2 _ _ _ Hnd) as Nb.
      rewrite !in_app_iff in Nb. cbn [In] in Nb.
      assert (Hnd' : NoDup ((l0 ++ b :: l2) ++ a :: r)) by (now rewrite <- app_assoc).
      pose proof (NoDup_remove_2 _ _ _ Hnd') as Na.
      rewrite !in_app_iff in Na. cbn [In] in Na.
      repeat split; intros Hin; tauto. }
    destruct H1 as (N1 & N2 & N3 & N4 & N5 & N6).
    assert (I0 : incl l0 entries) by (intros e He; apply Hincl; rewrite in_app_iff; auto).
    assert (I2 : incl l2 entries).
    { intros e He. apply Hincl. rewrite in_app_iff. right. right. rewrite in_app_iff. auto. }
    assert (I3 : incl r entries).
    { intros e He. apply Hincl. rewrite in_app_iff. right. right. rewrite in_app_iff.
      right. now right. }
    rewrite rename_one_app, (others_fix l0 A) in HC by auto.
    rewrite rename_one_cons, HbA, rename_one_app, (others_fix l2 A) in HC by auto.
    rewrite rename_one_cons, HaA, (others_fix r B) in HC by auto.
    contradiction.
  - destruct (in_split _ _ Hb) as (l2 & l3 & ->). exists l1, l2, l3. reflexivity.
Qed.

End TwoStage.

Lemma repl_NoDup : NoDup repl.
Proof.
  apply (NoDup_map_inv fst). unfold repl. cbn [map fst].
  repeat (constructor; [cbn [In]; intuition discriminate|]). constructor.
Qed.

Lemma person_columns_split :
  person_columns =
  (firstn 11 person_columns
   ++ ["score_text_risk_of_failure_to_appear"; "score_text_risk_of_recidivism";
       "score_text_risk_of_violence"])%list.
Proof. reflexivity. Qed.

Lemma order_free_closed : closed_and_commuting order_free_labels repl = true.
Proof. vm_compute. reflexivity. Qed.

Lemma existsb_eqb_In (c : string) (l : list string) :
  existsb (String.eqb c) l = true -> In c l.
Proof.
  intros H. apply existsb_exists in H. destruct H as (x & Hx & E).
  apply String.eqb_eq in E. now subst.
Qed.

Lemma order_free_columns (c : string) :
  In c (firstn 11 person_columns) -> In c order_free_labels.
Proof.
  intros H. apply existsb_eqb_In.
  cbn in H. repeat (destruct H as [<-|H]; [vm_compute; reflexivity|]). destruct H.
Qed.

(** Claim C7, amended.  In the order of the notebook the mapping turns the
    columns that the notebook names or builds into [male], [age], ...,
    [vrecid_text].  An order [m] of the same entries gives the same labels
    exactly when each [risk_of_*] entry is applied before the [score_text_*]
    entry written for its result. *)
Theorem renaming_depends_on_order
        (m : list (string * string)) (Hperm : Permutation m repl) :
  rename_columns repl person_columns
  = ["male"; "age"; "age_at_first_arrest"; "marital_status"; "slevel";
     "rs_fta"; "rs_grecid"; "rs_vrecid"; "ds_fta"; "ds_grecid"; "ds_vrecid";
     "fta_text"; "grecid_text"; "vrecid_text"]
  /\ (rename_columns m person_columns = rename_columns repl person_columns <->
      applied_before ("risk_of_failure_to_appear", "fta")
                     ("score_text_fta", "fta_text") m /\
      applied_before ("risk_of_recidivism", "grecid")
                     ("score_text_grecid", "grecid_text") m /\
      applied_before ("risk_of_violence", "vrecid")
                     ("score_text_vrecid", "vrecid_text") m).
Proof.
  split; [vm_compute; reflexivity|].
  assert (Hnd : NoDup m)
    by exact (Permutation_NoDup (Permutation_sym Hperm) repl_NoDup).
  assert (Hincl : incl m repl) by (intros e He; exact (Permutation_in _ Hperm He)).
  assert (Hin : forall e, In e repl -> In e m)
    by (intros e He; exact (Permutation_in _ (Permutation_sym Hperm) He)).
  assert (S1 : two_stage repl ("risk_of_failure_to_appear", "fta")
                 ("score_text_fta", "fta_text")
                 "score_text_risk_of_failure_to_appear" "score_text_fta" "fta_text" = true)
    by (vm_compute; reflexivity).
  assert (S2 : two_stage repl ("risk_of_recidivism", "grecid")
                 ("score_text_grecid", "grecid_text")
                 "score_text_risk_of_recidivism" "score_text_grecid" "grecid_text" = true)
    by (vm_compute; reflexivity).
  assert (S3 : two_stage repl ("risk_of_violence", "vrecid")
                 ("score_text_vrecid", "vrecid_text")
                 "score_text_risk_of_violence" "score_text_vrecid" "vrecid_text" = true)
    by (vm_compute; reflexivity).
  rewrite !rename_columns_map, map_ext_in_iff. split.
  - intros H.
    assert (H1 := H "score_text_risk_of_failure_to_appear").
    assert (H2 := H "score_text_risk_of_recidivism").
    assert (H3 := H "score_text_risk_of_violence").
    change (rename_one repl "score_text_risk_of_failure_to_appear") with "fta_text" in H1.
    change (rename_one repl "score_text_risk_of_recidivism") with "grecid_text" in H2.
    change (rename_one repl "score_text_risk_of_violence") with "vrecid_text" in H3.
    split; [|split].
    + apply (two_stage_out_of_order _ _ _ _ _ _ S1 m Hnd Hincl);
        [apply Hin; vm_compute; tauto | apply Hin; vm_compute; tauto|].
      apply H1. rewrite person_columns_split, in_app_iff. right. cbn [In]. tauto.
    + apply (two_stage_out_of_order _ _ _ _ _ _ S2 m Hnd Hincl);
        [apply Hin; vm_compute; tauto | apply Hin; vm_compute; tauto|].
      apply H2. rewrite person_columns_split, in_app_iff. right. cbn [In]. tauto.
    + apply (two_stage_out_of_order _ _ _ _ _ _ S3 m Hnd Hincl);
        [apply Hin; vm_compute; tauto | apply Hin; vm_compute; tauto|].
      apply H3. rewrite person_columns_split, in_app_iff. right. cbn [In]. tauto.
  - intros (B1 & B2 & B3) c Hc.
    rewrite person_columns_split, in_app_iff in Hc. destruct Hc as [Hc|Hc].
    + apply (rename_one_perm order_free_labels repl); auto using order_free_closed,
        order_free_columns.
    + cbn [In] in Hc. destruct Hc as [<-|[<-|[<-|[]]]].
      * exact (two_stage_in_order _ _ _ _ _ _ S1 m Hnd Hincl B1).
      * exact (two_stage_in_order _ _ _ _ _ _ S2 m Hnd Hincl B2).
      * exact (two_stage_in_order _ _ _ _ _ _ S3 m Hnd Hincl B3).
Qed.

(** ** The rows of the person table *)

Lemma drop_duplicates_from_spec {A : Type} (key : A -> Z) (seen : list Z) (l : list A) :
  NoDup (map key (drop_duplicates_from key seen l)) /\
  forall a, In a (drop_duplicates_from key seen l) -> In a l /\ ~ In (key a) seen.
Proof.
  revert seen; induction l as [|a l IH]; intros seen; simpl.
  - split; [constructor|intros a []].
  - destruct (existsb (Z.eqb (key a)) seen) eqn:E.
    + destruct (IH seen) as [H1 H2]. split; [exact H1|].
      intros b Hb. destruct (H2 b Hb). auto.
    + destruct (IH (key a :: seen)) as [H1 H2]. split.
      * simpl. constructor; [|exact H1].
        intros Hin. apply in_map_iff in Hin. destruct Hin as (b & Hk & Hb).
        destruct (H2 b Hb) as [_ Hn]. apply Hn. left. congruence.
      * intros b [<-|Hb].
        -- split; [now left|]. intros Hin.
           assert (Ht : existsb (Z.eqb (key a)) seen = true).
           { apply existsb_exists. exists (key a). split; [exact Hin|apply Z.eqb_refl]. }
           congruence.
        -- destruct (H2 b Hb) as [Hl Hn]. split; [now right|].
           intros Hin. apply Hn. now right.
Qed.

Lemma merge_inner_In {L R : Type} (key_l : L -> Z) (key_r : R -> Z)
      (left : list L) (right : list R) (l : L) (r : R) :
  In (l, r) (merge_inner key_l key_r left right) ->
  In l left /\ In r right /\ key_r r = key_l l.
Proof.
  unfold merge_inner, matches. rewrite in_flat_map. intros (l' & Hl & H).
  apply in_map_iff in H. destruct H as (r' & E & Hr). injection E as <- <-.
  apply filter_In in Hr. destruct Hr as [Hr Hk]. split; [exact Hl|].
  split; [exact Hr|lia].
Qed.

Lemma merge_inner_NoDup {L R : Type} (key_l : L -> Z) (key_r : R -> Z)
      (left : list L) (right : list R) :
  NoDup (map key_l left) -> NoDup (map key_r right) ->
  NoDup (map (fun f => key_l (fst f)) (merge_inner key_l key_r left right)).
Proof.
  intros Hl Hr. rewrite (merge_inner_unique _ _ _ _ Hr).
  induction left as [|l left IH]; cbn [flat_map map]; [constructor|].
  inversion Hl as [|? ? Hnin Hnd]; subst.
  rewrite map_app.
  assert (Hrest : forall k, In k (map (fun f : L * R => key_l (fst f))
                   (flat_map (fun l0 => match find (fun r => key_r r =? key_l l0) right with
                                        | Some r => [(l0, r)]
                                        | None => []
                                        end) left)) -> In k (map key_l left)).
  { intros k Hk. apply in_map_iff in Hk. destruct Hk as ([l0 r0] & <- & Hin).
    apply in_flat_map in Hin. destruct Hin as (l1 & Hl1 & Hin).
    destruct (find _ right); [|destruct Hin].
    destruct Hin as [E|[]]. injection E as <- <-. now apply in_map. }
  destruct (find (fun r => key_r r =? key_l l) right) as [r|]; cbn [map app fst].
  - constructor; [|now apply IH]. intros Hin. apply Hnin. now apply Hrest.
  - now apply IH.
Qed.

Lemma pivoted_df_rows (compas : list Compas.row) (w : wide) :
  pivoted_df compas = Ok w ->
  duplicated Compas.person_id Compas.type_of_assessment (first_screening_df compas) = false /\
  NoDup (map fst (wide_rows w)) /\
  forall k cells,
    In (k, cells) (wide_rows w) ->
    cells = flat_map (fun v => map (pivot_cell Compas.person_id Compas.type_of_assessment
                                               (first_screening_df compas) (snd v) k)
                                   (pivot_labels Compas.type_of_assessment
                                                 (first_screening_df compas)))
                     pivot_values.
Proof.
  unfold pivoted_df, pivot. intros Hpivot.
  destruct (duplicated _ _ _) eqn:Hdup; [discriminate|].
  match type of Hpivot with
  | bind (Ok (?X, ?Y)) _ = _ => remember X as cols eqn:Hcols; remember Y as rws eqn:Hrws
  end.
  cbn in Hpivot. injection Hpivot as <-. cbn [wide_rows]. subst cols rws.
  split; [reflexivity|]. split.
  - rewrite map_map. cbn [fst]. rewrite map_id. apply group_keys_NoDup.
  - intros k cells Hin. apply in_map_iff in Hin. destruct Hin as (i & E & _).
    now injection E as <- <-.
Qed.

Lemma final_df_NoDup (compas : list Compas.row) (w : wide) :
  pivoted_df compas = Ok w ->
  NoDup (map (fun f => Compas.person_id (fst f)) (final_df compas w)).
Proof.
  intros Hw. unfold final_df. apply merge_inner_NoDup.
  - apply drop_duplicates_from_spec.
  - now destruct (pivoted_df_rows _ _ Hw) as (_ & H & _).
Qed.

Lemma join_cell_rows (db : database) (ext : list ext_person) (df : frame) :
  join_cell db ext = Ok df ->
  exists w,
    pivoted_df (compas db) = Ok w /\
    columns df = ("sex" :: "age" :: people_others db
                  ++ ["age_at_first_arrest"; "marital_status"; "rec_supervision_level"]
                  ++ wide_columns w)%list /\
    rows df = map (fun e => joined_row w (e, final_of db w e)) ext.
Proof.
  unfold join_cell. intros H.
  destruct (pivoted_df (compas db)) as [w|] eqn:Hw; [|discriminate].
  cbn [bind] in H. injection H as <-. exists w. split; [reflexivity|].
  split; [reflexivity|]. cbn [rows].
  rewrite merge_left_unique by (now apply final_df_NoDup).
  rewrite map_map. reflexivity.
Qed.

Lemma ext_people_rows (float_of_str : string -> option spec_float)
      (db : database) (df : frame) :
  ext_people float_of_str db = Ok df ->
  exists w,
    pivoted_df (compas db) = Ok w /\
    col_index "male" (columns df) = Some 0%nat /\
    Forall2 (person_row float_of_str db w (columns df)) (people db) (rows df).
Proof.
  unfold ext_people. intros H. inv_bind H. rename x into ext. inv_bind H.
  rename x into df0.
  destruct (join_cell_rows _ _ _ H1) as (w & Hw & Hcols & Hrows).
  destruct (rename_cell_rows _ _ _ H) as (Hc & j0 & Hj0 & HF).
  assert (Hmale : col_index "male" (columns df) = Some 0%nat).
  { rewrite Hc, Hcols, rename_columns_map. reflexivity. }
  exists w. split; [exact Hw|]. split; [exact Hmale|].
  assert (j0 = 0%nat) by congruence. subst j0.
  rewrite Hrows in HF.
  apply (proj1 (Forall2_map_l (fun e => joined_row w (e, final_of db w e)) _ _ _)) in HF.
  pose proof (Forall2_trans_compose _ _ _ _ _ (age_cell_rows _ _ _ H0) HF) as HF'.
  eapply Forall2_impl; [|exact HF'].
  intros p r (e & He & Hr). exists e. auto.
Qed.

Section PersonRows.
Variable float_of_str : string -> option spec_float.

Lemma coerce_row_notna (cols : list string) (r r' : list value) :
  coerce_row float_of_str cols r = Ok r' -> row_notna r' = true -> row_notna r = true.
Proof.
  unfold row_notna. revert r r'; induction cols as [|c cols IH]; intros r r' H Hn.
  - simpl in H. now injection H as <-.
  - destruct r as [|v r]; [reflexivity|].
    cbn [coerce_row] in H. inv_bind H. inv_bind H. injection H as <-.
    cbn [forallb] in Hn |- *. apply andb_true_iff in Hn. destruct Hn as [Hv Hr].
    apply andb_true_iff. split; [|eapply IH; eauto].
    destruct (Py.contains "ds_" c); [|now injection H0 as <-].
    apply negb_true_iff in Hv. apply negb_true_iff.
    now destruct (to_nullable_int_notna _ _ _ H0 Hv).
Qed.

Lemma astype_int64_VInt (u v : value) :
  astype_int64 u = Ok v -> exists z, v = VInt z.
Proof.
  destruct u as [|z|x|s]; simpl; try discriminate.
  - destruct (in_int64 z); [|discriminate]. intros [= <-]. eauto.
  - destruct (trunc_value x) as [z|]; [|destruct x; discriminate].
    destruct (in_int64 z); [|discriminate]. intros [= <-]. eauto.
  - destruct (Py.int_of_str s) as [z|]; [|discriminate].
    destruct (in_int64 z); [|discriminate]. intros [= <-]. eauto.
Qed.

Lemma renamed_row_head (cols : list string) (v0 : value) (t0 r : list value) :
  col_index "male" cols = Some 0%nat ->
  renamed_row float_of_str cols 0 (v0 :: t0) r ->
  exists z t,
    r = VInt z :: t /\ astype_int64 (r_dict v0) = Ok (VInt z) /\
    coerce_row float_of_str (tl cols) t0 = Ok t.
Proof.
  intros Hj0 (r1 & r2 & Hc & Hu1 & Hu2).
  apply col_index_nth_error in Hj0. destruct cols as [|c cols]; [discriminate|].
  injection Hj0 as ->. cbn [coerce_row] in Hc.
  change (Py.contains "ds_" "male") with false in Hc. cbn [bind] in Hc.
  inv_bind Hc. injection Hc as <-. cbn [update_nth bind] in Hu1. injection Hu1 as <-.
  cbn [update_nth] in Hu2. inv_bind Hu2. injection Hu2 as <-.
  destruct (astype_int64_VInt _ _ H0) as [z ->]. exists z, x. auto.
Qed.

Lemma r_dict_cases (v : value) (z : Z) :
  astype_int64 (r_dict v) = Ok (VInt z) ->
  (v = VStr "Male" -> z = 1) /\
  (v = VStr "Female" -> z = 0) /\
  (forall s, v = VStr s -> s <> "Male" -> s <> "Female" -> Py.int_of_str s = Some z).
Proof.
  intros H. split; [|split].
  - intros ->. now injection H as <-.
  - intros ->. now injection H as <-.
  - intros s -> Hm Hf. unfold r_dict, eq_str in H.
    apply String.eqb_neq in Hm, Hf. rewrite Hm, Hf in H. simpl in H.
    destruct (Py.int_of_str s) as [z'|]; [|discriminate].
    destruct (in_int64 z'); [|discriminate]. now injection H as <-.
Qed.

Lemma person_row_head (db : database) (w : wide) (cols : list string)
      (p : People.row) (r : list value) :
  col_index "male" cols = Some 0%nat ->
  person_row float_of_str db w cols p r ->
  exists z t, r = VInt z :: t /\ astype_int64 (r_dict (People.sex p)) = Ok (VInt z).
Proof.
  intros Hj0 (e & (d & a & _ & _ & ->) & Hr).
  cbn [joined_row sex app] in Hr.
  destruct (renamed_row_head _ _ _ _ Hj0 Hr) as (z & t & -> & Hz & _). eauto.
Qed.

(** Claim C9, amended.  When the run succeeds, [male] is the first column of
    the person table, the table has one row per person in the order of the
    table [people], and the row of a person holds in [male] the integer that
    [astype("int64")] makes of the sex of that person after [r_dict]: 1 for
    ["Male"], 0 for ["Female"], and for any other text the integer that [int]
    reads in it; the written table is this table without the rows that hold
    a null.  The run raises, and writes nothing, when the sex of a person,
    written or not, is null or is an ASCII text other than ["Male"] and
    ["Female"] in which [int] reads no integer. *)
Theorem male_is_the_integer_of_sex (db : database) :
  (forall out,
     run float_of_str db = Ok out ->
     col_index "male" (columns (compas_csv out)) = Some 0%nat /\
     exists df,
       ext_people float_of_str db = Ok df /\
       compas_csv out = dropna df /\
       List.length (rows df) = List.length (people db) /\
       forall i p row,
         nth_error (people db) i = Some p ->
         nth_error (rows df) i = Some row ->
         exists z,
           nth_error row 0 = Some (VInt z) /\
           astype_int64 (r_dict (People.sex p)) = Ok (VInt z) /\
           (People.sex p = VStr "Male" -> z = 1) /\
           (People.sex p = VStr "Female" -> z = 0) /\
           (forall s, People.sex p = VStr s -> s <> "Male" -> s <> "Female" ->
                      Py.int_of_str s = Some z)) /\
  (forall p,
     In p (people db) ->
     People.sex p = VNull \/
     (exists s, People.sex p = VStr s /\ Py.isascii s = true /\
                s <> "Male" /\ s <> "Female" /\ Py.int_of_str s = None) ->
     exists e, run float_of_str db = Raise e).
Proof.
  assert (Hreturns : forall df, ext_people float_of_str db = Ok df ->
            col_index "male" (columns df) = Some 0%nat /\
            List.length (rows df) = List.length (people db) /\
            forall i p row,
              nth_error (people db) i = Some p ->
              nth_error (rows df) i = Some row ->
              exists z,
                nth_error row 0 = Some (VInt z) /\
                astype_int64 (r_dict (People.sex p)) = Ok (VInt z)).
  { intros df H. destruct (ext_people_rows _ _ _ H) as (w & _ & Hmale & HF).
    split; [exact Hmale|]. split; [symmetry; exact (Forall2_length HF)|].
    intros i p row Hp Hrow.
    pose proof (Forall2_nth_error _ _ _ _ _ _ HF Hp Hrow) as Hpr.
    destruct (person_row_head _ _ _ _ _ Hmale Hpr) as (z & t & -> & Hz).
    exists z. split; [reflexivity|exact Hz]. }
  split.
  - intros out Hrun. unfold run in Hrun. inv_bind Hrun. rename x into df.
    injection Hrun as <-. cbn [compas_csv].
    destruct (Hreturns _ H) as (Hmale & Hlen & Hrows).
    split; [exact Hmale|]. exists df. split; [exact H|]. split; [reflexivity|].
    split; [exact Hlen|]. intros i p row Hp Hrow.
    destruct (Hrows _ _ _ Hp Hrow) as (z & Hz & Hint).
    exists z. split; [exact Hz|]. split; [exact Hint|]. now apply r_dict_cases.
  - intros p Hp Hsex. unfold run.
    destruct (ext_people float_of_str db) as [df|e] eqn:H; [|cbn [bind]; eauto].
    exfalso. destruct (Hreturns _ eq_refl) as (_ & Hlen & Hrows).
    destruct (In_nth_error _ _ Hp) as [i Hi].
    destruct (nth_error (rows df) i) as [row|] eqn:Hrow.
    + destruct (Hrows _ _ _ Hi Hrow) as (z & _ & Hint).
      destruct Hsex as [E|(s & E & _ & Hm & Hf & Hnone)]; rewrite E in Hint.
      * discriminate.
      * unfold r_dict, eq_str in Hint. apply String.eqb_neq in Hm, Hf.
        rewrite Hm, Hf in Hint. cbn [astype_int64] in Hint.
        rewrite Hnone in Hint. discriminate.
    + apply nth_error_None in Hrow. rewrite Hlen in Hrow.
      assert (i < List.length (people db))%nat by (apply nth_error_Some; congruence). lia.
Qed.

End PersonRows.

Section WrittenPersons.
Variable float_of_str : string -> option spec_float.

Lemma first_screening_df_valid_rows (compas : list Compas.row) (r : Compas.row) :
  In r (first_screening_df compas) ->
  In r compas /\ eq_str (Compas.score_text r) "N/A" = false.
Proof.
  intros H. rewrite first_screening_df_filter in H. apply filter_In in H.
  destruct H as [H _]. apply (Permutation_in _ (compas_df_sorted_perm compas)) in H.
  unfold compas_df in H. apply filter_In in H.
  destruct H as [H Hv]. split; [exact H|now apply negb_true_iff in Hv].
Qed.

Lemma pivot_cell_notna (l : list Compas.row) (get : Compas.row -> value) (k : Z) (t : string) :
  isna (pivot_cell Compas.person_id Compas.type_of_assessment l get k t) = false ->
  exists r rest,
    filter (fun a => (Compas.person_id a =? k) && (Compas.type_of_assessment a =? t)%string) l
    = r :: rest /\ isna (get r) = false.
Proof.
  unfold pivot_cell. destruct (filter _ l) as [|r rest]; [discriminate|]. eauto.
Qed.

(** Claim C10, amended.  A person whose row of [ext_people] has no null,
    which is then written, has a first assessment batch, and this batch holds
    for every assessment type that occurs in the deduplicated table a row of
    that type with a raw score, a decile score and a score text that are not
    null, the score text not being ["N/A"]. *)
Theorem written_person_has_every_type
        (db : database) (df : frame) (i : nat) (p : People.row) (row : list value)
        (Hrun : ext_people float_of_str db = Ok df)
        (Hp : nth_error (people db) i = Some p)
        (Hrow : nth_error (rows df) i = Some row)
        (Hwritten : row_notna row = true) :
  In row (rows (dropna df)) /\
  (exists r, In r (first_screening_df (compas db)) /\ Compas.person_id r = People.id p) /\
  forall t,
    In t (map Compas.type_of_assessment (first_screening_df (compas db))) ->
    exists r,
      In r (first_screening_df (compas db)) /\
      Compas.person_id r = People.id p /\ Compas.type_of_assessment r = t /\
      isna (Compas.raw_score r) = false /\ isna (Compas.decile_score r) = false /\
      isna (Compas.score_text r) = false /\ eq_str (Compas.score_text r) "N/A" = false.
Proof.
  split.
  { unfold dropna. cbn [rows]. apply filter_In. split; [|exact Hwritten].
    exact (nth_error_In _ _ Hrow). }
  destruct (ext_people_rows _ _ _ Hrun) as (w & Hw & Hmale & HF).
  destruct (Forall2_nth_error _ _ _ _ _ _ HF Hp Hrow) as (e & (d & a & _ & _ & He) & Hr).
  assert (Hid : person_id e = People.id p) by (now subst e).
  cbn [joined_row app] in Hr.
  destruct (renamed_row_head _ _ _ _ _ Hmale Hr) as (z & t & -> & _ & Hc).
  unfold row_notna in Hwritten. cbn [forallb] in Hwritten.
  apply andb_true_iff in Hwritten. destruct Hwritten as [_ Ht].
  pose proof (coerce_row_notna _ _ _ _ Hc Ht) as Ht0. clear Hc Ht Hr.
  unfold row_notna in Ht0. cbn [forallb] in Ht0.
  apply andb_true_iff in Ht0. destruct Ht0 as [_ Ht0].
  rewrite forallb_app in Ht0. apply andb_true_iff in Ht0. destruct Ht0 as [_ Ht0].
  cbn [forallb] in Ht0. apply andb_true_iff in Ht0. destruct Ht0 as [_ Ht0].
  unfold final_of in Ht0.
  destruct (find _ (final_df (compas db) w)) as [[o [k cells]]|] eqn:Hfind;
    [|discriminate].
  apply find_some in Hfind. destruct Hfind as [Hin Hk]. cbn [fst] in Hk.
  apply merge_inner_In in Hin. destruct Hin as (Ho & Hcells & Hko). cbn [fst] in Hko.
  assert (Hop : Compas.person_id o = People.id p) by lia.
  assert (Hkp : k = People.id p) by lia. clear Hko Hk. subst k.
  unfold other_columns in Ho. apply drop_duplicates_from_spec in Ho. destruct Ho as [Ho _].
  split; [exists o; split; [exact Ho|exact Hop]|].
  intros ty Hty.
  destruct (pivoted_df_rows _ _ Hw) as (_ & _ & Hrows).
  rewrite (Hrows _ _ Hcells) in Ht0. clear Hrows Hcells.
  cbn [forallb] in Ht0. apply andb_true_iff in Ht0. destruct Ht0 as [_ Ht0].
  apply andb_true_iff in Ht0. destruct Ht0 as [_ Ht0].
  rewrite forallb_forall in Ht0.
  set (fs := first_screening_df (compas db)) in *.
  assert (Hlab : In ty (pivot_labels Compas.type_of_assessment fs))
    by (now apply pivot_labels_In).
  assert (Hcell : forall v, In v pivot_values ->
            isna (pivot_cell Compas.person_id Compas.type_of_assessment fs (snd v)
                             (People.id p) ty) = false).
  { intros v Hv. apply negb_true_iff, Ht0. apply in_flat_map. exists v.
    split; [exact Hv|]. now apply in_map. }
  destruct (pivot_cell_notna _ _ _ _ (Hcell ("raw_score", Compas.raw_score) (or_introl eq_refl)))
    as (r & rest & Hf & Hraw).
  pose proof (Hcell ("decile_score", Compas.decile_score) (or_intror (or_introl eq_refl))) as Hdec.
  pose proof (Hcell ("score_text", Compas.score_text)
                    (or_intror (or_intror (or_introl eq_refl)))) as Htxt.
  unfold pivot_cell in Hdec, Htxt. rewrite Hf in Hdec, Htxt. cbn [snd] in Hdec, Htxt, Hraw.
  assert (Hr : In r (filter (fun a => (Compas.person_id a =? People.id p)
                                      && (Compas.type_of_assessment a =? ty)%string) fs))
    by (rewrite Hf; now left).
  apply filter_In in Hr. destruct Hr as [Hr Hkt].
  apply andb_true_iff in Hkt. destruct Hkt as [Hk' Hty'].
  exists r. split; [exact Hr|]. split; [lia|]. split; [now apply String.eqb_eq|].
  split; [exact Hraw|]. split; [exact Hdec|]. split; [exact Htxt|].
  now destruct (first_screening_df_valid_rows _ _ Hr).
Qed.

End WrittenPersons.

(** ** Dates as text *)

Lemma digit_of_spec (c : ascii) (n : Z) :
  Py.digit_of c = Some n -> 0 <= n <= 9 /\ N_of_ascii c = Z.to_N (48 + n).
Proof.
  unfold Py.digit_of.
  destruct ((48 <=? N_of_ascii c)%N && (N_of_ascii c <=? 57)%N) eqn:E; [|discriminate].
  intros [= <-]. apply andb_true_iff in E. destruct E as [E1 E2].
  apply N.leb_le in E1, E2. split; lia.
Qed.

Lemma digit_of_compare (c c' : ascii) (n n' : Z) :
  Py.digit_of c = Some n -> Py.digit_of c' = Some n' ->
  Ascii.compare c c' = (n ?= n').
Proof.
  intros H H'. destruct (digit_of_spec _ _ H) as [B E], (digit_of_spec _ _ H') as [B' E'].
  unfold Ascii.compare. rewrite E, E'.
  destruct (Z.compare_spec n n') as [->|L|G].
  - apply N.compare_refl.
  - apply N.compare_lt_iff. lia.
  - apply N.compare_gt_iff. lia.
Qed.

Lemma digit_of_not (c : ascii) (n : Z) (x : ascii) :
  Py.digit_of c = Some n -> (N_of_ascii x < 48)%N -> (c =? x)%char = false.
Proof.
  intros H Hx. destruct (digit_of_spec _ _ H) as [B E].
  apply Ascii.eqb_neq. intros ->. lia.
Qed.

Lemma iso_fields_strptime (s : string) (y m d : Z) :
  iso_fields s = Some (y, m, d) ->
  Py.strptime (Py.split_space_0 s)
  = if valid_date y m d then Some (Py.mkdate y m d) else None.
Proof.
  unfold iso_fields.
  destruct s as [|y1 [|y2 [|y3 [|y4 [|c1 [|m1 [|m2 [|c2 [|d1 [|d2 rest]]]]]]]]]];
    try discriminate.
  destruct (Py.digit_of y1) as [a|] eqn:E1; [|discriminate].
  destruct (Py.digit_of y2) as [b|] eqn:E2; [|discriminate].
  destruct (Py.digit_of y3) as [c|] eqn:E3; [|discriminate].
  destruct (Py.digit_of y4) as [e|] eqn:E4; [|discriminate].
  destruct (Py.digit_of m1) as [f|] eqn:E5; [|discriminate].
  destruct (Py.digit_of m2) as [g|] eqn:E6; [|discriminate].
  destruct (Py.digit_of d1) as [h|] eqn:E7; [|discriminate].
  destruct (Py.digit_of d2) as [i|] eqn:E8; [|discriminate].
  destruct (Ascii.eqb_spec c1 "-") as [->|]; [|discriminate].
  destruct (Ascii.eqb_spec c2 "-") as [->|]; [|discriminate].
  cbv beta iota delta [andb].
  assert (Hsplit : match rest with
                   | EmptyString => true
                   | String sp _ => (sp =? " ")%char
                   end = true ->
          Py.split_space_0
            (String y1 (String y2 (String y3 (String y4 (String "-"
               (String m1 (String m2 (String "-" (String d1 (String d2 rest))))))))))
          = String y1 (String y2 (String y3 (String y4 (String "-"
               (String m1 (String m2 (String "-" (String d1 (String d2 EmptyString)))))))))).
  { intros Hrest. cbn [Py.split_space_0].
    rewrite (digit_of_not _ _ " " E1), (digit_of_not _ _ " " E2),
      (digit_of_not _ _ " " E3), (digit_of_not _ _ " " E4),
      (digit_of_not _ _ " " E5), (digit_of_not _ _ " " E6),
      (digit_of_not _ _ " " E7), (digit_of_not _ _ " " E8) by (vm_compute; reflexivity).
    change ("-" =? " ")%char with false. cbv iota.
    destruct rest as [|sp rest]; [reflexivity|].
    cbn [Py.split_space_0]. now rewrite Hrest. }
  destruct (match rest with
            | EmptyString => true
            | String sp _ => (sp =? " ")%char
            end); [|discriminate].
  intros Hf.
  assert (Ey : y = 1000 * a + 100 * b + 10 * c + e) by congruence.
  assert (Em : m = 10 * f + g) by congruence.
  assert (Ed : d = 10 * h + i) by congruence.
  subst y m d. clear Hf. rewrite Hsplit by reflexivity. clear Hsplit.
  unfold Py.strptime. rewrite E1, E2, E3, E4.
  cbn [Py.cut_dash].
  rewrite (digit_of_not _ _ "-" E5), (digit_of_not _ _ "-" E6) by (vm_compute; reflexivity).
  change ("-" =? "-")%char with true. cbv iota.
  unfold Py.field2. rewrite E5, E6, E7, E8. reflexivity.
Qed.

Lemma iso_fields_leb (s t : string) (y m d y' m' d' : Z) :
  iso_fields s = Some (y, m, d) -> iso_fields t = Some (y', m', d') ->
  String.leb s t = true ->
  y < y' \/ (y = y' /\ (m < m' \/ (m = m' /\ d <= d'))).
Proof.
  unfold iso_fields.
  destruct s as [|y1 [|y2 [|y3 [|y4 [|c1 [|m1 [|m2 [|c2 [|d1 [|d2 rest]]]]]]]]]];
    try discriminate.
  destruct t as [|z1 [|z2 [|z3 [|z4 [|e1 [|n1 [|n2 [|e2 [|f1 [|f2 rest']]]]]]]]]];
    try (intros _; discriminate).
  destruct (Py.digit_of y1) as [a1|] eqn:A1; [|discriminate].
  destruct (Py.digit_of y2) as [a2|] eqn:A2; [|discriminate].
  destruct (Py.digit_of y3) as [a3|] eqn:A3; [|discriminate].
  destruct (Py.digit_of y4) as [a4|] eqn:A4; [|discriminate].
  destruct (Py.digit_of m1) as [a5|] eqn:A5; [|discriminate].
  destruct (Py.digit_of m2) as [a6|] eqn:A6; [|discriminate].
  destruct (Py.digit_of d1) as [a7|] eqn:A7; [|discriminate].
  destruct (Py.digit_of d2) as [a8|] eqn:A8; [|discriminate].
  destruct (Py.digit_of z1) as [b1|] eqn:B1; [|intros _; discriminate].
  destruct (Py.digit_of z2) as [b2|] eqn:B2; [|intros _; discriminate].
  destruct (Py.digit_of z3) as [b3|] eqn:B3; [|intros _; discriminate].
  destruct (Py.digit_of z4) as [b4|] eqn:B4; [|intros _; discriminate].
  destruct (Py.digit_of n1) as [b5|] eqn:B5; [|intros _; discriminate].
  destruct (Py.digit_of n2) as [b6|] eqn:B6; [|intros _; discriminate].
  destruct (Py.digit_of f1) as [b7|] eqn:B7; [|intros _; discriminate].
  destruct (Py.digit_of f2) as [b8|] eqn:B8; [|intros _; discriminate].
  destruct (Ascii.eqb_spec c1 "-") as [->|]; [|discriminate].
  destruct (Ascii.eqb_spec c2 "-") as [->|]; [|discriminate].
  destruct (Ascii.eqb_spec e1 "-") as [->|]; [|intros _; discriminate].
  destruct (Ascii.eqb_spec e2 "-") as [->|]; [|intros _; discriminate].
  cbv beta iota delta [andb].
  destruct (match rest with EmptyString => true | String sp _ => (sp =? " ")%char end);
    [|discriminate].
  destruct (match rest' with EmptyString => true | String sp _ => (sp =? " ")%char end);
    [|intros _; discriminate].
  intros Hs Ht.
  assert (Ey : y = 1000 * a1 + 100 * a2 + 10 * a3 + a4) by congruence.
  assert (Em : m = 10 * a5 + a6) by congruence.
  assert (Ed : d = 10 * a7 + a8) by congruence.
  assert (Ey' : y' = 1000 * b1 + 100 * b2 + 10 * b3 + b4) by congruence.
  assert (Em' : m' = 10 * b5 + b6) by congruence.
  assert (Ed' : d' = 10 * b7 + b8) by congruence.
  clear Hs Ht.
  pose proof (digit_of_spec _ _ A1). pose proof (digit_of_spec _ _ A2).
  pose proof (digit_of_spec _ _ A3). pose proof (digit_of_spec _ _ A4).
  pose proof (digit_of_spec _ _ A5). pose proof (digit_of_spec _ _ A6).
  pose proof (digit_of_spec _ _ A7). pose proof (digit_of_spec _ _ A8).
  pose proof (digit_of_spec _ _ B1). pose proof (digit_of_spec _ _ B2).
  pose proof (digit_of_spec _ _ B3). pose proof (digit_of_spec _ _ B4).
  pose proof (digit_of_spec _ _ B5). pose proof (digit_of_spec _ _ B6).
  pose proof (digit_of_spec _ _ B7). pose proof (digit_of_spec _ _ B8).
  unfold String.leb. cbn [String.compare].
  rewrite (digit_of_compare _ _ _ _ A1 B1), (digit_of_compare _ _ _ _ A2 B2),
    (digit_of_compare _ _ _ _ A3 B3), (digit_of_compare _ _ _ _ A4 B4),
    (digit_of_compare _ _ _ _ A5 B5), (digit_of_compare _ _ _ _ A6 B6),
    (digit_of_compare _ _ _ _ A7 B7), (digit_of_compare _ _ _ _ A8 B8).
  change (Ascii.compare "-" "-") with Eq. cbv iota.
  destruct (Z.compare_spec a1 b1); [|intros _; lia|discriminate].
  destruct (Z.compare_spec a2 b2); [|intros _; lia|discriminate].
  destruct (Z.compare_spec a3 b3); [|intros _; lia|discriminate].
  destruct (Z.compare_spec a4 b4); [|intros _; lia|discriminate].
  destruct (Z.compare_spec a5 b5); [|intros _; lia|discriminate].
  destruct (Z.compare_spec a6 b6); [|intros _; lia|discriminate].
  destruct (Z.compare_spec a7 b7); [|intros _; lia|discriminate].
  destruct (Z.compare_spec a8 b8); [|intros _; lia|discriminate].
  intros _. lia.
Qed.

Lemma days_before_year_step (y : Z) :
  Py.days_before_year (y + 1) =
  Py.days_before_year y + 365 + (if Py.is_leap y then 1 else 0).
Proof.
  unfold Py.days_before_year, Py.is_leap.
  replace (y + 1 - 1) with y by lia.
  destruct (Z.eqb_spec (y mod 4) 0) as [E4|E4];
    destruct (Z.eqb_spec (y mod 100) 0) as [E100|E100];
    destruct (Z.eqb_spec (y mod 400) 0) as [E400|E400];
    cbn [andb orb negb];
    Z.to_euclidean_division_equations; lia.
Qed.

Lemma days_before_year_mono (y y' : Z) :
  y <= y' -> Py.days_before_year y <= Py.days_before_year y'.
Proof.
  unfold Py.days_before_year. intros H.
  Z.to_euclidean_division_equations. lia.
Qed.

Lemma day_of_year_bounds (y m d : Z) :
  valid_date y m d = true ->
  1 <= Py.days_before_month y m + d <= 365 + (if Py.is_leap y then 1 else 0).
Proof.
  unfold valid_date, Py.days_in_month, Py.days_before_month.
  rewrite !andb_true_iff, !Z.leb_le.
  destruct (Py.is_leap y); intros [[[[_ Hm1] Hm2] Hd1] Hd2];
    assert (Hm : m = 1 \/ m = 2 \/ m = 3 \/ m = 4 \/ m = 5 \/ m = 6 \/ m = 7 \/ m = 8
                  \/ m = 9 \/ m = 10 \/ m = 11 \/ m = 12) by lia;
    destruct Hm as [->|[->|[->|[->|[->|[->|[->|[->|[->|[->|[->| ->]]]]]]]]]]];
    cbv beta iota delta [nth Z.to_nat Pos.to_nat Pos.iter_op Init.Nat.add Z.eqb Pos.eqb
                           Z.ltb Z.compare Pos.compare Pos.compare_cont andb] in Hd2 |- *;
    lia.
Qed.

Lemma day_of_year_mono (y m d m' d' : Z) :
  valid_date y m d = true -> valid_date y m' d' = true ->
  m < m' ->
  Py.days_before_month y m + d <= Py.days_before_month y m' + d'.
Proof.
  unfold valid_date, Py.days_in_month, Py.days_before_month.
  rewrite !andb_true_iff, !Z.leb_le.
  destruct (Py.is_leap y);
    intros [[[[_ Hm1] Hm2] Hd1] Hd2] [[[[_ Hn1] Hn2] He1] He2] Hlt;
    assert (Hm : m = 1 \/ m = 2 \/ m = 3 \/ m = 4 \/ m = 5 \/ m = 6 \/ m = 7 \/ m = 8
                  \/ m = 9 \/ m = 10 \/ m = 11 \/ m = 12) by lia;
    assert (Hn : m' = 1 \/ m' = 2 \/ m' = 3 \/ m' = 4 \/ m' = 5 \/ m' = 6 \/ m' = 7
                  \/ m' = 8 \/ m' = 9 \/ m' = 10 \/ m' = 11 \/ m' = 12) by lia;
    destruct Hm as [->|[->|[->|[->|[->|[->|[->|[->|[->|[->|[->| ->]]]]]]]]]]];
    destruct Hn as [->|[->|[->|[->|[->|[->|[->|[->|[->|[->|[->| ->]]]]]]]]]]];
    try lia;
    cbv beta iota delta [nth Z.to_nat Pos.to_nat Pos.iter_op Init.Nat.add Z.eqb Pos.eqb
                           Z.ltb Z.compare Pos.compare Pos.compare_cont andb]
      in Hd2, He2 |- *;
    lia.
Qed.

Lemma ymd2ord_mono (y m d y' m' d' : Z) :
  valid_date y m d = true -> valid_date y' m' d' = true ->
  y < y' \/ (y = y' /\ (m < m' \/ (m = m' /\ d <= d'))) ->
  Py.ymd2ord (Py.mkdate y m d) <= Py.ymd2ord (Py.mkdate y' m' d').
Proof.
  intros V V' H. unfold Py.ymd2ord. cbn [Py.year Py.month Py.day].
  destruct H as [Hy|[<- [Hm|[<- Hd]]]].
  - pose proof (day_of_year_bounds _ _ _ V) as B.
    pose proof (day_of_year_bounds _ _ _ V') as B'.
    pose proof (days_before_year_step y) as S.
    pose proof (days_before_year_mono (y + 1) y' ltac:(lia)) as M.
    destruct (Py.is_leap y); lia.
  - pose proof (day_of_year_mono _ _ _ _ _ V V' Hm). lia.
  - lia.
Qed.

(** Among dates written as the database writes them, the order of the texts
    is the order of the calendar: the arrest date that the sort puts first is
    the earliest one. *)
Lemma iso_dates_in_calendar_order (s t : string) (fs ft : Z * Z * Z) (a b : Py.date) :
  iso_fields s = Some fs -> iso_fields t = Some ft ->
  Py.strptime (Py.split_space_0 s) = Some a ->
  Py.strptime (Py.split_space_0 t) = Some b ->
  String.leb s t = true ->
  Py.ymd2ord a <= Py.ymd2ord b.
Proof.
  destruct fs as [[y m] d], ft as [[y' m'] d']. intros Hs Ht Ha Hb Hle.
  rewrite (iso_fields_strptime _ _ _ _ Hs) in Ha.
  rewrite (iso_fields_strptime _ _ _ _ Ht) in Hb.
  destruct (valid_date y m d) eqn:V; [|discriminate].
  destruct (valid_date y' m' d') eqn:V'; [|discriminate].
  injection Ha as <-. injection Hb as <-.
  apply ymd2ord_mono; auto. eapply iso_fields_leb; eauto.
Qed.

(** ** Years as floats *)

Lemma all_from_spec (P : Z -> bool) (k : nat) (lo : Z) :
  all_from P k lo = true ->
  forall d, lo <= d < lo + 2 ^ Z.of_nat k -> P d = true.
Proof.
  revert lo; induction k as [|k IH]; intros lo H d Hd.
  - simpl in Hd. replace d with lo by lia. exact H.
  - cbn [all_from] in H. apply andb_true_iff in H. destruct H as [H1 H2].
    rewrite Nat2Z.inj_succ, Z.pow_succ_r in Hd by lia.
    destruct (Z.lt_ge_cases d (lo + 2 ^ Z.of_nat k)) as [L|G].
    + apply (IH lo H1). lia.
    + apply (IH _ H2). lia.
Qed.

(** For a person arrested less than 2^15 days, 89 years, after birth the
    floats do not show: the age at first arrest is the exact quotient
    rounded to the nearest integer. *)
Lemma rounded_years_exact (days : Z) :
  0 <= days < 32768 -> rounded_years days = Some ((8 * days + 1461) / 2922).
Proof.
  intros H.
  assert (Hall : all_from rounds_exactly 15 0 = true) by (vm_compute; reflexivity).
  pose proof (all_from_spec _ _ _ Hall days H) as Hd.
  unfold rounds_exactly in Hd.
  destruct (rounded_years days) as [n|]; [|discriminate].
  apply Z.eqb_eq in Hd. now subst.
Qed.

Lemma earliest_arrest_date_exists (arrests : list Casearrest.row) (k : Z) (t : string) :
  dated_arrest arrests k t -> exists s, earliest_arrest_date arrests k s.
Proof.
  intros H. destruct (arrest_of_earliest _ _ _ H) as (s & _ & Hs). eauto.
Qed.

(** [int] does not skip the separators that [strip] cuts off. *)
Example int_of_str_white_space :
  Py.int_of_str (String (ascii_of_nat 9) " 7 ") = Some 7 /\
  Py.int_of_str (String (ascii_of_nat 28) "7") = None /\
  Py.strip (String (ascii_of_nat 28) "7") = "7" /\
  Py.int_of_str "-1_0" = Some (- 10) /\
  Py.int_of_str "+ 1" = None.
Proof. repeat split; reflexivity. Qed.

Example other_sex_raises :
  astype_int64 (r_dict (VStr "Other")) = Raise ValueError /\
  astype_int64 (r_dict VNull) = Raise TypeError /\
  run no_float_text other_sex_db = Raise ValueError /\
  run no_float_text null_sex_db = Raise TypeError.
Proof. repeat split; vm_compute; reflexivity. Qed.

(** ** The age cell returns *)

Lemma mapM_exists {A B : Type} (f : A -> result B) (l : list A) :
  Forall (fun a => exists b, f a = Ok b) l -> exists l', mapM f l = Ok l'.
Proof.
  induction 1 as [|a l [b Hb] _ [l' IH]]; simpl.
  - eauto.
  - rewrite Hb, IH. simpl. eauto.
Qed.

Lemma time_diff_exact (s1 s2 : string) (s3 : value) (d1 d2 : Py.date) :
  Py.strptime s1 = Some d1 -> Py.strptime s2 = Some d2 ->
  0 <= Py.days_between d1 d2 < 32768 ->
  time_diff s1 s2 s3 = Ok (VInt ((8 * Py.days_between d1 d2 + 1461) / 2922)).
Proof.
  intros H1 H2 Hd. unfold time_diff.
  destruct (String.eqb_spec s2 "No_arrest") as [E|_].
  - exfalso. exact (strptime_not_sentinel _ _ H2 E).
  - rewrite H1, H2. cbn [of_option bind].
    pose proof (rounded_years_exact _ Hd) as Hy. unfold rounded_years in Hy.
    destruct (Py.float_of_Z _) as [x|]; [|discriminate]. cbn [of_option bind].
    destruct (Py.truediv x Py.c365_25) as [q|]; [|discriminate]. cbn [of_option bind].
    rewrite Hy. reflexivity.
Qed.

(** The age cell raises nothing when there are people and the dates of
    every person are as [age_defined] says. *)
Lemma age_cell_total (arrests : list Casearrest.row) (people : list People.row) :
  people <> [] ->
  Forall (age_defined arrests) people -> exists ext, age_cell arrests people = Ok ext.
Proof.
  intros Hne H. unfold age_cell.
  rewrite (mapM_total (fun p => d <- dob_date (People.dob p) ;; Ok (p, d))
             (fun p => (p, match People.dob p with
                           | VStr b => Py.split_space_0 b
                           | _ => EmptyString
                           end)) people).
  2:{ intros p Hp. rewrite Forall_forall in H.
      destruct (H p Hp) as (b & d1 & Hb & _). now rewrite Hb. }
  cbn [bind]. rewrite merge_left_unique by apply first_arrest_NoDup.
  rewrite map_map. cbn [fst].
  rewrite nonempty_match by (destruct people; [contradiction|discriminate]).
  apply mapM_exists.
  rewrite Forall_forall. intros row Hrow. apply in_map_iff in Hrow.
  destruct Hrow as (p & <- & Hp). rewrite Forall_forall in H.
  destruct (H p Hp) as (b & d1 & Hb & Hd1 & Harrest). rewrite Hb.
  fold (arrest_of arrests (People.id p)).
  destruct Harrest as [E|(d2 & Hd2 & Hdays)].
  - rewrite E, time_diff_no_arrest. cbn [bind]. eauto.
  - rewrite (time_diff_exact _ _ _ _ _ Hd1 Hd2 Hdays). cbn [bind]. eauto.
Qed.

(** ** The age at first arrest *)

(** Claim C1.  When the age cell succeeds it has one row per person, and a
    person with an arrest record gets [round((d2 - d1).days / 365.25)] as age
    at first arrest: [s] is the earliest arrest date of the person, the least
    of the dates in the arrest records of that person, and [d1] and [d2] are
    the date of birth and [s] read as calendar dates once the time of day is
    cut off.  The least date is the least text; among dates written as the
    database writes them it is the first day of the calendar.  On the example
    data, 1980-01-01 and 2000-01-01 give 20. *)
Theorem age_at_first_arrest_of_arrested
        (arrests : list Casearrest.row) (people : list People.row) (ext : list ext_person)
        (p : People.row) (e : ext_person) (s : string) (d2 : Py.date)
        (Hrun : age_cell arrests people = Ok ext)
        (Hrow : In (p, e) (combine people ext))
        (Hmin : earliest_arrest_date arrests (People.id p) s)
        (Hdate : Py.strptime (Py.split_space_0 s) = Some d2) :
  List.length ext = List.length people /\
  (exists b d1,
     People.dob p = VStr b /\
     Py.strptime (Py.split_space_0 b) = Some d1 /\
     Some (age_at_first_arrest e)
     = option_map VInt (rounded_years (Py.days_between d1 d2))) /\
  (forall t d fs ft,
     dated_arrest arrests (People.id p) t ->
     iso_fields s = Some fs -> iso_fields t = Some ft ->
     Py.strptime (Py.split_space_0 t) = Some d ->
     Py.ymd2ord d2 <= Py.ymd2ord d).
Proof.
  pose proof (age_cell_rows _ _ _ Hrun) as HF.
  split; [symmetry; exact (Forall2_length HF)|]. split.
  - destruct (Forall2_combine_In _ _ _ _ _ HF Hrow) as (d & a & Hd & Ha & ->).
    destruct (arrest_of_earliest arrests (People.id p) s (proj1 Hmin)) as (s' & Hs' & Hmin').
    rewrite (earliest_arrest_date_unique _ _ _ _ Hmin' Hmin) in Hs'.
    rewrite Hs' in Ha. cbn [arrest_text] in Ha.
    destruct (People.dob p) as [| |?|b]; try discriminate. injection Hd as <-.
    destruct (time_diff_dates _ _ _ _ _ Hdate Ha) as (d1 & Hd1 & Hv).
    exists b, d1. auto.
  - intros t d fs ft Ht Hs Hft Hd.
    exact (iso_dates_in_calendar_order _ _ _ _ _ _ Hs Hft Hdate Hd (proj2 Hmin t Ht)).
Qed.

(** Claim C2.  When the age cell succeeds, a person without an arrest record
    gets the stated age as age at first arrest, unchanged. *)
Theorem age_at_first_arrest_without_arrest
        (arrests : list Casearrest.row) (people : list People.row) (ext : list ext_person)
        (p : People.row) (e : ext_person)
        (Hrun : age_cell arrests people = Ok ext)
        (Hrow : In (p, e) (combine people ext))
        (Hnone : forall a, In a arrests -> Casearrest.person_id a <> People.id p) :
  List.length ext = List.length people /\
  age_at_first_arrest e = People.age p.
Proof.
  pose proof (age_cell_rows _ _ _ Hrun) as HF.
  split; [symmetry; exact (Forall2_length HF)|].
  destruct (Forall2_combine_In _ _ _ _ _ HF Hrow) as (d & a & Hd & Ha & ->).
  rewrite (arrest_of_none _ _ Hnone) in Ha. cbn [arrest_text] in Ha.
  change (Py.split_space_0 "No_arrest") with "No_arrest" in Ha.
  rewrite time_diff_no_arrest in Ha. now injection Ha as <-.
Qed.

(** ** The properties on the example data *)

(** The run on the example data: only person 1 is written, with the scores
    of batch 7. *)
Example example_run :
  run no_float_text example_db = Ok example_out /\
  compas_csv example_out
  = mkframe
      ["male"; "age"; "priors_count"; "age_at_first_arrest"; "marital_status"; "slevel";
       "rs_fta"; "rs_grecid"; "rs_vrecid"; "ds_fta"; "ds_grecid"; "ds_vrecid";
       "fta_text"; "grecid_text"; "vrecid_text"]
      [[VInt 1; VInt 40; VInt 0; VInt 20; VStr "Single"; VInt 1;
        VFloat (decimal 15 10); VFloat (decimal 11 10); VFloat (decimal 32 10);
        VInt 3; VInt 2; VInt 4; VStr "Low"; VStr "Low"; VStr "Medium"]].
Proof. split; vm_compute; reflexivity. Qed.

Lemma example_earliest :
  earliest_arrest_date example_arrests 1 "2000-01-01 00:00:00.000000".
Proof.
  split.
  - exists (Casearrest.mkrow 1 (Some "2000-01-01 00:00:00.000000")).
    split; [right; left; reflexivity|]. split; reflexivity.
  - intros t (a & Ha & Hk & Hd).
    destruct Ha as [<-|[<-|[<-|[<-|[]]]]]; try discriminate;
      injection Hd as <-; reflexivity.
Defined.

Lemma age_at_first_arrest_of_arrested_witness :
  List.length example_ext = List.length example_people /\
  (exists b d1,
     People.dob person_1 = VStr b /\
     Py.strptime (Py.split_space_0 b) = Some d1 /\
     Some (VInt 20)
     = option_map VInt (rounded_years (Py.days_between d1 (Py.mkdate 2000 1 1)))) /\
  (forall t d fs ft,
     dated_arrest example_arrests 1 t ->
     iso_fields "2000-01-01 00:00:00.000000" = Some fs -> iso_fields t = Some ft ->
     Py.strptime (Py.split_space_0 t) = Some d ->
     Py.ymd2ord (Py.mkdate 2000 1 1) <= Py.ymd2ord d).
Proof.
  apply (age_at_first_arrest_of_arrested
           example_arrests example_people example_ext person_1
           (mkext 1 (VStr "Male") (VInt 40) [VInt 0] (VInt 20))
           "2000-01-01 00:00:00.000000" (Py.mkdate 2000 1 1)).
  - vm_compute. reflexivity.
  - left. reflexivity.
  - exact example_earliest.
  - reflexivity.
Defined.

Lemma age_at_first_arrest_without_arrest_witness :
  List.length example_ext = List.length example_people /\
  VInt 35 = People.age person_2.
Proof.
  apply (age_at_first_arrest_without_arrest
           example_arrests example_people example_ext person_2
           (mkext 2 (VStr "Female") (VInt 35) [VInt 2] (VInt 35))).
  - vm_compute. reflexivity.
  - right. left. reflexivity.
  - intros a Ha. destruct Ha as [<-|[<-|[<-|[<-|[]]]]]; discriminate.
Defined.

Lemma pivot_round_trip_witness :
  wide_columns example_wide
  = ["raw_score_risk_of_failure_to_appear"; "raw_score_risk_of_recidivism";
     "raw_score_risk_of_violence";
     "decile_score_risk_of_failure_to_appear"; "decile_score_risk_of_recidivism";
     "decile_score_risk_of_violence";
     "score_text_risk_of_failure_to_appear"; "score_text_risk_of_recidivism";
     "score_text_risk_of_violence"] /\
  map (fun v => spec_label (fst v ++ "_" ++ "Risk of Violence")) pivot_values
  = ["raw_score_risk_of_violence"; "decile_score_risk_of_violence";
     "score_text_risk_of_violence"] /\
  NoDup (map fst (wide_rows example_wide)) /\
  exists cells,
    In (1, cells) (wide_rows example_wide) /\
    forall v get, In (v, get) pivot_values ->
      exists j,
        nth_error (wide_columns example_wide) j
          = Some (spec_label (trimmed (v ++ "_" ++ "Risk of Violence"))) /\
        (In "Risk of Violence" assessment_types ->
         nth_error (wide_columns example_wide) j
           = Some (spec_label (v ++ "_" ++ "Risk of Violence"))) /\
        nth_error cells j
          = Some (get (assessment 1 7 "Risk of Violence" (decimal 32 10) 4 "Medium")).
Proof.
  split; [reflexivity|]. split; [reflexivity|].
  apply (pivot_round_trip example_compas example_wide
           (assessment 1 7 "Risk of Violence" (decimal 32 10) 4 "Medium")).
  - vm_compute. reflexivity.
  - vm_compute. left. reflexivity.
Defined.

Lemma invalid_scores_never_used_witness :
  run no_float_text example_db = run no_float_text example_db_valid /\
  forall type row,
    In row (rows (bins type example_compas)) ->
    exists r, In r example_compas /\ eq_str (Compas.score_text r) "N/A" = false /\
              row = [Compas.raw_score r; Compas.decile_score r; Compas.score_text r].
Proof.
  apply (invalid_scores_never_used no_float_text example_db example_db_valid).
  - reflexivity.
  - reflexivity.
  - reflexivity.
  - vm_compute. reflexivity.
Defined.


Lemma renaming_depends_on_order_witness :
  rename_columns repl person_columns
  = ["male"; "age"; "age_at_first_arrest"; "marital_status"; "slevel";
     "rs_fta"; "rs_grecid"; "rs_vrecid"; "ds_fta"; "ds_grecid"; "ds_vrecid";
     "fta_text"; "grecid_text"; "vrecid_text"]
  /\ (rename_columns repl_sex_first person_columns = rename_columns repl person_columns <->
      applied_before ("risk_of_failure_to_appear", "fta")
                     ("score_text_fta", "fta_text") repl_sex_first /\
      applied_before ("risk_of_recidivism", "grecid")
                     ("score_text_grecid", "grecid_text") repl_sex_first /\
      applied_before ("risk_of_violence", "vrecid")
                     ("score_text_vrecid", "vrecid_text") repl_sex_first).
Proof.
  apply (renaming_depends_on_order repl_sex_first).
  change repl with (removelast repl ++ [("sex", "male")])%list.
  apply Permutation_cons_append.
Defined.

Lemma written_person_table_has_no_null_witness :
  run no_float_text example_db = Ok example_out /\
  forall row v, In row (rows (compas_csv example_out)) -> In v row -> isna v = false.
Proof.
  assert (Hrun : run no_float_text example_db = Ok example_out)
    by (vm_compute; reflexivity).
  split; [exact Hrun|].
  exact (written_person_table_has_no_null no_float_text example_db example_out Hrun).
Defined.

Lemma male_is_the_integer_of_sex_witness :
  (col_index "male" (columns (compas_csv example_out)) = Some 0%nat /\
   exists df,
     ext_people no_float_text example_db = Ok df /\
     compas_csv example_out = dropna df /\
     List.length (rows df) = List.length example_people /\
     forall i p row,
       nth_error example_people i = Some p ->
       nth_error (rows df) i = Some row ->
       exists z,
         nth_error row 0 = Some (VInt z) /\
         astype_int64 (r_dict (People.sex p)) = Ok (VInt z) /\
         (People.sex p = VStr "Male" -> z = 1) /\
         (People.sex p = VStr "Female" -> z = 0) /\
         (forall s, People.sex p = VStr s -> s <> "Male" -> s <> "Female" ->
                    Py.int_of_str s = Some z)) /\
  map (fun row => nth_error row 0) (rows example_ext_people)
  = [Some (VInt 1); Some (VInt 0); Some (VInt 0)] /\
  (exists e, run no_float_text other_sex_db = Raise e) /\
  (exists e, run no_float_text null_sex_db = Raise e).
Proof.
  split; [|split; [reflexivity|split]].
  - apply (proj1 (male_is_the_integer_of_sex no_float_text example_db) example_out).
    vm_compute. reflexivity.
  - apply (proj2 (male_is_the_integer_of_sex no_float_text other_sex_db)
                 (People.mkrow 2 (VStr "Other") (VStr "1981-05-05 00:00:00.000000")
                               (VInt 35) [])).
    + right. left. reflexivity.
    + right. exists "Other". split; [reflexivity|]. split; [reflexivity|].
      split; [discriminate|]. split; [discriminate|reflexivity].
  - apply (proj2 (male_is_the_integer_of_sex no_float_text null_sex_db)
                 (People.mkrow 1 VNull (VStr "1980-01-01 00:00:00.000000") (VInt 40) [])).
    + left. reflexivity.
    + left. reflexivity.
Defined.

Lemma written_person_has_every_type_witness :
  In (nth 0 (rows example_ext_people) []) (rows (dropna example_ext_people)) /\
  (exists r, In r (first_screening_df example_compas) /\ Compas.person_id r = 1) /\
  forall t,
    In t (map Compas.type_of_assessment (first_screening_df example_compas)) ->
    exists r,
      In r (first_screening_df example_compas) /\
      Compas.person_id r = 1 /\ Compas.type_of_assessment r = t /\
      isna (Compas.raw_score r) = false /\ isna (Compas.decile_score r) = false /\
      isna (Compas.score_text r) = false /\ eq_str (Compas.score_text r) "N/A" = false.
Proof.
  apply (written_person_has_every_type no_float_text example_db example_ext_people
           0 person_1 (nth 0 (rows example_ext_people) [])).
  - vm_compute. reflexivity.
  - reflexivity.
  - reflexivity.
  - vm_compute. reflexivity.
Defined.

(** ** Where the code departs from the specification *)

(** What the runs below show does not depend on what [float] makes of text:
    no text reaches it. *)
Lemma half_decile_raises (float_of_str : string -> option spec_float) :
  run float_of_str half_decile_db = Raise TypeError.
Proof. vm_compute. reflexivity. Qed.

Lemma sex_seven_written (float_of_str : string -> option spec_float) :
  run float_of_str sex_seven_db = run no_float_text sex_seven_db.
Proof. vm_compute. reflexivity. Qed.

Lemma two_types_written (float_of_str : string -> option spec_float) :
  run float_of_str two_types_db = run no_float_text two_types_db.
Proof. vm_compute. reflexivity. Qed.


(** Claim C7 as stated fails: applied in reverse order the entries give other
    labels. *)
Lemma renaming_order_counterexample :
  Permutation (rev repl) repl /\
  rename_columns (rev repl) person_columns <> rename_columns repl person_columns.
Proof.
  split; [symmetry; apply Permutation_rev|].
  vm_compute. intros H. discriminate H.
Qed.

(** Claim C9 as stated fails: the sex ["7"] is neither ["Male"] nor
    ["Female"], and the run writes 7 in the column [male]. *)
Lemma sex_seven_counterexample :
  map People.sex (people sex_seven_db) = [VStr "7"] /\
  exists out,
    run no_float_text sex_seven_db = Ok out /\
    columns (compas_csv out)
    = ["male"; "age"; "age_at_first_arrest"; "marital_status"; "slevel";
       "rs_fta"; "rs_grecid"; "rs_vrecid"; "ds_fta"; "ds_grecid"; "ds_vrecid";
       "fta_text"; "grecid_text"; "vrecid_text"] /\
    rows (compas_csv out)
    = [[VInt 7; VInt 40; VInt 40; VStr "Single"; VInt 1;
        VFloat (decimal 15 10); VFloat (decimal 11 10); VFloat (decimal 32 10);
        VInt 3; VInt 2; VInt 4; VStr "Low"; VStr "Low"; VStr "Medium"]].
Proof.
  split; [reflexivity|]. eexists. split; [vm_compute; reflexivity|].
  split; vm_compute; reflexivity.
Qed.

(** Claim C10 as stated fails: the only person is written although the first
    batch has no assessment of the type "Risk of Failure to Appear". *)
Lemma two_types_counterexample :
  (exists out,
     run no_float_text two_types_db = Ok out /\
     map (fun row => nth_error row 0) (rows (compas_csv out)) = [Some (VInt 1)]) /\
  map Compas.type_of_assessment (first_screening_df (compas two_types_db))
  = ["Risk of Violence"; "Risk of Recidivism"].
Proof.
  split; [|vm_compute; reflexivity].
  eexists. split; [vm_compute; reflexivity|]. vm_compute. reflexivity.
Qed.

(** * Further properties of the code *)

(** ** The age at first arrest as a number *)

Lemma binary_round_aux_opp (s : bool) (m e : Z) (l : location) :
  binary_round_aux Py.prec Py.emax (negb s) m e l
  = SFopp (binary_round_aux Py.prec Py.emax s m e l).
Proof.
  unfold binary_round_aux.
  destruct (shr_fexp Py.prec Py.emax m e l) as [mrs e'].
  destruct (shr_fexp Py.prec Py.emax _ e' loc_Exact) as [mrs'' e''].
  destruct (shr_m mrs''); [reflexivity| |reflexivity].
  destruct (e'' <=? _); reflexivity.
Qed.

Lemma float_of_Z_opp (z : Z) :
  z <> 0 -> Py.float_of_Z (- z) = option_map SFopp (Py.float_of_Z z).
Proof.
  intros Hz. unfold Py.float_of_Z, binary_normalize.
  destruct z as [|m|m]; [congruence| |]; cbn [Z.opp]; unfold binary_round;
    destruct (shl_align _ _ _) as [mz ez].
  - rewrite (binary_round_aux_opp false).
    destruct (binary_round_aux _ _ false _ _ _); reflexivity.
  - rewrite (binary_round_aux_opp true). cbn [negb].
    destruct (binary_round_aux _ _ true _ _ _) as [[|]|[|]| |[|] ? ?]; reflexivity.
Qed.

Lemma truediv_opp (x : spec_float) :
  Py.truediv (SFopp x) Py.c365_25 = option_map SFopp (Py.truediv x Py.c365_25).
Proof.
  assert (E : Py.c365_25 = S754_finite false 6425545952722944 (-44)) by reflexivity.
  rewrite E. unfold Py.truediv. cbn [option_map]. f_equal.
  destruct x as [s|s| |s m e]; cbn [SFopp SFdiv]; try reflexivity.
  - now destruct s.
  - now destruct s.
  - destruct (SFdiv_core_binary _ _ _ _ _ _) as [[mz ez] lz].
    replace (xorb (negb s) false) with (negb (xorb s false)) by (now destruct s).
    apply binary_round_aux_opp.
Qed.

Lemma round_opp (q : spec_float) : Py.round (SFopp q) = option_map Z.opp (Py.round q).
Proof.
  destruct q as [s|s| |s m e]; cbn [SFopp Py.round option_map]; try reflexivity.
  f_equal. destruct s; cbn [negb]; lia.
Qed.

Lemma rounded_years_opp (days : Z) :
  rounded_years (- days) = option_map Z.opp (rounded_years days).
Proof.
  destruct (Z.eq_dec days 0) as [->|Hd]; [reflexivity|].
  unfold rounded_years. rewrite (float_of_Z_opp _ Hd).
  destruct (Py.float_of_Z days) as [x|]; [|reflexivity]. cbn [option_map].
  rewrite truediv_opp.
  destruct (Py.truediv x Py.c365_25) as [q|]; [|reflexivity]. cbn [option_map].
  apply round_opp.
Qed.

Lemma time_diff_rounded (s1 s2 : string) (s3 : value) (d1 d2 : Py.date) (n : Z) :
  Py.strptime s1 = Some d1 -> Py.strptime s2 = Some d2 ->
  rounded_years (Py.days_between d1 d2) = Some n ->
  time_diff s1 s2 s3 = Ok (VInt n).
Proof.
  intros H1 H2 Hn. unfold time_diff.
  destruct (String.eqb_spec s2 "No_arrest") as [E|_].
  - exfalso. exact (strptime_not_sentinel _ _ H2 E).
  - rewrite H1, H2. cbn [of_option bind]. unfold rounded_years in Hn.
    destruct (Py.float_of_Z _) as [x|]; [|discriminate]. cbn [of_option bind].
    destruct (Py.truediv x Py.c365_25) as [q|]; [|discriminate]. cbn [of_option bind].
    rewrite Hn. reflexivity.
Qed.

Lemma rounded_years_nearest (days : Z) :
  - 32768 < days < 32768 ->
  exists n, rounded_years days = Some n /\ Z.abs (1461 * n - 4 * days) <= 730.
Proof.
  intros H. destruct (Z.le_gt_cases 0 days) as [Hp|Hn].
  - exists ((8 * days + 1461) / 2922). split; [apply rounded_years_exact; lia|].
    Z.to_euclidean_division_equations. lia.
  - exists (- ((8 * (- days) + 1461) / 2922)). split.
    + replace days with (- - days) at 1 by lia.
      rewrite rounded_years_opp, rounded_years_exact by lia. reflexivity.
    + Z.to_euclidean_division_equations. lia.
Qed.

(** Property X11.  The notebook does not compare the two dates: with the date
    of birth and the arrest date exchanged, [time_diff] gives the opposite
    number, so an arrest dated before the birth gives an age below zero and
    no exception. *)
Theorem time_diff_exchanged
        (s1 s2 : string) (s3 s3' : value) (d1 d2 : Py.date) (n : Z)
        (H1 : Py.strptime s1 = Some d1)
        (H2 : Py.strptime s2 = Some d2)
        (Hn : time_diff s1 s2 s3 = Ok (VInt n)) :
  time_diff s2 s1 s3' = Ok (VInt (- n)).
Proof.
  destruct (time_diff_dates _ _ _ _ _ H2 Hn) as (d1' & Hd1' & Hv).
  assert (d1' = d1) by congruence. subst d1'.
  destruct (rounded_years (Py.days_between d1 d2)) as [m|] eqn:Hm; [|discriminate].
  cbn [option_map] in Hv. injection Hv as ->.
  apply (time_diff_rounded _ _ _ _ _ _ H2 H1).
  replace (Py.days_between d2 d1) with (- Py.days_between d1 d2)
    by (unfold Py.days_between; lia).
  now rewrite rounded_years_opp, Hm.
Qed.

(** Property X8.  Less than 2^15 days apart, the two dates give the whole
    number of years nearest to the days between them, a year being 365.25
    days: the result is less than half a year away from the time that passed. *)
Theorem time_diff_nearest_year
        (s1 s2 : string) (s3 : value) (d1 d2 : Py.date)
        (H1 : Py.strptime s1 = Some d1)
        (H2 : Py.strptime s2 = Some d2)
        (Hdays : - 32768 < Py.days_between d1 d2 < 32768) :
  exists n,
    time_diff s1 s2 s3 = Ok (VInt n) /\
    Z.abs (1461 * n - 4 * Py.days_between d1 d2) <= 730.
Proof.
  destruct (rounded_years_nearest _ Hdays) as (n & Hn & Hb).
  exists n. split; [|exact Hb]. now apply (time_diff_rounded _ _ _ d1 d2).
Qed.

(** Property X9.  A later arrest never gives a smaller age. *)
Theorem time_diff_monotone
        (s1 s2 s2' : string) (s3 : value) (d1 d2 d2' : Py.date)
        (H1 : Py.strptime s1 = Some d1)
        (H2 : Py.strptime s2 = Some d2)
        (H2' : Py.strptime s2' = Some d2')
        (Hborn : Py.ymd2ord d1 <= Py.ymd2ord d2)
        (Hlater : Py.ymd2ord d2 <= Py.ymd2ord d2')
        (Hdays : Py.days_between d1 d2' < 32768) :
  exists n n',
    time_diff s1 s2 s3 = Ok (VInt n) /\
    time_diff s1 s2' s3 = Ok (VInt n') /\
    0 <= n <= n'.
Proof.
  assert (Hd : 0 <= Py.days_between d1 d2 <= Py.days_between d1 d2')
    by (unfold Py.days_between in *; lia).
  exists ((8 * Py.days_between d1 d2 + 1461) / 2922),
         ((8 * Py.days_between d1 d2' + 1461) / 2922).
  split; [apply time_diff_exact; auto; lia|].
  split; [apply time_diff_exact; auto; lia|].
  split.
  - apply Z.div_pos; lia.
  - apply Z.div_le_mono; lia.
Qed.

Lemma strptime_valid (s : string) (d : Py.date) :
  Py.strptime s = Some d ->
  valid_date (Py.year d) (Py.month d) (Py.day d) = true /\ Py.year d <= 9999.
Proof.
  unfold Py.strptime.
  destruct s as [|y1 [|y2 [|y3 [|y4 [|c rest]]]]]; try discriminate.
  destruct c as [[] [] [] [] [] [] [] []]; try discriminate.
  destruct (Py.digit_of y1) as [a|] eqn:E1; [|discriminate].
  destruct (Py.digit_of y2) as [b|] eqn:E2; [|discriminate].
  destruct (Py.digit_of y3) as [c|] eqn:E3; [|discriminate].
  destruct (Py.digit_of y4) as [e|] eqn:E4; [|discriminate].
  destruct (Py.cut_dash rest) as [[ms ds]|]; [|discriminate].
  destruct (Py.field2 false ms) as [m|]; [|discriminate].
  destruct (Py.field2 true ds) as [dd|]; [|discriminate].
  match goal with |- (if ?c then _ else _) = _ -> _ => destruct c eqn:V end; [|discriminate].
  intros E.
  assert (Ed : d = Py.mkdate (1000 * a + 100 * b + 10 * c + e) m dd) by congruence.
  subst d. cbv beta iota delta [Py.year Py.month Py.day]. split; [exact V|].
  pose proof (digit_of_spec _ _ E1). pose proof (digit_of_spec _ _ E2).
  pose proof (digit_of_spec _ _ E3). pose proof (digit_of_spec _ _ E4). lia.
Qed.

Lemma anniversary_days (y m d k : Z) :
  0 <= k <= 89 ->
  Z.abs (4 * Py.days_between (Py.mkdate y m d) (Py.mkdate (y + k) m d) - 1461 * k) <= 11.
Proof.
  intros Hk. unfold Py.days_between, Py.ymd2ord, Py.days_before_year, Py.days_before_month.
  cbn [Py.year Py.month Py.day].
  generalize (nth (Z.to_nat m) [-1; 0; 31; 59; 90; 120; 151; 181; 212; 243; 273; 304; 334] (-1)).
  intros base.
  replace (y + k - 1) with (y - 1 + k) by lia. generalize (y - 1). intros a.
  assert (H4 : - 3 <= 4 * ((a + k) / 4 - a / 4) - k <= 3)
    by (Z.to_euclidean_division_equations; lia).
  assert (H100 : 0 <= (a + k) / 100 - a / 100 <= 1)
    by (Z.to_euclidean_division_equations; lia).
  assert (H400 : 0 <= (a + k) / 400 - a / 400 <= 1)
    by (Z.to_euclidean_division_equations; lia).
  destruct ((2 <? m) && Py.is_leap (y + k)), ((2 <? m) && Py.is_leap y); lia.
Qed.

(** Property X10.  On the anniversary of the birth the age is the number of
    years, up to the 89th: the leap days never add up to half a year. *)
Theorem time_diff_anniversary
        (s1 s2 : string) (s3 : value) (y m d k : Z)
        (H1 : Py.strptime s1 = Some (Py.mkdate y m d))
        (H2 : Py.strptime s2 = Some (Py.mkdate (y + k) m d))
        (Hk : 0 <= k <= 89) :
  time_diff s1 s2 s3 = Ok (VInt k).
Proof.
  pose proof (anniversary_days y m d k Hk) as Hd.
  assert (H0 : k = 0 -> Py.days_between (Py.mkdate y m d) (Py.mkdate (y + k) m d) = 0).
  { intros ->. rewrite Z.add_0_r. unfold Py.days_between. lia. }
  rewrite (time_diff_exact _ _ _ _ _ H1 H2) by lia.
  do 2 f_equal. Z.to_euclidean_division_equations. lia.
Qed.

(** ** Exceptions *)

Lemma ymd2ord_bounds (d : Py.date) :
  valid_date (Py.year d) (Py.month d) (Py.day d) = true -> Py.year d <= 9999 ->
  1 <= Py.ymd2ord d <= 3652060.
Proof.
  intros V Hy. pose proof (day_of_year_bounds _ _ _ V) as B.
  assert (H1 : 1 <= Py.year d).
  { unfold valid_date in V. rewrite !andb_true_iff, !Z.leb_le in V. tauto. }
  unfold Py.ymd2ord.
  pose proof (days_before_year_mono 1 (Py.year d) H1) as L.
  pose proof (days_before_year_mono (Py.year d) 9999 Hy) as U.
  change (Py.days_before_year 1) with 0 in L.
  change (Py.days_before_year 9999) with 3651694 in U.
  destruct (Py.is_leap (Py.year d)); lia.
Qed.

Lemma time_diff_raises (s1 s2 : string) (s3 : value) (e : exn) :
  time_diff s1 s2 s3 = Raise e -> e = ValueError.
Proof.
  unfold time_diff. destruct (s2 =? "No_arrest")%string; [discriminate|].
  destruct (Py.strptime s1) as [d1|] eqn:H1; cbn [of_option bind]; [|congruence].
  destruct (Py.strptime s2) as [d2|] eqn:H2; cbn [of_option bind]; [|congruence].
  destruct (strptime_valid _ _ H1) as [V1 Y1], (strptime_valid _ _ H2) as [V2 Y2].
  pose proof (ymd2ord_bounds _ V1 Y1) as B1. pose proof (ymd2ord_bounds _ V2 Y2) as B2.
  destruct (float_of_Z_exact (Py.days_between d1 d2)) as (x & Hx & _).
  { unfold Py.days_between. assert (2 ^ 22 <= 2 ^ 53) by (apply Z.pow_le_mono_r; lia).
    change (2 ^ 22) with 4194304 in *. lia. }
  rewrite Hx. cbn [of_option bind].
  change (Py.truediv x Py.c365_25) with (Some (SFdiv Py.prec Py.emax x Py.c365_25)).
  cbn [of_option bind].
  destruct (Py.round _); cbn [of_option bind]; congruence.
Qed.

Lemma dob_date_raises (v : value) (e : exn) :
  dob_date v = Raise e -> e = AttributeError.
Proof. destruct v; simpl; congruence. Qed.

(** Property X4.  The date of birth is split with [x.split]: a date of birth
    that is not text, a NULL above all, stops the run with an
    [AttributeError], also when the person would not be written. *)
Theorem dob_without_text_stops_the_run
        (float_of_str : string -> option spec_float) (db : database) (p : People.row)
        (Hp : In p (people db))
        (Hdob : forall b, People.dob p <> VStr b) :
  run float_of_str db = Raise AttributeError.
Proof.
  unfold run, ext_people, age_cell.
  rewrite (mapM_raises _ (people db) AttributeError p); [reflexivity| |exact Hp|].
  - intros q e _ Hq. destruct (dob_date (People.dob q)) as [d|e'] eqn:E; [discriminate|].
    cbn [bind] in Hq. injection Hq as <-. exact (dob_date_raises _ _ E).
  - destruct (People.dob p) as [| | |b]; try reflexivity. now destruct (Hdob b).
Qed.

Lemma dob_dates_text (people : list People.row) :
  (forall q, In q people -> exists t, People.dob q = VStr t) ->
  mapM (fun p => d <- dob_date (People.dob p) ;; Ok (p, d)) people
  = Ok (map (fun p => (p, match People.dob p with
                          | VStr b => Py.split_space_0 b
                          | _ => EmptyString
                          end)) people).
Proof.
  intros H. apply mapM_total. intros p Hp. destruct (H p Hp) as [t Ht]. now rewrite Ht.
Qed.

(** Property X7.  With every date of birth a text, the age cell can only raise
    a [ValueError], and it does so as soon as one person has an earliest
    arrest date, an ASCII text, that [strptime] does not read, or has an
    earliest arrest date and a date of birth, an ASCII text, that it does not
    read. *)
Theorem unreadable_date_stops_the_run
        (float_of_str : string -> option spec_float) (db : database)
        (p : People.row) (b s : string)
        (Htext : forall q, In q (people db) -> exists t, People.dob q = VStr t)
        (Hp : In p (people db))
        (Hdob : People.dob p = VStr b)
        (Hmin : earliest_arrest_date (casearrest db) (People.id p) s)
        (Hsentinel : Py.split_space_0 s <> "No_arrest")
        (Hbad : (Py.isascii b = true /\ Py.strptime (Py.split_space_0 b) = None) \/
                (Py.isascii s = true /\ Py.strptime (Py.split_space_0 s) = None)) :
  run float_of_str db = Raise ValueError.
Proof.
  assert (Hne : people db <> []) by (intros E; rewrite E in Hp; destruct Hp).
  unfold run, ext_people, age_cell.
  rewrite (dob_dates_text _ Htext). cbn [bind].
  rewrite merge_left_unique by apply first_arrest_NoDup.
  rewrite map_map. cbn [fst].
  rewrite nonempty_match by (intros E; apply map_eq_nil in E; contradiction).
  match goal with
  | |- context [mapM ?f ?l] =>
      rewrite (mapM_raises f l ValueError
                 ((p, Py.split_space_0 b), arrest_of (casearrest db) (People.id p)))
  end; [reflexivity| | |].
  - intros [[q d] m] e _ Hq.
    destruct (time_diff d (arrest_text m) (People.age q)) as [a|e'] eqn:E; [discriminate|].
    cbn [bind] in Hq. injection Hq as <-. exact (time_diff_raises _ _ _ _ E).
  - apply in_map_iff. exists p. rewrite Hdob. split; [reflexivity|exact Hp].
  - destruct (arrest_of_earliest _ _ _ (proj1 Hmin)) as (s' & Hs' & Hmin').
    rewrite (earliest_arrest_date_unique _ _ _ _ Hmin' Hmin) in Hs'.
    rewrite Hs'. cbv beta iota.
    change (arrest_text (Some (People.id p, Some s))) with (Py.split_space_0 s).
    unfold time_diff. apply String.eqb_neq in Hsentinel. rewrite Hsentinel.
    destruct Hbad as [[_ Hb]|[_ Hb]]; rewrite Hb; [reflexivity|].
    now destruct (Py.strptime (Py.split_space_0 b)).
Qed.

(** ** Arrest records without a date, and their order *)

Lemma first_notnull_In {A : Type} (l : list (option A)) (a : A) :
  first_notnull l = Some a -> In (Some a) l.
Proof.
  induction l as [|[x|] l IH]; simpl; [discriminate| |].
  - intros [= ->]. now left.
  - auto.
Qed.

Lemma first_notnull_None {A : Type} (l : list (option A)) :
  first_notnull l = None <-> forall a, ~ In (Some a) l.
Proof.
  induction l as [|[x|] l IH]; simpl.
  - split; [intros _ a []|reflexivity].
  - split; [discriminate|]. intros H. exfalso. apply (H x). now left.
  - rewrite IH. split.
    + intros H a [E|Hin]; [discriminate|exact (H a Hin)].
    + intros H a Hin. apply (H a). now right.
Qed.

Lemma arrest_dates_In (arrests : list Casearrest.row) (k : Z) (u : string) :
  In (Some u)
     (map Casearrest.arrest_date
          (filter (fun a => Casearrest.person_id a =? k)
                  (sort_values (fun a b => opt_str_leb (Casearrest.arrest_date a)
                                                       (Casearrest.arrest_date b))
                               arrests)))
  <-> dated_arrest arrests k u.
Proof.
  set (sorted := sort_values _ arrests).
  assert (Hperm : Permutation sorted arrests) by apply sort_values_perm.
  unfold dated_arrest. rewrite in_map_iff. split.
  - intros (a & Ha & Hin). apply filter_In in Hin. destruct Hin as [Hin Hk].
    exists a. split; [exact (Permutation_in _ Hperm Hin)|]. split; [lia|exact Ha].
  - intros (a & Hin & Hk & Ha). exists a. split; [exact Ha|].
    apply filter_In. split; [exact (Permutation_in _ (Permutation_sym Hperm) Hin)|lia].
Qed.

Lemma arrest_of_undated (arrests : list Casearrest.row) (k : Z) :
  (forall s, ~ dated_arrest arrests k s) ->
  arrest_text (arrest_of arrests k) = "No_arrest".
Proof.
  intros H. unfold arrest_of, first_arrest. rewrite find_keyed_map.
  destruct (in_dec Z.eq_dec k _) as [_|_]; [|reflexivity].
  match goal with |- context [first_notnull ?l] => destruct (first_notnull l) as [s|] eqn:E end;
    [|reflexivity].
  exfalso. apply first_notnull_In in E. apply arrest_dates_In in E. exact (H s E).
Qed.

(** Property X6.  An arrest record without a date counts as no arrest record:
    a person whose arrest records all lack the date gets the stated age, like
    a person without any. *)
Theorem age_at_first_arrest_without_dated_arrest
        (arrests : list Casearrest.row) (people : list People.row) (ext : list ext_person)
        (p : People.row) (e : ext_person)
        (Hrun : age_cell arrests people = Ok ext)
        (Hrow : In (p, e) (combine people ext))
        (Hnone : forall s, ~ dated_arrest arrests (People.id p) s) :
  age_at_first_arrest e = People.age p.
Proof.
  pose proof (age_cell_rows _ _ _ Hrun) as HF.
  destruct (Forall2_combine_In _ _ _ _ _ HF Hrow) as (d & a & Hd & Ha & ->).
  rewrite (arrest_of_undated _ _ Hnone), time_diff_no_arrest in Ha.
  now injection Ha as <-.
Qed.

Lemma sorted_keys_unique (l l' : list Z) :
  StronglySorted (fun a b => (a <=? b) = true) l ->
  StronglySorted (fun a b => (a <=? b) = true) l' ->
  NoDup l -> NoDup l' -> (forall k, In k l <-> In k l') -> l = l'.
Proof.
  intros Hs; revert l'. induction Hs as [|a l Hs IH Ha]; intros l' Hs' Hn Hn' Hin.
  - destruct l' as [|b l']; [reflexivity|]. exfalso. apply (Hin b). now left.
  - destruct l' as [|b l']; [exfalso; apply (Hin a); now left|].
    inversion Hs' as [|? ? Hs'' Hb]; subst.
    inversion Hn as [|? ? Hna Hnl]; subst. inversion Hn' as [|? ? Hnb Hnl']; subst.
    rewrite Forall_forall in Ha, Hb.
    assert (E : a = b).
    { destruct (proj1 (Hin a) (or_introl eq_refl)) as [E|Hin1]; [congruence|].
      destruct (proj2 (Hin b) (or_introl eq_refl)) as [E|Hin2]; [congruence|].
      specialize (Ha _ Hin2). specialize (Hb _ Hin1). lia. }
    subst b. f_equal. apply IH; auto.
    intros k. split; intros Hk.
    + destruct (proj1 (Hin k) (or_intror Hk)) as [E|H]; [congruence|exact H].
    + destruct (proj2 (Hin k) (or_intror Hk)) as [E|H]; [congruence|exact H].
Qed.

Lemma group_keys_same (l l' : list Z) :
  (forall k, In k l <-> In k l') -> group_keys l = group_keys l'.
Proof.
  intros H. apply sorted_keys_unique.
  - apply sort_values_sorted; intros; lia.
  - apply sort_values_sorted; intros; lia.
  - apply group_keys_NoDup.
  - apply group_keys_NoDup.
  - intros k. rewrite !group_keys_In. apply H.
Qed.

Lemma first_arrest_perm (arrests arrests' : list Casearrest.row) :
  Permutation arrests arrests' -> first_arrest arrests = first_arrest arrests'.
Proof.
  intros HP. unfold first_arrest.
  set (leb := fun a b => opt_str_leb (Casearrest.arrest_date a) (Casearrest.arrest_date b)).
  assert (Hin : forall a, In a (sort_values leb arrests) <-> In a (sort_values leb arrests')).
  { intros a. split; intros H.
    - apply (Permutation_in _ (Permutation_sym (sort_values_perm leb arrests'))).
      apply (Permutation_in _ HP). exact (Permutation_in _ (sort_values_perm leb arrests) H).
    - apply (Permutation_in _ (Permutation_sym (sort_values_perm leb arrests))).
      apply (Permutation_in _ (Permutation_sym HP)).
      exact (Permutation_in _ (sort_values_perm leb arrests') H). }
  rewrite (group_keys_same (map Casearrest.person_id (sort_values leb arrests))
                           (map Casearrest.person_id (sort_values leb arrests'))).
  2:{ intros k. rewrite !in_map_iff. split; intros (a & E & H); exists a; split; auto;
        now apply Hin. }
  apply map_ext. intros k. f_equal.
  set (dates := fun l => map Casearrest.arrest_date
                             (filter (fun a => Casearrest.person_id a =? k) (sort_values leb l))).
  change (first_notnull (dates arrests) = first_notnull (dates arrests')).
  assert (Hsorted : forall l, StronglySorted (fun a b => opt_str_leb a b = true) (dates l)).
  { intros l. apply StronglySorted_map, filter_sorted.
    apply sort_values_sorted; intros; unfold leb in *;
      eauto using opt_str_leb_total, opt_str_leb_trans. }
  assert (Hdated : forall u, dated_arrest arrests k u <-> dated_arrest arrests' k u).
  { intros u. unfold dated_arrest. split; intros (a & Ha & H); exists a; split; auto.
    - exact (Permutation_in _ HP Ha).
    - exact (Permutation_in _ (Permutation_sym HP) Ha). }
  destruct (first_notnull (dates arrests)) as [s|] eqn:E.
  - pose proof (first_notnull_In _ _ E) as Hs.
    destruct (first_notnull_min _ (Hsorted arrests)) as [Hmin _].
    destruct (Hmin s Hs) as (s0 & E0 & _ & Hle). rewrite E in E0. injection E0 as <-.
    assert (Hs' : In (Some s) (dates arrests'))
      by (apply arrest_dates_In, Hdated, arrest_dates_In; exact Hs).
    destruct (first_notnull_min _ (Hsorted arrests')) as [Hmin' _].
    destruct (Hmin' s Hs') as (s' & E' & Hin' & Hle'). rewrite E'. f_equal.
    apply String.leb_antisym.
    + apply Hle. apply arrest_dates_In, Hdated, arrest_dates_In. exact Hin'.
    + apply Hle'. exact Hs'.
  - symmetry. apply first_notnull_None. intros u Hu.
    apply (proj1 (first_notnull_None _) E u).
    apply arrest_dates_In, Hdated, arrest_dates_In. exact Hu.
Qed.

(** Property X5.  The order of the arrest records does not matter: two
    databases whose arrest tables hold the same records in another order give
    the same run. *)
Theorem arrest_order_is_irrelevant
        (float_of_str : string -> option spec_float) (db db' : database)
        (Hpeople : people db = people db')
        (Hothers : people_others db = people_others db')
        (Hcompas : compas db = compas db')
        (Harrests : Permutation (casearrest db) (casearrest db')) :
  run float_of_str db = run float_of_str db'.
Proof.
  unfold run, ext_people, age_cell, join_cell.
  now rewrite Hpeople, Hothers, Hcompas, (first_arrest_perm _ _ Harrests).
Qed.

(** ** Two rows of one type in a first screening *)

Lemma NoDup_two {A : Type} (l1 l2 l3 : list A) (a : A) :
  ~ NoDup (l1 ++ a :: l2 ++ a :: l3)%list.
Proof.
  intros H. apply NoDup_remove_2 in H. apply H.
  apply in_or_app. right. apply in_or_app. right. now left.
Qed.

Lemma filter_two {A : Type} (P : A -> bool) (l1 l2 l3 : list A) (a b : A) :
  P a = true -> P b = true ->
  filter P (l1 ++ a :: l2 ++ b :: l3)
  = (filter P l1 ++ a :: filter P l2 ++ b :: filter P l3)%list.
Proof.
  intros Ha Hb. rewrite filter_app. cbn [filter]. rewrite Ha.
  rewrite filter_app. cbn [filter]. now rewrite Hb.
Qed.

(** Property X13.  When a person has two valid rows of one assessment type in
    the first screening, [pivot] cannot reshape the table and the run stops
    with a [ValueError]. *)
Theorem duplicate_type_stops_the_run
        (float_of_str : string -> option spec_float) (db : database)
        (ext : list ext_person) (l1 l2 l3 : list Compas.row) (r1 r2 : Compas.row)
        (Hage : age_cell (casearrest db) (people db) = Ok ext)
        (Hrows : compas db = (l1 ++ r1 :: l2 ++ r2 :: l3)%list)
        (Hperson : Compas.person_id r1 = Compas.person_id r2)
        (Hbatch : Compas.compas_assessment_id r1 = Compas.compas_assessment_id r2)
        (Htype : Compas.type_of_assessment r1 = Compas.type_of_assessment r2)
        (Hvalid1 : eq_str (Compas.score_text r1) "N/A" = false)
        (Hvalid2 : eq_str (Compas.score_text r2) "N/A" = false)
        (Hfirst : forall r, In r (compas db) ->
                            eq_str (Compas.score_text r) "N/A" = false ->
                            Compas.person_id r = Compas.person_id r1 ->
                            Compas.compas_assessment_id r1 <= Compas.compas_assessment_id r) :
  run float_of_str db = Raise ValueError.
Proof.
  assert (Hdup : duplicated Compas.person_id Compas.type_of_assessment
                            (first_screening_df (compas db)) = true).
  { destruct (duplicated _ _ _) eqn:E; [reflexivity|]. exfalso.
    apply duplicated_false_NoDup in E.
    assert (HP : Permutation (first_screening_df (compas db))
                   (filter (smallest_assessment (compas_df (compas db)))
                           (compas_df (compas db)))).
    { rewrite first_screening_df_filter. apply Permutation_filter, compas_df_sorted_perm. }
    apply (Permutation_map (fun a => (Compas.person_id a, Compas.type_of_assessment a))) in HP.
    apply (Permutation_NoDup HP) in E. revert E.
    assert (Hsm : forall r, Compas.person_id r = Compas.person_id r1 ->
                            Compas.compas_assessment_id r = Compas.compas_assessment_id r1 ->
                            smallest_assessment (compas_df (compas db)) r = true).
    { intros r Hp Hb. apply smallest_assessment_spec. intros r' Hin Hp'.
      unfold compas_df in Hin. apply filter_In in Hin. destruct Hin as [Hin Hv].
      apply negb_true_iff in Hv. rewrite Hb. apply Hfirst; auto. congruence. }
    generalize (smallest_assessment (compas_df (compas db))) Hsm. intros P HP1.
    unfold compas_df. rewrite Hrows.
    rewrite filter_two by (now apply negb_true_iff).
    rewrite (filter_two P)
      by (apply HP1; congruence).
    rewrite map_app. cbn [map]. rewrite map_app. cbn [map].
    rewrite Hperson, Htype. apply NoDup_two. }
  unfold run, ext_people. rewrite Hage. cbn [bind].
  unfold join_cell, pivoted_df, pivot. rewrite Hdup. reflexivity.
Qed.

(** ** One row per person *)

(** Property X16.  No merge multiplies or loses a person: when the last cell
    starts, [ext_people] has one row for every row of [people], so that the
    written table has at most as many. *)
Theorem one_row_per_person
        (float_of_str : string -> option spec_float) (db : database) (out : outputs)
        (Hrun : run float_of_str db = Ok out) :
  exists df,
    ext_people float_of_str db = Ok df /\
    List.length (rows df) = List.length (people db) /\
    compas_csv out = dropna df /\
    (List.length (rows (compas_csv out)) <= List.length (people db))%nat.
Proof.
  unfold run in Hrun. destruct (ext_people float_of_str db) as [df|] eqn:E; [|discriminate].
  cbn [bind] in Hrun. injection Hrun as <-. cbn [compas_csv].
  destruct (ext_people_rows _ _ _ E) as (w & _ & _ & HF).
  pose proof (Forall2_length HF) as Hlen.
  exists df. split; [reflexivity|]. split; [now symmetry|]. split; [reflexivity|].
  unfold dropna. cbn [rows]. rewrite Hlen. apply filter_length_le.
Qed.

(** ** The first row of a person *)

Lemma drop_duplicates_from_find {A : Type} (key : A -> Z) (seen : list Z) (l : list A) (k : Z) :
  find (fun a => key a =? k) (drop_duplicates_from key seen l)
  = if existsb (Z.eqb k) seen then None else find (fun a => key a =? k) l.
Proof.
  revert seen; induction l as [|a l IH]; intros seen; simpl.
  - now destruct (existsb _ seen).
  - destruct (existsb (Z.eqb (key a)) seen) eqn:Ea.
    + rewrite IH. destruct (existsb (Z.eqb k) seen) eqn:Ek; [reflexivity|].
      destruct (Z.eqb_spec (key a) k) as [E|E]; [|reflexivity]. congruence.
    + simpl. rewrite IH. simpl.
      destruct (Z.eqb_spec (key a) k) as [E|E].
      * subst k. now rewrite Ea.
      * replace (k =? key a) with false by lia. reflexivity.
Qed.

Lemma other_columns_find (compas : list Compas.row) (k : Z) :
  find (fun r => Compas.person_id r =? k) (other_columns compas)
  = find (fun r => Compas.person_id r =? k) (first_screening_df compas).
Proof.
  unfold other_columns, drop_duplicates. now rewrite drop_duplicates_from_find.
Qed.

(** Property X15.  [drop_duplicates] keeps of every person the first row: the
    marital status and the supervision level that are joined to a person are
    those of the first row of the first screening, in the order of the sort. *)
Theorem other_columns_first_row (compas : list Compas.row) (k : Z) :
  NoDup (map Compas.person_id (other_columns compas)) /\
  find (fun r => Compas.person_id r =? k) (other_columns compas)
  = find (fun r => Compas.person_id r =? k) (first_screening_df compas).
Proof.
  split.
  - apply drop_duplicates_from_spec.
  - apply other_columns_find.
Qed.

(** ** The bin tables *)

Lemma filter_filter {A : Type} (P Q : A -> bool) (l : list A) :
  filter P (filter Q l) = filter (fun a => Q a && P a) l.
Proof.
  induction l as [|a l IH]; simpl; [reflexivity|].
  destruct (Q a); simpl; [destruct (P a)|]; now rewrite ?IH.
Qed.

Lemma filter_map_comm {A B : Type} (f : A -> B) (P : B -> bool) (l : list A) :
  filter P (map f l) = map f (filter (fun a => P (f a)) l).
Proof.
  induction l as [|a l IH]; simpl; [reflexivity|].
  destruct (P (f a)); simpl; now rewrite IH.
Qed.

Lemma bins_rows_scored (type : string) (compas : list Compas.row) :
  rows (bins type compas)
  = map score_triple
        (filter (fun r => scored r && (Compas.type_of_assessment r =? type)%string) compas).
Proof.
  unfold bins, dropna. cbn [columns rows].
  change (fun r => [Compas.raw_score r; Compas.decile_score r; Compas.score_text r])
    with score_triple.
  rewrite filter_map_comm, !filter_filter. f_equal.
  apply filter_ext. intros r. unfold scored.
  destruct (negb _), (_ =? _)%string, (row_notna _); reflexivity.
Qed.

(** Property X21.  A bin table holds the three scores of every assessment of
    its type that is scored, of every screening and not only of the first,
    once per row of [compas] and in the order of [compas]. *)
Theorem bins_hold_every_scored_row (type : string) (compas : list Compas.row) :
  bins type compas
  = mkframe ["raw_score"; "decile_score"; "score_text"]
            (map score_triple
                 (filter (fun r => scored r && (Compas.type_of_assessment r =? type)%string)
                         compas)).
Proof.
  rewrite <- bins_rows_scored. reflexivity.
Qed.

(** Property X22.  The three bin tables share no assessment and leave none
    out: together they have one row for every scored assessment of one of the
    three types, and an assessment of another type is in none. *)
Theorem bins_partition (compas : list Compas.row) :
  (List.length (rows (fta_bins compas)) + List.length (rows (grecid_bins compas))
   + List.length (rows (vrecid_bins compas)))%nat
  = List.length
      (filter (fun r => scored r
                        && existsb (String.eqb (Compas.type_of_assessment r)) assessment_types)
              compas).
Proof.
  unfold fta_bins, grecid_bins, vrecid_bins.
  rewrite !bins_rows_scored, !length_map.
  induction compas as [|r l IH]; [reflexivity|].
  cbn [filter]. destruct (scored r); cbn [andb]; [|exact IH].
  destruct (existsb _ assessment_types) eqn:Eall;
    unfold assessment_types in Eall; cbn [existsb] in Eall;
    destruct (String.eqb_spec (Compas.type_of_assessment r) "Risk of Failure to Appear") as [E1|E1];
    destruct (String.eqb_spec (Compas.type_of_assessment r) "Risk of Recidivism") as [E2|E2];
    destruct (String.eqb_spec (Compas.type_of_assessment r) "Risk of Violence") as [E3|E3];
    try discriminate Eall;
    try (rewrite E1 in *; discriminate); try (rewrite E2 in *; discriminate);
    cbn [List.length]; lia.
Qed.

(** ** The shape of the person table *)

Lemma update_nth_length (g : value -> result value) (j : nat) (r r' : list value) :
  update_nth g j r = Ok r' -> List.length r' = List.length r.
Proof.
  revert j r'; induction r as [|x r IH]; intros j r' H.
  - destruct j; simpl in H; now injection H as <-.
  - destruct j as [|j]; simpl in H; inv_bind H; injection H as <-; simpl; [reflexivity|].
    f_equal. eapply IH; eauto.
Qed.

Lemma coerce_row_length (float_of_str : string -> option spec_float)
      (cols : list string) (r r' : list value) :
  coerce_row float_of_str cols r = Ok r' -> List.length r' = List.length r.
Proof.
  revert r r'; induction cols as [|c cols IH]; intros r r' H.
  - simpl in H. now injection H as <-.
  - destruct r as [|v r]; [simpl in H; now injection H as <-|].
    cbn [coerce_row] in H. inv_bind H. inv_bind H. injection H as <-.
    simpl. f_equal. eapply IH; eauto.
Qed.

Lemma renamed_row_length (float_of_str : string -> option spec_float)
      (cols : list string) (j0 : nat) (r0 r : list value) :
  renamed_row float_of_str cols j0 r0 r -> List.length r = List.length r0.
Proof.
  intros (r1 & r2 & Hc & Hu1 & Hu2).
  rewrite (update_nth_length _ _ _ _ Hu2), (update_nth_length _ _ _ _ Hu1).
  exact (coerce_row_length _ _ _ _ Hc).
Qed.

Lemma pivoted_df_shape (compas : list Compas.row) (w : wide) (k : Z) (cells : list value) :
  pivoted_df compas = Ok w -> In (k, cells) (wide_rows w) ->
  List.length cells = List.length (wide_columns w).
Proof.
  intros Hw Hin. destruct (pivoted_df_rows _ _ Hw) as (_ & _ & Hrows).
  rewrite (Hrows _ _ Hin). clear Hrows Hin.
  unfold pivoted_df, pivot in Hw.
  destruct (duplicated _ _ _); [discriminate|].
  match type of Hw with
  | bind (Ok (?X, ?Y)) _ = _ => remember X as cols eqn:Hcols; remember Y as rws eqn:Hrws
  end.
  cbn in Hw. injection Hw as <-. cbn [wide_columns]. subst cols. clear Hrws.
  rewrite length_map. unfold pivot_values. cbn [flat_map].
  rewrite !length_app, !length_map. reflexivity.
Qed.

Lemma Forall2_In_r {A B : Type} (R : A -> B -> Prop) (l : list A) (l' : list B) (b : B) :
  Forall2 R l l' -> In b l' -> exists a, In a l /\ R a b.
Proof.
  induction 1 as [|x y l l' Hxy HF IH]; simpl; [intros []|].
  intros [<-|Hin]; [eauto|]. destruct (IH Hin) as (a & Ha & Hr). eauto.
Qed.

(** Property X17.  Every row of [ext_people] has one cell for every label of
    the header, when every row of [people] has one cell for every label of
    [people]. *)
Theorem rows_fit_the_header
        (float_of_str : string -> option spec_float) (db : database) (df : frame)
        (Hrun : ext_people float_of_str db = Ok df)
        (Hothers : forall p, In p (people db) ->
                             List.length (People.others p) = List.length (people_others db)) :
  forall row, In row (rows df) -> List.length row = List.length (columns df).
Proof.
  intros row Hrow. unfold ext_people in Hrun.
  inv_bind Hrun. rename x into ext. inv_bind Hrun. rename x into df0.
  pose proof (age_cell_rows _ _ _ H) as Hage.
  destruct (join_cell_rows _ _ _ H0) as (w & Hw & Hcols & Hrows).
  destruct (rename_cell_rows _ _ _ Hrun) as (Hc & j0 & _ & HF).
  destruct (Forall2_In_r _ _ _ _ HF Hrow) as (r0 & Hr0 & Hren).
  rewrite (renamed_row_length _ _ _ _ _ Hren), Hc, rename_columns_map, length_map, Hcols.
  rewrite Hrows in Hr0. apply in_map_iff in Hr0. destruct Hr0 as (e & <- & He).
  destruct (Forall2_In_r _ _ _ _ Hage He) as (p & Hp & (d & a & _ & _ & ->)).
  unfold joined_row. cbn [sex age others age_at_first_arrest].
  rewrite !length_app, (Hothers p Hp).
  assert (Hcells : List.length
            match final_of db w (mkext (People.id p) (People.sex p) (People.age p)
                                       (People.others p) a) with
            | Some (o, (_, cells)) =>
                ([Compas.marital_status o; Compas.rec_supervision_level o] ++ cells)%list
            | None => repeat VNull (2 + List.length (wide_columns w))
            end = (2 + List.length (wide_columns w))%nat).
  { unfold final_of. destruct (find _ _) as [[o [k cells]]|] eqn:Hf.
    - apply find_some in Hf. destruct Hf as [Hin _].
      apply merge_inner_In in Hin. destruct Hin as (_ & Hin & _).
      cbn [app List.length]. now rewrite (pivoted_df_shape _ _ _ _ Hw Hin).
    - apply repeat_length. }
  rewrite Hcells. cbn [List.length]. rewrite !length_app. cbn [List.length]. lia.
Qed.

(** ** What the renaming and the retyping leave alone *)

Lemma replace_absent (old new s : string) :
  Py.contains old s = false -> Py.replace old new s = s.
Proof.
  destruct old as [|c old].
  - destruct s; discriminate.
  - unfold Py.replace. induction s as [|a s IH]; [reflexivity|].
    cbn [Py.contains Py.replace_from]. intros H. apply orb_false_iff in H.
    destruct H as [Hp Hc]. rewrite Hp. now rewrite (IH Hc).
Qed.

Lemma rename_one_absent (m : list (string * string)) (c : string) :
  (forall kv, In kv m -> Py.contains (fst kv) c = false) -> rename_one m c = c.
Proof.
  unfold rename_one. induction m as [|kv m IH]; intros H; [reflexivity|].
  cbn [fold_left]. rewrite replace_absent by (apply H; now left).
  apply IH. intros kv' Hin. apply H. now right.
Qed.

(** Property X18.  The renaming replaces parts of labels: a label in which no
    key of the mapping occurs keeps its name and its place. *)
Theorem rename_leaves_other_labels
        (m : list (string * string)) (cols : list string) (j : nat) (c : string)
        (Hcol : nth_error cols j = Some c)
        (Hkeys : forall kv, In kv m -> Py.contains (fst kv) c = false) :
  List.length (rename_columns m cols) = List.length cols /\
  nth_error (rename_columns m cols) j = Some c.
Proof.
  rewrite rename_columns_map, length_map, nth_error_map, Hcol. cbn [option_map].
  split; [reflexivity|]. f_equal. now apply rename_one_absent.
Qed.

(** Property X19.  The retyping changes the cells of two kinds of columns
    only: a cell under a label that does not hold ["ds_"] and is not ["male"]
    leaves the cell as it entered it. *)
Theorem retyping_leaves_other_cells
        (float_of_str : string -> option spec_float)
        (df df' : frame) (i j : nat) (c : string) (r r' : list value) (v : value)
        (Hcell : rename_cell float_of_str df = Ok df')
        (Hcol : nth_error (columns df') j = Some c)
        (Hds : Py.contains "ds_" c = false)
        (Hmale : c <> "male")
        (Hrow : nth_error (rows df) i = Some r)
        (Hrow' : nth_error (rows df') i = Some r')
        (Hv : nth_error r j = Some v) :
  nth_error r' j = Some v.
Proof.
  destruct (rename_cell_rows _ _ _ Hcell) as (Hcols & j0 & Hj0 & HF).
  destruct (Forall2_nth_error _ _ _ _ _ _ HF Hrow Hrow') as (r1 & r2 & Hc & Hu1 & Hu2).
  destruct (coerce_row_cell _ _ _ _ _ _ Hc Hv) as (v' & Hv' & Hrel).
  rewrite Hcol, Hds in Hrel. subst v'.
  assert (Hne : j <> j0).
  { intros ->. apply col_index_nth_error in Hj0. congruence. }
  now rewrite (update_nth_other _ _ _ _ _ Hu2 Hne), (update_nth_other _ _ _ _ _ Hu1 Hne).
Qed.

(** ** The exceptions of a run *)

Lemma astype_int64_Raise (v : value) (e : exn) :
  astype_int64 v = Raise e -> e = ValueError \/ e = TypeError \/ e = OverflowError.
Proof.
  destruct v as [|z|x|s]; simpl; intros H;
    repeat match type of H with
           | context [match ?c with _ => _ end] => destruct c
           end; try discriminate; injection H as <-; auto.
Qed.

Lemma age_cell_Raise (arrests : list Casearrest.row) (people : list People.row) (e : exn) :
  age_cell arrests people = Raise e -> e = AttributeError \/ e = ValueError.
Proof.
  unfold age_cell. intros H. apply bind_Raise in H. destruct H as [H|(with_dob & _ & H)].
  - left. destruct (mapM_Raise _ _ _ H) as (p & _ & Hp).
    destruct (dob_date (People.dob p)) as [d|e'] eqn:E; [discriminate|].
    cbn [bind] in Hp. injection Hp as <-. exact (dob_date_raises _ _ E).
  - right. destruct (merge_left _ _ with_dob _) as [|row rest]; [congruence|].
    destruct (mapM_Raise _ _ _ H) as ([[p d] m] & _ & Hp).
    destruct (time_diff d (arrest_text m) (People.age p)) as [a|e'] eqn:E; [discriminate|].
    cbn [bind] in Hp. injection Hp as <-. exact (time_diff_raises _ _ _ _ E).
Qed.

(** Property X23.  A run raises nothing but an [AttributeError], a
    [ValueError], a [TypeError] or an [OverflowError]: the column [male] is
    always there when it is read, so there is no [KeyError], and 365.25 is
    not zero. *)
Theorem run_raises
        (float_of_str : string -> option spec_float) (db : database) (e : exn)
        (Hrun : run float_of_str db = Raise e) :
  e = AttributeError \/ e = ValueError \/ e = TypeError \/ e = OverflowError.
Proof.
  unfold run in Hrun. apply bind_Raise in Hrun.
  destruct Hrun as [H|(df & _ & H)]; [|discriminate].
  unfold ext_people in H. apply bind_Raise in H. destruct H as [H|(ext & _ & H)].
  { destruct (age_cell_Raise _ _ _ H); auto. }
  apply bind_Raise in H. destruct H as [H|(df0 & Hjoin & H)].
  { right. left. unfold join_cell, pivoted_df, pivot in H.
    destruct (duplicated _ _ _); [simpl in H; congruence|discriminate]. }
  destruct (join_cell_rows _ _ _ Hjoin) as (w & _ & Hcols & _).
  unfold rename_cell in H. apply bind_Raise in H. destruct H as [H|(df2 & Hco & H)].
  { destruct (coerce_ds_Raise _ _ _ _ _ H) as [E|[E|E]]; auto. }
  destruct (coerce_ds_rows _ _ _ _ _ Hco) as [Hc2 _]. cbn [columns] in Hc2.
  unfold male_column in H. rewrite Hc2, Hcols, rename_columns_map in H.
  change (col_index "male" (map (rename_one repl) ("sex" :: "age" :: _)))
    with (Some 0%nat) in H.
  apply bind_Raise in H. destruct H as [H|(df3 & _ & H)].
  - destruct (map_column_Raise _ _ _ _ H) as [v Hv]. discriminate.
  - destruct (map_column_Raise _ _ _ _ H) as [v Hv].
    destruct (astype_int64_Raise _ _ Hv); auto.
Qed.

(** ** The date before the time of day *)

Lemma contains_space_cons (c : ascii) (s : string) :
  Py.contains " " (String c s) = (c =? " ")%char || Py.contains " " s.
Proof.
  cbn [Py.contains prefix]. destruct (ascii_dec " " c) as [<-|Hn].
  - now destruct s.
  - destruct (Ascii.eqb_spec c " ") as [->|_]; [now destruct Hn|reflexivity].
Qed.

(** Property X3.  [x.split(' ')[0]] gives the date of a time stamp: the text
    before the first space, and the whole text when there is no space. *)
Theorem split_space_0_cuts_the_time (a t : string)
        (Ha : Py.contains " " a = false) :
  Py.split_space_0 (a ++ String " " t) = a /\
  Py.split_space_0 a = a /\
  dob_date (VStr (a ++ String " " t)) = Ok a.
Proof.
  assert (H1 : Py.split_space_0 (a ++ String " " t) = a).
  { induction a as [|c a IH]; [reflexivity|].
    rewrite contains_space_cons in Ha. apply orb_false_iff in Ha. destruct Ha as [Hc Ha].
    cbn [append Py.split_space_0]. rewrite Hc. now rewrite (IH Ha). }
  split; [exact H1|]. split.
  - clear H1. induction a as [|c a IH]; [reflexivity|].
    rewrite contains_space_cons in Ha. apply orb_false_iff in Ha. destruct Ha as [Hc Ha].
    cbn [Py.split_space_0]. rewrite Hc. now rewrite (IH Ha).
  - cbn [dob_date]. now rewrite H1.
Qed.

(** ** The labels of the pivoted columns *)

Lemma lower_char_idem (c : ascii) : Py.lower_char (Py.lower_char c) = Py.lower_char c.
Proof. destruct c as [[] [] [] [] [] [] [] []]; reflexivity. Qed.

Lemma lower_char_space (c : ascii) : (Py.lower_char c =? " ")%char = (c =? " ")%char.
Proof. destruct c as [[] [] [] [] [] [] [] []]; reflexivity. Qed.

Lemma lower_idem (s : string) : Py.lower (Py.lower s) = Py.lower s.
Proof.
  induction s as [|c s IH]; [reflexivity|].
  cbn [Py.lower]. now rewrite lower_char_idem, IH.
Qed.

Lemma lower_space (s : string) : Py.contains " " (Py.lower s) = Py.contains " " s.
Proof.
  induction s as [|c s IH]; [reflexivity|].
  cbn [Py.lower]. now rewrite !contains_space_cons, lower_char_space, IH.
Qed.

Lemma replace_space (s : string) : Py.contains " " (Py.replace " " "_" s) = false.
Proof.
  unfold Py.replace. induction s as [|c s IH]; [reflexivity|].
  cbn [Py.replace_from prefix]. destruct (ascii_dec " " c) as [<-|Hn].
  - replace (prefix EmptyString s) with true by (now destruct s).
    cbn [String.length Nat.sub append]. rewrite contains_space_cons, IH. reflexivity.
  - rewrite contains_space_cons, IH.
    destruct (Ascii.eqb_spec c " ") as [->|_]; [now destruct Hn|reflexivity].
Qed.

(** Property X14.  The label of a pivoted column has no space and no capital
    letter, whatever the assessment type is called. *)
Theorem pivot_column_name_normal (col : string * string) :
  Py.contains " " (pivot_column_name col) = false /\
  Py.lower (pivot_column_name col) = pivot_column_name col.
Proof.
  unfold pivot_column_name. split.
  - now rewrite lower_space, replace_space.
  - apply lower_idem.
Qed.

(** ** The dictionaries *)

Lemma getitem_setitem {V : Type} (d : dict V) (k k' : string) (v : V) :
  getitem (setitem d k v) k' = if (k =? k')%string then Ok v else getitem d k'.
Proof.
  induction d as [|[k0 v0] d IH]; cbn [setitem getitem].
  - reflexivity.
  - destruct (String.eqb_spec k0 k) as [->|Hk]; cbn [getitem].
    + now destruct (k =? k')%string.
    + rewrite IH. destruct (String.eqb_spec k0 k') as [->|Hk']; [|reflexivity].
      apply String.eqb_neq in Hk. rewrite String.eqb_sym in Hk. now rewrite Hk.
Qed.

Lemma getitem_KeyError {V : Type} (d : dict V) (k : string) :
  getitem d k = Raise KeyError <-> ~ In k (map fst d).
Proof.
  induction d as [|[k0 v0] d IH]; cbn [getitem map fst In].
  - split; [intros _ []|reflexivity].
  - destruct (String.eqb_spec k0 k) as [->|Hk].
    + split; [discriminate|]. intros H. exfalso. apply H. now left.
    + rewrite IH. split; [intros H [E|Hin]; [exact (Hk E)|exact (H Hin)]|].
      intros H Hin. apply H. now right.
Qed.

(** Property X1.  A functional dictionary called with a key gives what the
    subscript gives: the value stored last under the key, whatever is stored
    under other keys afterwards, and a [KeyError] for a key under which
    nothing was stored. *)
Theorem fdict_call_is_lookup {V : Type} (d : fdict V) (k k' : string) (v : V) :
  call (setitem d k v) k = Ok v /\
  (k' <> k -> call (setitem d k v) k' = call d k') /\
  (call d k = Raise KeyError <-> ~ In k (map fst d)).
Proof.
  unfold call. split; [|split].
  - now rewrite getitem_setitem, String.eqb_refl.
  - intros Hk. rewrite getitem_setitem. apply not_eq_sym in Hk.
    apply String.eqb_neq in Hk. now rewrite Hk.
  - apply getitem_KeyError.
Qed.

Lemma getitem_fold {F : Type} (read : string -> F) (l : list string) (d : dict F) (t : string) :
  getitem (fold_left (fun d table => setitem d table (read table)) l d) t
  = if existsb (String.eqb t) l then Ok (read t) else getitem d t.
Proof.
  revert d; induction l as [|a l IH]; intros d; cbn [fold_left existsb]; [reflexivity|].
  rewrite IH, getitem_setitem. rewrite (String.eqb_sym t a).
  destruct (String.eqb_spec a t) as [->|_]; cbn [orb]; [|reflexivity].
  now destruct (existsb _ l).
Qed.

Lemma existsb_filter (P : string -> bool) (l : list string) (t : string) :
  existsb (String.eqb t) (filter P l) = existsb (String.eqb t) l && P t.
Proof.
  induction l as [|a l IH]; [reflexivity|].
  cbn [existsb filter]. destruct (String.eqb_spec t a) as [<-|Hn].
  - cbn [orb andb]. destruct (P t) eqn:E.
    + cbn [existsb]. now rewrite String.eqb_refl.
    + rewrite IH. apply andb_false_r.
  - cbn [orb]. destruct (P a); [|exact IH].
    cbn [existsb]. apply String.eqb_neq in Hn. now rewrite Hn.
Qed.

(** Property X2.  [dfd] holds every table of the database but [summary], each
    under its name; the subscript with ["summary"], or with the name of a
    table that the database does not have, raises a [KeyError]. *)
Theorem dfd_holds_the_tables {F : Type} (read_sql_query : string -> F)
        (fetched : list string) (t : string) :
  getitem (dfd read_sql_query fetched) t
  = if existsb (String.eqb t) fetched && negb (t =? "summary")%string
    then Ok (read_sql_query t)
    else Raise KeyError.
Proof.
  unfold dfd, tables. now rewrite getitem_fold, existsb_filter.
Qed.

(** ** A run that returns *)

Section Returns.
Variable float_of_str : string -> option spec_float.

Lemma integer_cell_coerced (v : value) :
  integer_cell v = true -> exists v', to_nullable_int float_of_str v = Ok v'.
Proof.
  destruct v as [|z|x|s]; cbn [integer_cell]; intros H.
  - exists VNull. reflexivity.
  - exists (VInt z). apply to_nullable_int_int. lia.
  - unfold to_nullable_int, astype_float. cbn [bind]. unfold astype_Int64.
    destruct (isna (VFloat x)); [eauto|]. cbn [orb] in H.
    destruct (integral_value x) as [z|]; [|discriminate]. rewrite H. eauto.
  - discriminate.
Qed.

Lemma coerce_row_total (cols : list string) (r : list value) :
  Forall2 (fun c v => Py.contains "ds_" c = true -> integer_cell v = true) cols r ->
  exists r', coerce_row float_of_str cols r = Ok r'.
Proof.
  induction 1 as [|c v cols r Hcv HF [r' IH]]; [exists []; reflexivity|].
  cbn [coerce_row]. destruct (Py.contains "ds_" c).
  - destruct (integer_cell_coerced v (Hcv eq_refl)) as [v' Hv'].
    rewrite Hv', IH. cbn [bind]. eauto.
  - rewrite IH. cbn [bind]. eauto.
Qed.

Lemma update_nth_total (g : value -> result value) (j : nat) (r : list value) :
  (forall v rest, skipn j r = v :: rest -> exists v', g v = Ok v') ->
  exists r', update_nth g j r = Ok r'.
Proof.
  revert j; induction r as [|x r IH]; intros j H.
  - destruct j; simpl; eauto.
  - destruct j as [|j]; simpl.
    + destruct (H x r eq_refl) as [v' Hv']. rewrite Hv'. simpl. eauto.
    + destruct (IH j) as [r' Hr']; [intros v rest Hs; exact (H v rest Hs)|].
      rewrite Hr'. simpl. eauto.
Qed.

Lemma map_column_total (g : value -> result value) (j : nat) (df : frame) :
  (forall r, In r (rows df) -> exists r', update_nth g j r = Ok r') ->
  exists df', map_column g j df = Ok df'.
Proof.
  intros H. unfold map_column.
  destruct (mapM_exists (update_nth g j) (rows df)) as [rs Hrs].
  { rewrite Forall_forall. exact H. }
  rewrite Hrs. cbn [bind]. eauto.
Qed.

Lemma nth_error_skipn {A : Type} (l : list A) (j : nat) (a : A) :
  nth_error l j = Some a -> exists rest, skipn j l = a :: rest.
Proof.
  revert l; induction j as [|j IH]; intros [|x l] H; try discriminate.
  - injection H as ->. simpl. eauto.
  - simpl in H |- *. eauto.
Qed.

(** The coercion of a column returns when every cell of the column is one
    that it takes. *)
Lemma to_Int64_total (j : nat) (df : frame) :
  (forall r v rest, In r (rows df) -> skipn j r = v :: rest ->
                    exists v', to_nullable_int float_of_str v = Ok v') ->
  exists df', to_Int64 float_of_str j df = Ok df'.
Proof.
  intros H. unfold to_Int64.
  destruct (map_column_total (astype_float float_of_str) j df) as [df1 Hdf1].
  { intros r Hr. apply update_nth_total. intros v rest Hs.
    destruct (H r v rest Hr Hs) as [v' Hv']. unfold to_nullable_int in Hv'.
    destruct (astype_float float_of_str v) as [u|]; [eauto|discriminate]. }
  rewrite Hdf1. cbn [bind].
  destruct (map_column_rows _ _ _ _ Hdf1) as [_ HF].
  assert (Hcells : forall r1 u rest, In r1 (rows df1) -> skipn j r1 = u :: rest ->
                     exists v', astype_Int64 u = Ok v').
  { intros r1 u rest Hr1 Hs1. destruct (Forall2_In_r _ _ _ _ HF Hr1) as (r & Hr & Hu).
    destruct (update_nth_split _ _ _ _ Hu) as [_ [[_ E]|(v & v1 & rest' & Hs & Hg & E)]];
      [congruence|].
    rewrite E in Hs1. injection Hs1 as -> ->.
    destruct (H r v rest Hr Hs) as [v' Hv']. unfold to_nullable_int in Hv'.
    rewrite Hg in Hv'. cbn [bind] in Hv'. eauto. }
  assert (Hcast : exists df', map_column astype_Int64 j df1 = Ok df').
  { apply map_column_total. intros r1 Hr1. apply update_nth_total. intros u rest Hs.
    exact (Hcells r1 u rest Hr1 Hs). }
  destruct (nanmax (column_cells j df1)) as [m|] eqn:Hm; [|exact Hcast].
  destruct (nanmax_In _ _ Hm) as [Hin Hn].
  apply column_cells_In in Hin. destruct Hin as (r1 & Hr1 & Hnth).
  destruct (nth_error_skipn _ _ _ Hnth) as [rest Hs].
  destruct (Hcells r1 _ rest Hr1 Hs) as [v' Hv'].
  unfold astype_Int64 in Hv'. rewrite Hn in Hv'.
  destruct (integral_value m) as [z|] eqn:Hz; [|discriminate].
  destruct m; try (simpl in Hz; discriminate); exact Hcast.
Qed.

Lemma coerce_row_tail (c : string) (cols : list string) (v : value) (rest t : list value) :
  coerce_row float_of_str (c :: cols) (v :: rest) = Ok t ->
  (Py.contains "ds_" c = true -> exists v', to_nullable_int float_of_str v = Ok v') /\
  exists t', coerce_row float_of_str cols rest = Ok t'.
Proof.
  cbn [coerce_row]. intros H. inv_bind H. inv_bind H. split; [|eauto].
  intros Hc. rewrite Hc in H0. eauto.
Qed.

Lemma coerce_row_cons_plain (c : string) (cols : list string) (v : value) (r : list value) :
  Py.contains "ds_" c = false ->
  coerce_row float_of_str (c :: cols) (v :: r)
  = (t <- coerce_row float_of_str cols r ;; Ok (v :: t)).
Proof. intros H. cbn [coerce_row]. now rewrite H. Qed.

Lemma coerce_ds_total (cols : list string) (j : nat) (df : frame) :
  (forall r, In r (rows df) ->
             exists t, coerce_row float_of_str cols (skipn j r) = Ok t) ->
  exists df', coerce_ds float_of_str cols j df = Ok df'.
Proof.
  revert j df; induction cols as [|c cols IH]; intros j df H; [simpl; eauto|].
  cbn [coerce_ds].
  assert (Htail : forall r, In r (rows df) ->
            exists t, coerce_row float_of_str cols (skipn (S j) r) = Ok t).
  { intros r Hr. destruct (H r Hr) as [t Ht].
    destruct (skipn j r) as [|v rest] eqn:Hs.
    - destruct (skipn_nil_S _ _ Hs) as [E _]. rewrite E, coerce_row_nil. eauto.
    - destruct (skipn_cons_S _ _ _ _ Hs) as [E _]. rewrite E.
      exact (proj2 (coerce_row_tail _ _ _ _ _ Ht)). }
  destruct (Py.contains "ds_" c) eqn:Hc.
  - destruct (to_Int64_total j df) as [df1 Hdf1].
    { intros r v rest Hr Hs. destruct (H r Hr) as [t Ht]. rewrite Hs in Ht.
      exact (proj1 (coerce_row_tail _ _ _ _ _ Ht) Hc). }
    rewrite Hdf1. cbn [bind]. apply IH.
    destruct (to_Int64_rows _ _ _ _ Hdf1) as [_ HF].
    intros r1 Hr1. destruct (Forall2_In_r _ _ _ _ HF Hr1) as (r & Hr & Hu).
    destruct (Htail r Hr) as [t Ht].
    replace (skipn (S j) r1) with (skipn (S j) r); [eauto|].
    destruct (update_nth_split _ _ _ _ Hu) as [_ [[Hs Hs1]|(v & v' & rest & Hs & _ & Hs1)]].
    + destruct (skipn_nil_S _ _ Hs) as [E _], (skipn_nil_S _ _ Hs1) as [E1 _]. congruence.
    + destruct (skipn_cons_S _ _ _ _ Hs) as [E _], (skipn_cons_S _ _ _ _ Hs1) as [E1 _].
      congruence.
  - cbn [bind]. apply IH. exact Htail.
Qed.

Lemma rename_cell_total (df : frame) (j0 : nat) :
  col_index "male" (rename_columns repl (columns df)) = Some j0 ->
  (forall r0, In r0 (rows df) ->
     exists r, renamed_row float_of_str (rename_columns repl (columns df)) j0 r0 r) ->
  exists df', rename_cell float_of_str df = Ok df'.
Proof.
  intros Hj0 Hrows. unfold rename_cell. cbn [columns].
  set (cols := rename_columns repl (columns df)) in *.
  destruct (coerce_ds_total cols 0 (mkframe cols (rows df))) as [df2 Hdf2].
  { intros r0 Hr0. destruct (Hrows r0 Hr0) as (r & r1 & r2 & Hc & _). cbn [skipn]. eauto. }
  rewrite Hdf2. cbn [bind].
  destruct (coerce_ds_rows _ _ _ _ _ Hdf2) as [Hc2 HF2]. cbn [columns rows] in Hc2, HF2.
  unfold male_column. rewrite Hc2, Hj0.
  destruct (map_column_total (fun v => Ok (r_dict v)) j0 df2) as [df3 Hdf3].
  { intros r' Hr'. destruct (Forall2_In_r _ _ _ _ HF2 Hr') as (r0 & Hr0 & t & Ht & ->).
    destruct (Hrows r0 Hr0) as (r & r1 & r2 & Hc & Hu1 & _).
    cbn [skipn firstn app] in *. assert (t = r1) by congruence. subst t. eauto. }
  rewrite Hdf3. cbn [bind].
  destruct (map_column_rows _ _ _ _ Hdf3) as [_ HF3].
  apply map_column_total.
  intros r3 Hr3. destruct (Forall2_In_r _ _ _ _ HF3 Hr3) as (r' & Hr' & Hu).
  destruct (Forall2_In_r _ _ _ _ HF2 Hr') as (r0 & Hr0 & t & Ht & ->).
  destruct (Hrows r0 Hr0) as (r & r1 & r2 & Hc & Hu1 & Hu2).
  cbn [skipn firstn app] in *. assert (t = r1) by congruence. subst t.
  assert (r3 = r2) by congruence. subst r3. eauto.
Qed.

Lemma Forall2_In_all {A B : Type} (R : A -> B -> Prop) (l : list A) (l' : list B) :
  List.length l = List.length l' ->
  (forall a b, In a l -> In b l' -> R a b) -> Forall2 R l l'.
Proof.
  revert l'; induction l as [|a l IH]; intros [|b l'] Hlen H; try discriminate.
  - constructor.
  - constructor; [apply H; now left|].
    apply IH; [simpl in Hlen; lia|]. intros a' b' Ha Hb. apply H; now right.
Qed.

Lemma Forall2_map_both {A B C : Type} (R : B -> C -> Prop) (f : A -> B) (g : A -> C)
      (l : list A) :
  (forall a, In a l -> R (f a) (g a)) -> Forall2 R (map f l) (map g l).
Proof.
  induction l as [|a l IH]; intros H; simpl; constructor.
  - apply H. now left.
  - apply IH. intros a' Ha. apply H. now right.
Qed.

Lemma pivoted_df_columns (compas : list Compas.row) (w : wide) :
  pivoted_df compas = Ok w ->
  wide_columns w
  = map pivot_column_name
        (flat_map (fun v => map (fun t => (fst v, t))
                                (pivot_labels Compas.type_of_assessment
                                              (first_screening_df compas)))
                  pivot_values).
Proof.
  unfold pivoted_df, pivot. intros Hw.
  destruct (duplicated _ _ _); [discriminate|].
  match type of Hw with
  | bind (Ok (?X, ?Y)) _ = _ => remember X as cols eqn:Hcols; remember Y as rws eqn:Hrws
  end.
  cbn in Hw. injection Hw as <-. cbn [wide_columns]. now subst cols.
Qed.

Lemma pivot_cell_In (l : list Compas.row) (get : Compas.row -> value) (k : Z) (t : string) :
  pivot_cell Compas.person_id Compas.type_of_assessment l get k t = VNull \/
  exists r, In r l /\
            pivot_cell Compas.person_id Compas.type_of_assessment l get k t = get r.
Proof.
  unfold pivot_cell. destruct (filter _ l) as [|r rest] eqn:E; [now left|].
  right. exists r. split; [|reflexivity].
  assert (Hin : In r (filter (fun a => (Compas.person_id a =? k)
                                       && (Compas.type_of_assessment a =? t)%string) l))
    by (rewrite E; now left).
  apply filter_In in Hin. tauto.
Qed.

Lemma wide_cells_coerced (compas : list Compas.row) (w : wide) (k : Z) (cells : list value) :
  pivoted_df compas = Ok w -> In (k, cells) (wide_rows w) ->
  (forall r, In r (first_screening_df compas) ->
             In (Compas.type_of_assessment r) assessment_types /\
             integer_cell (Compas.decile_score r) = true) ->
  Forall2 (fun c v => Py.contains "ds_" c = true -> integer_cell v = true)
          (map (rename_one repl) (wide_columns w)) cells.
Proof.
  intros Hw Hin Hscores.
  rewrite (pivoted_df_columns _ _ Hw).
  destruct (pivoted_df_rows _ _ Hw) as (_ & _ & Hrows). rewrite (Hrows _ _ Hin).
  set (l := first_screening_df compas) in *.
  assert (Htypes : forall t, In t (pivot_labels Compas.type_of_assessment l) ->
                             In t assessment_types).
  { intros t Ht. apply pivot_labels_In in Ht. apply in_map_iff in Ht.
    destruct Ht as (r & <- & Hr). exact (proj1 (Hscores r Hr)). }
  unfold pivot_values. cbn [flat_map fst snd]. rewrite !app_nil_r, !map_app, !map_map.
  repeat apply Forall2_app; apply Forall2_map_both; intros t Ht.
  - destruct (Htypes t Ht) as [<-|[<-|[<-|[]]]]; intros H; vm_compute in H; discriminate.
  - intros _. destruct (pivot_cell_In l Compas.decile_score k t) as [E|(r & Hr & E)];
      rewrite E; [reflexivity|]. exact (proj2 (Hscores r Hr)).
  - destruct (Htypes t Ht) as [<-|[<-|[<-|[]]]]; intros H; vm_compute in H; discriminate.
Qed.

(** Property X24.  The run returns the four tables when the table [people] has
    a row, the dates of every person are read and less than 2^15 days apart,
    every sex is ["Male"] or ["Female"], the rows of [people] fit its labels
    and no such label gets ["ds_"] into its name, and the first screenings
    hold the three known types only, none twice for a person, with decile
    scores that are null or equal to integers. *)
Theorem run_returns
        (db : database)
        (Hpeople : people db <> [])
        (Hage : Forall (age_defined (casearrest db)) (people db))
        (Hsex : forall p, In p (people db) ->
                          People.sex p = VStr "Male" \/ People.sex p = VStr "Female")
        (Hothers : forall p, In p (people db) ->
                             List.length (People.others p) = List.length (people_others db))
        (Hlabels : forall c, In c (people_others db) ->
                             Py.contains "ds_" (rename_one repl c) = false)
        (Hpivot : NoDup (map (fun r => (Compas.person_id r, Compas.type_of_assessment r))
                             (first_screening_df (compas db))))
        (Hscores : forall r, In r (first_screening_df (compas db)) ->
                             In (Compas.type_of_assessment r) assessment_types /\
                             integer_cell (Compas.decile_score r) = true) :
  exists out, run float_of_str db = Ok out.
Proof.
  destruct (age_cell_total _ _ Hpeople Hage) as [ext Hext].
  destruct (pivoted_df_total _ Hpivot) as [w Hw].
  assert (Hjoin : exists df0, join_cell db ext = Ok df0)
    by (unfold join_cell; rewrite Hw; cbn [bind]; eauto).
  destruct Hjoin as [df0 Hjoin].
  destruct (join_cell_rows _ _ _ Hjoin) as (w' & Hw' & Hcols & Hrows).
  assert (w' = w) by congruence. subst w'.
  destruct (rename_cell_total df0 0) as [df Hdf].
  { rewrite Hcols, rename_columns_map. reflexivity. }
  { intros r0 Hr0. rewrite Hrows in Hr0. apply in_map_iff in Hr0.
    destruct Hr0 as (e & <- & He).
    destruct (Forall2_In_r _ _ _ _ (age_cell_rows _ _ _ Hext) He)
      as (p & Hp & (d & a & _ & _ & ->)).
    rewrite Hcols, rename_columns_map.
    pose (tail := match final_of db w (mkext (People.id p) (People.sex p) (People.age p)
                                             (People.others p) a) with
                  | Some (o, (_, cells)) =>
                      ([Compas.marital_status o; Compas.rec_supervision_level o] ++ cells)%list
                  | None => repeat VNull (2 + List.length (wide_columns w))
                  end).
    change (joined_row w _)
      with (People.sex p :: People.age p :: People.others p ++ a :: tail)%list.
    change (map (rename_one repl) ("sex" :: ?l)) with ("male" :: map (rename_one repl) l).
    destruct (coerce_row_total
                (map (rename_one repl)
                     ("age" :: people_others db
                      ++ ["age_at_first_arrest"; "marital_status"; "rec_supervision_level"]
                      ++ wide_columns w))
                (People.age p :: People.others p ++ a :: tail)) as [t1 Ht1].
    { cbn [map]. constructor; [intros H; vm_compute in H; discriminate|].
      rewrite map_app. apply Forall2_app.
      - apply Forall2_In_all; [rewrite length_map; symmetry; exact (Hothers p Hp)|].
        intros c b Hc _ H. apply in_map_iff in Hc. destruct Hc as (c0 & <- & Hc0).
        rewrite (Hlabels c0 Hc0) in H. discriminate.
      - cbn [map app]. constructor; [intros H; vm_compute in H; discriminate|].
        subst tail. unfold final_of.
        destruct (find _ _) as [[o [k cells]]|] eqn:Hf.
        + cbn [app].
          constructor; [intros H; vm_compute in H; discriminate|].
          constructor; [intros H; vm_compute in H; discriminate|].
          apply find_some in Hf. destruct Hf as [Hin _].
          apply merge_inner_In in Hin. destruct Hin as (_ & Hin & _).
          exact (wide_cells_coerced _ _ _ _ Hw Hin Hscores).
        + cbn [repeat Nat.add].
          constructor; [intros H; vm_compute in H; discriminate|].
          constructor; [intros H; vm_compute in H; discriminate|].
          apply Forall2_In_all; [now rewrite length_map, repeat_length|].
          intros c b _ Hb _. apply repeat_spec in Hb. now subst b. }
    assert (Hz : exists z, astype_int64 (r_dict (People.sex p)) = Ok (VInt z)).
    { destruct (Hsex p Hp) as [-> | ->]; eexists; reflexivity. }
    destruct Hz as [z Hz].
    exists (VInt z :: t1), (People.sex p :: t1), (r_dict (People.sex p) :: t1).
    split; [|split].
    - rewrite coerce_row_cons_plain by reflexivity. rewrite Ht1. reflexivity.
    - reflexivity.
    - cbn [update_nth]. rewrite Hz. reflexivity. }
  unfold run, ext_people. rewrite Hext. cbn [bind]. rewrite Hjoin. cbn [bind].
  rewrite Hdf. cbn [bind]. eauto.
Qed.

End Returns.

(** ** The first screening of a first screening *)

Lemma sort_values_sorted_id {A : Type} (leb : A -> A -> bool) (l : list A) :
  StronglySorted (fun a b => leb a b = true) l -> sort_values leb l = l.
Proof.
  induction 1 as [|a l Hs IH Ha]; [reflexivity|].
  cbn [sort_values fold_right]. fold (sort_values leb l). rewrite IH.
  destruct l as [|b l]; [reflexivity|].
  cbn [insert_sorted]. inversion Ha as [|? ? Hab _]; subst. now rewrite Hab.
Qed.

Lemma filter_all {A : Type} (P : A -> bool) (l : list A) :
  (forall a, In a l -> P a = true) -> filter P l = l.
Proof.
  induction l as [|a l IH]; intros H; [reflexivity|].
  cbn [filter]. rewrite (H a) by (now left). f_equal. apply IH.
  intros b Hb. apply H. now right.
Qed.

(** Property X12.  The removal of the later screenings changes nothing when it
    is done again: on its own result it keeps every row, in the same order. *)
Theorem first_screening_df_idempotent (compas : list Compas.row) :
  first_screening_df (first_screening_df compas) = first_screening_df compas.
Proof.
  set (X := first_screening_df compas).
  assert (HX : X = filter (smallest_assessment (compas_df compas)) (compas_df_sorted compas))
    by apply first_screening_df_filter.
  assert (Hvalid : compas_df X = X).
  { apply filter_all. intros r Hr. apply negb_true_iff.
    exact (proj2 (first_screening_df_valid_rows _ _ Hr)). }
  assert (Hsorted : compas_df_sorted X = X).
  { unfold compas_df_sorted. rewrite Hvalid. apply sort_values_sorted_id.
    rewrite HX. apply filter_sorted. apply compas_df_sorted_sorted. }
  rewrite first_screening_df_filter. fold X. rewrite Hvalid, Hsorted.
  apply filter_all. intros r Hr. apply smallest_assessment_spec.
  intros r' Hr' Hp. rewrite HX in Hr, Hr'.
  apply filter_In in Hr, Hr'. destruct Hr as [_ Hr], Hr' as [Hr' _].
  rewrite smallest_assessment_spec in Hr. apply Hr; [|exact Hp].
  exact (Permutation_in _ (compas_df_sorted_perm compas) Hr').
Qed.

(** ** The persons that are written *)

Section Written.
Variable float_of_str : string -> option spec_float.

Lemma to_nullable_int_kept (v v' : value) :
  to_nullable_int float_of_str v = Ok v' ->
  isna v = false -> integer_cell v = true -> isna v' = false.
Proof.
  intros H Hn Hi. destruct v as [|z|x|s]; try discriminate.
  - cbn [integer_cell] in Hi. rewrite to_nullable_int_int in H by lia.
    now injection H as <-.
  - destruct (to_nullable_int_float _ _ _ H Hn) as (z & _ & _ & ->). reflexivity.
Qed.

Lemma coerce_row_kept (cols : list string) (r r' : list value) :
  coerce_row float_of_str cols r = Ok r' ->
  Forall2 (fun c v => isna v = false /\
                      (Py.contains "ds_" c = true -> integer_cell v = true)) cols r ->
  row_notna r' = true.
Proof.
  intros H HF. revert r' H. induction HF as [|c v cols r [Hn Hi] HF IH]; intros r' H.
  - simpl in H. now injection H as <-.
  - cbn [coerce_row] in H. inv_bind H. inv_bind H. injection H as <-.
    unfold row_notna. cbn [forallb]. apply andb_true_iff. split; [|exact (IH _ H1)].
    apply negb_true_iff. destruct (Py.contains "ds_" c).
    + exact (to_nullable_int_kept _ _ H0 Hn (Hi eq_refl)).
    + now injection H0 as <-.
Qed.

Lemma time_diff_kept (s1 s2 : string) (s3 a : value) :
  time_diff s1 s2 s3 = Ok a -> isna s3 = false -> isna a = false.
Proof.
  unfold time_diff. destruct (s2 =? "No_arrest")%string; [now intros [= <-]|].
  intros H _.
  repeat match type of H with
         | bind (of_option _ ?o) _ = _ => destruct o; cbn [of_option bind] in H; [|discriminate]
         end.
  now injection H as <-.
Qed.

Lemma Forall2_nth_error_l {A B : Type} (R : A -> B -> Prop) (l : list A) (l' : list B)
      (i : nat) (a : A) :
  Forall2 R l l' -> nth_error l i = Some a -> exists b, nth_error l' i = Some b /\ R a b.
Proof.
  intros H; revert i; induction H as [|x y l l' Hxy HF IH]; intros [|i]; simpl; try discriminate.
  - intros [= <-]. eauto.
  - apply IH.
Qed.

Lemma Forall2_nth_error_r {A B : Type} (R : A -> B -> Prop) (l : list A) (l' : list B)
      (i : nat) (b : B) :
  Forall2 R l l' -> nth_error l' i = Some b -> exists a, nth_error l i = Some a /\ R a b.
Proof.
  intros H; revert i; induction H as [|x y l l' Hxy HF IH]; intros [|i]; simpl; try discriminate.
  - intros [= <-]. eauto.
  - apply IH.
Qed.

Lemma find_exists {A : Type} (P : A -> bool) (l : list A) (a : A) :
  In a l -> P a = true -> exists b, find P l = Some b.
Proof.
  intros Hin Ha. destruct (find P l) as [b|] eqn:E; [eauto|].
  pose proof (find_none _ _ E a Hin). congruence.
Qed.

Lemma merge_inner_complete {L R : Type} (key_l : L -> Z) (key_r : R -> Z)
      (left : list L) (right : list R) (l : L) (r : R) :
  In l left -> In r right -> key_r r = key_l l ->
  In (l, r) (merge_inner key_l key_r left right).
Proof.
  intros Hl Hr Hk. unfold merge_inner, matches. apply in_flat_map. exists l.
  split; [exact Hl|]. apply in_map. apply filter_In. split; [exact Hr|lia].
Qed.

Lemma pivoted_df_row_In (compas : list Compas.row) (w : wide) (r : Compas.row) :
  pivoted_df compas = Ok w -> In r (first_screening_df compas) ->
  exists cells, In (Compas.person_id r, cells) (wide_rows w).
Proof.
  unfold pivoted_df, pivot. intros Hw Hr.
  destruct (duplicated _ _ _); [discriminate|].
  match type of Hw with
  | bind (Ok (?X, ?Y)) _ = _ => remember X as cols eqn:Hcols; remember Y as rws eqn:Hrws
  end.
  cbn in Hw. injection Hw as <-. cbn [wide_rows]. subst rws.
  eexists. apply in_map_iff. exists (Compas.person_id r). split; [reflexivity|].
  apply group_keys_In. now apply in_map.
Qed.

Lemma final_of_screened (db : database) (w : wide) (e : ext_person) (r : Compas.row) :
  pivoted_df (compas db) = Ok w ->
  In r (first_screening_df (compas db)) -> Compas.person_id r = person_id e ->
  exists o cells,
    final_of db w e = Some (o, (person_id e, cells)) /\
    In o (first_screening_df (compas db)) /\ Compas.person_id o = person_id e /\
    In (person_id e, cells) (wide_rows w).
Proof.
  intros Hw Hr Hk.
  destruct (find_exists (fun r' => Compas.person_id r' =? person_id e)
                        (first_screening_df (compas db)) r Hr) as [o Ho]; [lia|].
  rewrite <- (other_columns_find (compas db) (person_id e)) in Ho.
  apply find_some in Ho. destruct Ho as [Ho Hko].
  destruct (pivoted_df_row_In _ _ _ Hw Hr) as [cells Hcells]. rewrite Hk in Hcells.
  assert (Hin : In (o, (person_id e, cells)) (final_df (compas db) w)).
  { unfold final_df. apply merge_inner_complete; auto. cbn [fst]. lia. }
  destruct (find_exists (fun f => Compas.person_id (fst f) =? person_id e) _ _ Hin)
    as [[o' [k' cells']] Hf]; [cbn [fst]; lia|].
  unfold final_of. rewrite Hf. apply find_some in Hf. destruct Hf as [Hin' Hk'].
  cbn [fst] in Hk'. apply merge_inner_In in Hin'. destruct Hin' as (Ho' & Hc' & Hkk).
  cbn [fst] in Hkk. assert (Ek : k' = person_id e) by lia. clear Hkk. subst k'.
  exists o', cells'. split; [reflexivity|].
  unfold other_columns in Ho'. apply drop_duplicates_from_spec in Ho'.
  split; [tauto|]. split; [lia|exact Hc'].
Qed.

Lemma wide_cells_kept (compas : list Compas.row) (w : wide) (k : Z) (cells : list value) :
  pivoted_df compas = Ok w -> In (k, cells) (wide_rows w) ->
  (forall r, In r (first_screening_df compas) ->
             In (Compas.type_of_assessment r) assessment_types) ->
  (forall r, In r (first_screening_df compas) -> Compas.person_id r = k ->
             isna (Compas.raw_score r) = false /\
             isna (Compas.decile_score r) = false /\
             integer_cell (Compas.decile_score r) = true /\
             isna (Compas.score_text r) = false) ->
  (forall t, In t (map Compas.type_of_assessment (first_screening_df compas)) ->
             exists r, In r (first_screening_df compas) /\
                       Compas.person_id r = k /\ Compas.type_of_assessment r = t) ->
  Forall2 (fun c v => isna v = false /\
                      (Py.contains "ds_" c = true -> integer_cell v = true))
          (map (rename_one repl) (wide_columns w)) cells.
Proof.
  intros Hw Hin Htypes Hcomplete Hall.
  rewrite (pivoted_df_columns _ _ Hw).
  destruct (pivoted_df_rows _ _ Hw) as (Hdup & _ & Hrows). rewrite (Hrows _ _ Hin).
  set (l := first_screening_df compas) in *.
  assert (Hcell : forall t get, In t (pivot_labels Compas.type_of_assessment l) ->
            In t assessment_types /\
            exists r, In r l /\ Compas.person_id r = k /\
              pivot_cell Compas.person_id Compas.type_of_assessment l get k t = get r).
  { intros t get Ht. apply pivot_labels_In in Ht. split.
    - apply in_map_iff in Ht. destruct Ht as (r & <- & Hr). exact (Htypes r Hr).
    - destruct (Hall t Ht) as (r & Hr & Hk & Ht'). exists r. split; [exact Hr|].
      split; [exact Hk|]. rewrite <- Hk, <- Ht'. now apply pivot_cell_unique. }
  unfold pivot_values. cbn [flat_map fst snd]. rewrite !app_nil_r, !map_app, !map_map.
  repeat apply Forall2_app; apply Forall2_map_both; intros t Ht.
  - destruct (Hcell t Compas.raw_score Ht) as (Hty & r & Hr & Hk & ->).
    split; [exact (proj1 (Hcomplete r Hr Hk))|].
    destruct Hty as [<-|[<-|[<-|[]]]]; intros H; vm_compute in H; discriminate.
  - destruct (Hcell t Compas.decile_score Ht) as (_ & r & Hr & Hk & ->).
    destruct (Hcomplete r Hr Hk) as (_ & Hd & Hi & _). auto.
  - destruct (Hcell t Compas.score_text Ht) as (Hty & r & Hr & Hk & ->).
    split; [exact (proj2 (proj2 (proj2 (Hcomplete r Hr Hk))))|].
    destruct Hty as [<-|[<-|[<-|[]]]]; intros H; vm_compute in H; discriminate.
Qed.

(** Property X25.  A person is written when nothing of the person is missing:
    the stated age and the other cells of [people] are not null, and the
    first screening of the person has, for every assessment type that occurs
    in a first screening at all, a row with the three scores, the decile
    score equal to an integer, and holds a marital status and a supervision
    level. The types are the three known ones and no label of [people] gets
    ["ds_"] into its name. *)
Theorem complete_person_is_written
        (db : database) (df : frame) (i : nat) (p : People.row) (row : list value)
        (Hrun : ext_people float_of_str db = Ok df)
        (Hp : nth_error (people db) i = Some p)
        (Hrow : nth_error (rows df) i = Some row)
        (Hlabels : forall c, In c (people_others db) ->
                             Py.contains "ds_" (rename_one repl c) = false)
        (Htypes : forall r, In r (first_screening_df (compas db)) ->
                            In (Compas.type_of_assessment r) assessment_types)
        (Hlen : List.length (People.others p) = List.length (people_others db))
        (Hage : isna (People.age p) = false)
        (Hcells : forall v, In v (People.others p) -> isna v = false)
        (Hscreened : exists r, In r (first_screening_df (compas db)) /\
                               Compas.person_id r = People.id p)
        (Hcomplete : forall r, In r (first_screening_df (compas db)) ->
                               Compas.person_id r = People.id p ->
                               isna (Compas.marital_status r) = false /\
                               isna (Compas.rec_supervision_level r) = false /\
                               isna (Compas.raw_score r) = false /\
                               isna (Compas.decile_score r) = false /\
                               integer_cell (Compas.decile_score r) = true /\
                               isna (Compas.score_text r) = false)
        (Hall : forall t, In t (map Compas.type_of_assessment
                                    (first_screening_df (compas db))) ->
                          exists r, In r (first_screening_df (compas db)) /\
                                    Compas.person_id r = People.id p /\
                                    Compas.type_of_assessment r = t) :
  row_notna row = true /\ In row (rows (dropna df)).
Proof.
  assert (Hgoal : row_notna row = true).
  2:{ split; [exact Hgoal|]. unfold dropna. cbn [rows]. apply filter_In.
      split; [exact (nth_error_In _ _ Hrow)|exact Hgoal]. }
  unfold ext_people in Hrun.
  inv_bind Hrun. rename x into ext. inv_bind Hrun. rename x into df0.
  destruct (join_cell_rows _ _ _ H0) as (w & Hw & Hcols & Hrows).
  destruct (rename_cell_rows _ _ _ Hrun) as (Hc & j0 & Hj0 & HF).
  assert (j0 = 0%nat).
  { rewrite Hc, Hcols, rename_columns_map in Hj0.
    change (col_index "male" (map (rename_one repl) ("sex" :: "age" :: _)))
      with (Some 0%nat) in Hj0. congruence. }
  subst j0.
  destruct (Forall2_nth_error_l _ _ _ _ _ (age_cell_rows _ _ _ H) Hp)
    as (e & He & (d & a & _ & Ha & Ee)).
  destruct (Forall2_nth_error_r _ _ _ _ _ HF Hrow) as (r0 & Hr0 & Hren).
  rewrite Hrows, nth_error_map, He in Hr0. cbn [option_map] in Hr0.
  injection Hr0 as <-.
  assert (Hid : person_id e = People.id p) by (now subst e).
  destruct Hscreened as (r & Hr & Hk).
  destruct (final_of_screened db w e r Hw Hr) as (o & cells & Hf & Ho & Hko & Hcs);
    [congruence|].
  rewrite Hf in Hren. subst e.
  change (joined_row w _)
    with (People.sex p :: People.age p
          :: People.others p
             ++ a :: Compas.marital_status o :: Compas.rec_supervision_level o :: cells)%list
    in Hren.
  destruct (renamed_row_head _ _ _ _ _ Hj0 Hren) as (z & t & -> & _ & Ht).
  unfold row_notna. cbn [forallb isna negb andb]. fold (row_notna t).
  apply (coerce_row_kept _ _ _ Ht).
  rewrite Hc, Hcols, rename_columns_map. cbn [map tl sex age others age_at_first_arrest].
  cbn [person_id] in Hko, Hcs.
  destruct (Hcomplete o Ho Hko) as (Hm & Hs & _).
  constructor; [split; [exact Hage|intros H'; vm_compute in H'; discriminate]|].
  rewrite map_app. apply Forall2_app.
  - apply Forall2_In_all; [rewrite length_map; symmetry; exact Hlen|].
    intros c b Hcin Hb. split; [exact (Hcells b Hb)|].
    intros H'. apply in_map_iff in Hcin. destruct Hcin as (c0 & <- & Hc0).
    rewrite (Hlabels c0 Hc0) in H'. discriminate.
  - cbn [map app].
    constructor; [split; [exact (time_diff_kept _ _ _ _ Ha Hage)
                         |intros H'; vm_compute in H'; discriminate]|].
    constructor; [split; [exact Hm|intros H'; vm_compute in H'; discriminate]|].
    constructor; [split; [exact Hs|intros H'; vm_compute in H'; discriminate]|].
    apply (wide_cells_kept _ _ _ _ Hw Hcs Htypes); [|exact Hall].
    intros r' Hr' Hk'. destruct (Hcomplete r' Hr' Hk') as (_ & _ & H1 & H2 & H3 & H4). auto.
Qed.

End Written.

(** ** The header of the person table *)

Lemma sorted_labels_unique (l l' : list string) :
  StronglySorted (fun a b => String.leb a b = true) l ->
  StronglySorted (fun a b => String.leb a b = true) l' ->
  NoDup l -> NoDup l' -> (forall k, In k l <-> In k l') -> l = l'.
Proof.
  intros Hs; revert l'. induction Hs as [|a l Hs IH Ha]; intros l' Hs' Hn Hn' Hin.
  - destruct l' as [|b l']; [reflexivity|]. exfalso. apply (Hin b). now left.
  - destruct l' as [|b l']; [exfalso; apply (Hin a); now left|].
    inversion Hs' as [|? ? Hs'' Hb]; subst.
    inversion Hn as [|? ? Hna Hnl]; subst. inversion Hn' as [|? ? Hnb Hnl']; subst.
    rewrite Forall_forall in Ha, Hb.
    assert (E : a = b).
    { destruct (proj1 (Hin a) (or_introl eq_refl)) as [E|Hin1]; [congruence|].
      destruct (proj2 (Hin b) (or_introl eq_refl)) as [E|Hin2]; [congruence|].
      apply String.leb_antisym; auto. }
    subst b. f_equal. apply IH; auto.
    intros k. split; intros Hk.
    + destruct (proj1 (Hin k) (or_intror Hk)) as [E|H]; [congruence|exact H].
    + destruct (proj2 (Hin k) (or_intror Hk)) as [E|H]; [congruence|exact H].
Qed.

Lemma pivot_labels_three (l : list Compas.row) :
  (forall r, In r l -> In (Compas.type_of_assessment r) assessment_types) ->
  (forall t, In t assessment_types -> In t (map Compas.type_of_assessment l)) ->
  pivot_labels Compas.type_of_assessment l = assessment_types.
Proof.
  intros Hsub Hsup. apply sorted_labels_unique.
  - apply sort_values_sorted; [apply String.leb_total|apply string_leb_trans].
  - repeat constructor.
  - unfold pivot_labels.
    eapply Permutation_NoDup; [symmetry; apply sort_values_perm|apply NoDup_nodup].
  - repeat (constructor; [simpl; intuition discriminate|]). constructor.
  - intros t. rewrite pivot_labels_In. split; [|apply Hsup].
    intros Ht. apply in_map_iff in Ht. destruct Ht as (r & <- & Hr). now apply Hsub.
Qed.

(** Property X20.  When the three assessment types, and no other, occur in the
    first screenings, the person table is written under this header: [male]
    and [age], the other labels of [people] as the renaming leaves them, the
    age at first arrest, the marital status, the supervision level, and the
    nine scores, raw scores first and texts last, each in the order of the
    type names. *)
Theorem written_header
        (float_of_str : string -> option spec_float) (db : database) (out : outputs)
        (Hrun : run float_of_str db = Ok out)
        (Hsub : forall r, In r (first_screening_df (compas db)) ->
                          In (Compas.type_of_assessment r) assessment_types)
        (Hsup : forall t, In t assessment_types ->
                          In t (map Compas.type_of_assessment
                                    (first_screening_df (compas db)))) :
  columns (compas_csv out)
  = ("male" :: "age" :: map (rename_one repl) (people_others db)
     ++ ["age_at_first_arrest"; "marital_status"; "slevel";
         "rs_fta"; "rs_grecid"; "rs_vrecid";
         "ds_fta"; "ds_grecid"; "ds_vrecid";
         "fta_text"; "grecid_text"; "vrecid_text"])%list.
Proof.
  unfold run in Hrun. inv_bind Hrun. rename x into df. injection Hrun as <-.
  cbn [compas_csv dropna columns].
  unfold ext_people in H. inv_bind H. inv_bind H. rename x0 into df0.
  destruct (join_cell_rows _ _ _ H1) as (w & Hw & Hcols & _).
  destruct (rename_cell_rows _ _ _ H) as (Hc & _).
  rewrite Hc, Hcols, rename_columns_map, (pivoted_df_columns _ _ Hw).
  rewrite (pivot_labels_three _ Hsub Hsup).
  cbn [map]. rewrite map_app. reflexivity.
Qed.

(** ** The arrests of other persons *)

Lemma arrest_of_own_records (arrests arrests' : list Casearrest.row) (k : Z) :
  (forall a, Casearrest.person_id a = k -> (In a arrests <-> In a arrests')) ->
  arrest_of arrests k = arrest_of arrests' k.
Proof.
  intros Hown. unfold arrest_of, first_arrest. rewrite !find_keyed_map.
  set (leb := fun a b => opt_str_leb (Casearrest.arrest_date a) (Casearrest.arrest_date b)).
  assert (Hkeys : forall l l' : list Casearrest.row,
            (forall a, Casearrest.person_id a = k -> In a l -> In a l') ->
            In k (group_keys (map Casearrest.person_id (sort_values leb l))) ->
            In k (group_keys (map Casearrest.person_id (sort_values leb l')))).
  { intros l l' H Hin. apply (proj1 (group_keys_In _ _)) in Hin.
    apply (proj2 (group_keys_In _ _)).
    apply in_map_iff in Hin. destruct Hin as (a & Ha & Hin). apply in_map_iff.
    exists a. split; [exact Ha|].
    apply (Permutation_in _ (Permutation_sym (sort_values_perm leb l'))).
    apply (H a Ha). exact (Permutation_in _ (sort_values_perm leb l) Hin). }
  set (dates := fun l => map Casearrest.arrest_date
                             (filter (fun a => Casearrest.person_id a =? k) (sort_values leb l))).
  assert (Hsame : first_notnull (dates arrests) = first_notnull (dates arrests')).
  { assert (Hsorted : forall l, StronglySorted (fun a b => opt_str_leb a b = true) (dates l)).
    { intros l. apply StronglySorted_map, filter_sorted.
      apply sort_values_sorted; intros; unfold leb in *;
        eauto using opt_str_leb_total, opt_str_leb_trans. }
    assert (Hdated : forall u, dated_arrest arrests k u <-> dated_arrest arrests' k u).
    { intros u. unfold dated_arrest.
      split; intros (a & Ha & Hk & Hd); exists a; (split; [|auto]); now apply (Hown a Hk). }
    destruct (first_notnull (dates arrests)) as [s|] eqn:E.
    - pose proof (first_notnull_In _ _ E) as Hs.
      destruct (first_notnull_min _ (Hsorted arrests)) as [Hmin _].
      destruct (Hmin s Hs) as (s0 & E0 & _ & Hle). rewrite E in E0. injection E0 as <-.
      assert (Hs' : In (Some s) (dates arrests'))
        by (apply arrest_dates_In, Hdated, arrest_dates_In; exact Hs).
      destruct (first_notnull_min _ (Hsorted arrests')) as [Hmin' _].
      destruct (Hmin' s Hs') as (s' & E' & Hin' & Hle'). rewrite E'. f_equal.
      apply String.leb_antisym.
      + apply Hle. apply arrest_dates_In, Hdated, arrest_dates_In. exact Hin'.
      + apply Hle'. exact Hs'.
    - symmetry. apply first_notnull_None. intros u Hu.
      apply (proj1 (first_notnull_None _) E u).
      apply arrest_dates_In, Hdated, arrest_dates_In. exact Hu. }
  fold leb. fold (dates arrests) (dates arrests'). rewrite Hsame.
  destruct (in_dec Z.eq_dec k _) as [Hin|Hn], (in_dec Z.eq_dec k _) as [Hin'|Hn'];
    try reflexivity; exfalso.
  - apply Hn'. apply (Hkeys arrests arrests'); [|exact Hin]. intros a Ha. now apply Hown.
  - apply Hn. apply (Hkeys arrests' arrests); [|exact Hin']. intros a Ha. now apply Hown.
Qed.

(** Property X26.  The age at first arrest of a person depends on the arrest
    records of that person only: with the records of the other persons
    changed, added or taken away, the age cell gives the person the same row. *)
Theorem arrests_of_others_do_not_matter
        (arrests arrests' : list Casearrest.row) (people : list People.row)
        (ext ext' : list ext_person) (i : nat) (p : People.row)
        (Hrun : age_cell arrests people = Ok ext)
        (Hrun' : age_cell arrests' people = Ok ext')
        (Hp : nth_error people i = Some p)
        (Hown : forall a, Casearrest.person_id a = People.id p ->
                          (In a arrests <-> In a arrests')) :
  nth_error ext i = nth_error ext' i.
Proof.
  destruct (Forall2_nth_error_l _ _ _ _ _ (age_cell_rows _ _ _ Hrun) Hp)
    as (e & He & (d & a & Hd & Ha & ->)).
  destruct (Forall2_nth_error_l _ _ _ _ _ (age_cell_rows _ _ _ Hrun') Hp)
    as (e' & He' & (d' & a' & Hd' & Ha' & ->)).
  rewrite He, He'. rewrite (arrest_of_own_records _ _ _ Hown) in Ha.
  assert (d' = d) by congruence. subst d'.
  assert (a' = a) by congruence. now subst a'.
Qed.

(** ** The first screenings and the bin tables *)

(** Property X27.  The scores that the person table takes from a first
    screening are rows of the bin tables: every row of [first_screening_df]
    whose three scores are not null has them as a row of the bin table of its
    type. *)
Theorem first_screening_scores_are_binned (compas : list Compas.row) (r : Compas.row)
        (Hr : In r (first_screening_df compas))
        (Hscores : row_notna (score_triple r) = true) :
  In (score_triple r) (rows (bins (Compas.type_of_assessment r) compas)).
Proof.
  rewrite bins_rows_scored. apply in_map. apply filter_In.
  destruct (first_screening_df_valid_rows _ _ Hr) as [Hin Hv].
  split; [exact Hin|]. unfold scored. rewrite Hv, Hscores, String.eqb_refl. reflexivity.
Qed.

(** ** The further properties on the example data *)

Lemma time_diff_exchanged_witness :
  time_diff "2000-01-01" "1980-01-01" VNull = Ok (VInt (- 20)).
Proof.
  apply (time_diff_exchanged "1980-01-01" "2000-01-01" (VInt 40) VNull
           (Py.mkdate 1980 1 1) (Py.mkdate 2000 1 1) 20).
  - reflexivity.
  - reflexivity.
  - vm_compute. reflexivity.
Defined.

Lemma time_diff_nearest_year_witness :
  exists n,
    time_diff "1980-01-01" "2000-01-01" (VInt 40) = Ok (VInt n) /\
    Z.abs (1461 * n - 4 * Py.days_between (Py.mkdate 1980 1 1) (Py.mkdate 2000 1 1)) <= 730.
Proof.
  apply (time_diff_nearest_year "1980-01-01" "2000-01-01" (VInt 40)).
  - reflexivity.
  - reflexivity.
  - vm_compute. split; reflexivity.
Defined.

Lemma time_diff_monotone_witness :
  exists n n',
    time_diff "1980-01-01" "2000-01-01" (VInt 40) = Ok (VInt n) /\
    time_diff "1980-01-01" "2005-03-01" (VInt 40) = Ok (VInt n') /\
    0 <= n <= n'.
Proof.
  apply (time_diff_monotone "1980-01-01" "2000-01-01" "2005-03-01" (VInt 40)
           (Py.mkdate 1980 1 1) (Py.mkdate 2000 1 1) (Py.mkdate 2005 3 1)).
  - reflexivity.
  - reflexivity.
  - reflexivity.
  - vm_compute. discriminate.
  - vm_compute. discriminate.
  - vm_compute. reflexivity.
Defined.

Lemma time_diff_anniversary_witness :
  time_diff "1980-02-29" "2000-02-29" (VInt 40) = Ok (VInt 20).
Proof.
  apply (time_diff_anniversary "1980-02-29" "2000-02-29" (VInt 40) 1980 2 29 20).
  - reflexivity.
  - reflexivity.
  - lia.
Defined.

Lemma dob_without_text_stops_the_run_witness :
  run no_float_text null_dob_db = Raise AttributeError.
Proof.
  apply (dob_without_text_stops_the_run no_float_text null_dob_db
           (People.mkrow 1 (VStr "Male") VNull (VInt 40) [])).
  - left. reflexivity.
  - intros b. discriminate.
Defined.

Lemma unreadable_date_stops_the_run_witness :
  run no_float_text unreadable_arrest_db = Raise ValueError.
Proof.
  apply (unreadable_date_stops_the_run no_float_text unreadable_arrest_db
           (People.mkrow 1 (VStr "Male") (VStr "1980-01-01 00:00:00.000000") (VInt 40) [])
           "1980-01-01 00:00:00.000000" "2000-02-30 00:00:00.000000").
  - intros q [<-|[]]. eexists. reflexivity.
  - left. reflexivity.
  - reflexivity.
  - split.
    + exists (Casearrest.mkrow 1 (Some "2000-02-30 00:00:00.000000")).
      split; [left; reflexivity|]. split; reflexivity.
    + intros t (a & [<-|[]] & _ & Hd). injection Hd as <-. reflexivity.
  - discriminate.
  - right. split; reflexivity.
Defined.

Lemma age_at_first_arrest_without_dated_arrest_witness :
  VInt 26 = People.age person_3.
Proof.
  apply (age_at_first_arrest_without_dated_arrest
           example_arrests example_people example_ext person_3
           (mkext 3 (VStr "Female") (VInt 26) [VInt 1] (VInt 26))).
  - vm_compute. reflexivity.
  - right. right. left. reflexivity.
  - intros s (a & Ha & Hk & Hd).
    destruct Ha as [<-|[<-|[<-|[<-|[]]]]]; discriminate.
Defined.

Lemma arrest_order_is_irrelevant_witness :
  run no_float_text example_db = run no_float_text example_db_reversed.
Proof.
  apply (arrest_order_is_irrelevant no_float_text example_db example_db_reversed).
  - reflexivity.
  - reflexivity.
  - reflexivity.
  - apply Permutation_rev.
Defined.

Lemma duplicate_type_stops_the_run_witness :
  run no_float_text twice_scored_db = Raise ValueError.
Proof.
  apply (duplicate_type_stops_the_run no_float_text twice_scored_db example_ext
           [] [] example_compas
           (assessment 1 7 "Risk of Violence" (decimal 32 10) 4 "Medium")
           (assessment 1 7 "Risk of Violence" (decimal 35 10) 5 "Medium")).
  - vm_compute. reflexivity.
  - reflexivity.
  - reflexivity.
  - reflexivity.
  - reflexivity.
  - reflexivity.
  - reflexivity.
  - intros r Hr Hv Hp.
    destruct Hr as [<-|[<-|[<-|[<-|[<-|[<-|[<-|[<-|[<-|[]]]]]]]]]];
      try discriminate; vm_compute; discriminate.
Defined.

Lemma one_row_per_person_witness :
  exists df,
    ext_people no_float_text example_db = Ok df /\
    List.length (rows df) = List.length (people example_db) /\
    compas_csv example_out = dropna df /\
    (List.length (rows (compas_csv example_out)) <= List.length (people example_db))%nat.
Proof.
  apply (one_row_per_person no_float_text example_db example_out).
  vm_compute. reflexivity.
Defined.

Lemma rows_fit_the_header_witness :
  ext_people no_float_text example_db = Ok example_ext_people /\
  forall row, In row (rows example_ext_people) ->
              List.length row = List.length (columns example_ext_people).
Proof.
  assert (Hrun : ext_people no_float_text example_db = Ok example_ext_people)
    by (vm_compute; reflexivity).
  split; [exact Hrun|].
  apply (rows_fit_the_header no_float_text example_db example_ext_people Hrun).
  intros p [<-|[<-|[<-|[]]]]; reflexivity.
Defined.

Lemma rename_leaves_other_labels_witness :
  List.length (rename_columns repl ["sex"; "age"; "priors_count"]) = 3%nat /\
  nth_error (rename_columns repl ["sex"; "age"; "priors_count"]) 2 = Some "priors_count".
Proof.
  apply (rename_leaves_other_labels repl ["sex"; "age"; "priors_count"] 2 "priors_count").
  - reflexivity.
  - intros kv Hkv.
    destruct Hkv as [<-|[<-|[<-|[<-|[<-|[<-|[<-|[<-|[<-|[<-|[]]]]]]]]]]]; reflexivity.
Defined.

Lemma retyping_leaves_other_cells_witness :
  nth_error [VInt 1; VInt 4; VStr "Medium"] 2 = Some (VStr "Medium").
Proof.
  apply (retyping_leaves_other_cells no_float_text example_frame example_frame_renamed
           0 2 "vrecid_text" [VStr "Male"; VInt 4; VStr "Medium"]).
  - vm_compute. reflexivity.
  - reflexivity.
  - reflexivity.
  - discriminate.
  - reflexivity.
  - reflexivity.
  - reflexivity.
Defined.

Lemma run_raises_witness :
  AttributeError = AttributeError \/ AttributeError = ValueError \/
  AttributeError = TypeError \/ AttributeError = OverflowError.
Proof.
  apply (run_raises no_float_text null_dob_db AttributeError).
  reflexivity.
Defined.

Lemma split_space_0_cuts_the_time_witness :
  Py.split_space_0 "1980-01-01 00:00:00.000000" = "1980-01-01" /\
  Py.split_space_0 "1980-01-01" = "1980-01-01" /\
  dob_date (VStr "1980-01-01 00:00:00.000000") = Ok "1980-01-01".
Proof.
  apply (split_space_0_cuts_the_time "1980-01-01" "00:00:00.000000").
  reflexivity.
Defined.

Lemma run_returns_witness : exists out, run no_float_text example_db = Ok out.
Proof.
  apply (run_returns no_float_text example_db).
  - discriminate.
  - repeat constructor.
    + exists "1980-01-01 00:00:00.000000", (Py.mkdate 1980 1 1).
      split; [reflexivity|]. split; [reflexivity|]. right.
      exists (Py.mkdate 2000 1 1). split; [vm_compute; reflexivity|].
      vm_compute. split; [discriminate|reflexivity].
    + exists "1981-05-05 00:00:00.000000", (Py.mkdate 1981 5 5).
      split; [reflexivity|]. split; [reflexivity|]. left. vm_compute. reflexivity.
    + exists "1990-07-31 00:00:00.000000", (Py.mkdate 1990 7 31).
      split; [reflexivity|]. split; [reflexivity|]. left. vm_compute. reflexivity.
  - intros p [<-|[<-|[<-|[]]]]; auto.
  - intros p [<-|[<-|[<-|[]]]]; reflexivity.
  - intros c [<-|[]]. reflexivity.
  - vm_compute. repeat (constructor; [simpl; intuition discriminate|]). constructor.
  - intros r Hr. vm_compute in Hr.
    destruct Hr as [<-|[<-|[<-|[<-|[<-|[]]]]]]; split; vm_compute; auto.
Defined.

Lemma complete_person_is_written_witness :
  row_notna (nth 0 (rows example_ext_people) []) = true /\
  In (nth 0 (rows example_ext_people) []) (rows (dropna example_ext_people)).
Proof.
  apply (complete_person_is_written no_float_text example_db example_ext_people 0 person_1).
  - vm_compute. reflexivity.
  - reflexivity.
  - reflexivity.
  - intros c [<-|[]]. reflexivity.
  - intros r Hr. vm_compute in Hr.
    destruct Hr as [<-|[<-|[<-|[<-|[<-|[]]]]]]; vm_compute; auto.
  - reflexivity.
  - reflexivity.
  - intros v [<-|[]]. reflexivity.
  - exists (assessment 1 7 "Risk of Violence" (decimal 32 10) 4 "Medium").
    split; [vm_compute; auto|reflexivity].
  - intros r Hr Hk. vm_compute in Hr.
    destruct Hr as [<-|[<-|[<-|[<-|[<-|[]]]]]]; try discriminate Hk;
      repeat split; reflexivity.
  - intros t Ht. vm_compute in Ht.
    destruct Ht as [<-|[<-|[<-|[<-|[<-|[]]]]]].
    + exists (assessment 1 7 "Risk of Violence" (decimal 32 10) 4 "Medium").
      split; [vm_compute; auto|]. split; reflexivity.
    + exists (assessment 1 7 "Risk of Recidivism" (decimal 11 10) 2 "Low").
      split; [vm_compute; auto|]. split; reflexivity.
    + exists (assessment 1 7 "Risk of Failure to Appear" (decimal 15 10) 3 "Low").
      split; [vm_compute; auto|]. split; reflexivity.
    + exists (assessment 1 7 "Risk of Violence" (decimal 32 10) 4 "Medium").
      split; [vm_compute; auto|]. split; reflexivity.
    + exists (assessment 1 7 "Risk of Recidivism" (decimal 11 10) 2 "Low").
      split; [vm_compute; auto|]. split; reflexivity.
Defined.

Lemma written_header_witness :
  columns (compas_csv example_out)
  = ("male" :: "age" :: map (rename_one repl) ["priors_count"]
     ++ ["age_at_first_arrest"; "marital_status"; "slevel";
         "rs_fta"; "rs_grecid"; "rs_vrecid";
         "ds_fta"; "ds_grecid"; "ds_vrecid";
         "fta_text"; "grecid_text"; "vrecid_text"])%list.
Proof.
  apply (written_header no_float_text example_db example_out).
  - vm_compute. reflexivity.
  - intros r Hr. vm_compute in Hr.
    destruct Hr as [<-|[<-|[<-|[<-|[<-|[]]]]]]; vm_compute; auto.
  - intros t Ht. destruct Ht as [<-|[<-|[<-|[]]]]; vm_compute; auto.
Defined.

Lemma arrests_of_others_do_not_matter_witness :
  nth_error example_ext 1
  = nth_error [mkext 1 (VStr "Male") (VInt 40) [VInt 0] (VInt 40);
               mkext 2 (VStr "Female") (VInt 35) [VInt 2] (VInt 35);
               mkext 3 (VStr "Female") (VInt 26) [VInt 1] (VInt 26)] 1.
Proof.
  apply (arrests_of_others_do_not_matter
           example_arrests [Casearrest.mkrow 7 (Some "1999-09-09 00:00:00.000000")]
           example_people example_ext
           [mkext 1 (VStr "Male") (VInt 40) [VInt 0] (VInt 40);
            mkext 2 (VStr "Female") (VInt 35) [VInt 2] (VInt 35);
            mkext 3 (VStr "Female") (VInt 26) [VInt 1] (VInt 26)]
           1 person_2).
  - vm_compute. reflexivity.
  - vm_compute. reflexivity.
  - reflexivity.
  - intros a Ha. split.
    + intros [<-|[<-|[<-|[<-|[]]]]]; discriminate.
    + intros [<-|[]]. discriminate.
Defined.

Lemma first_screening_scores_are_binned_witness :
  In [VFloat (decimal 32 10); VInt 4; VStr "Medium"]
     (rows (bins "Risk of Violence" example_compas)).
Proof.
  apply (first_screening_scores_are_binned example_compas
           (assessment 1 7 "Risk of Violence" (decimal 32 10) 4 "Medium")).
  - vm_compute. auto.
  - reflexivity.
Defined.
